(** * Adaptive test assembly and grading: a shallow embedding

    The development follows [src/utils/smartQuestionSelector.js] (class
    [SmartQuestionSelector]) and [src/controllers/testController.js]
    ([getTestById], [submitTest]); further down it takes in
    [deleteQuestion] and the adaptive-difficulty handler of
    [src/controllers/questionController.js], the template fallback and
    [saveGeneratedQuestions] of the question generator, and the selection
    [submitLeaveRequest] asks for.  JavaScript numbers are IEEE binary64
    values, so percentages, accuracies and thresholds are computed on Rocq's
    primitive floats; counts that the code only ever increments are naturals,
    counts obtained by rounding and subtraction are integers. *)

From Stdlib Require Import ZArith Uint63 Floats Ascii String List Lia.
From stdpp Require Import base gmap strings pretty list fin_maps.

Set Warnings "-inexact-float,-register-all".

Local Open Scope string_scope.
Local Open Scope list_scope.

(** ** JavaScript numbers *)

Module JS.

(** An integer used as a JavaScript number: the nearest binary64 value
    (exact below 2^53; the counts handled here stay far below 2^63). *)
Definition num (z : Z) : float :=
  if (z <? 0)%Z then (- of_uint63 (Uint63.of_Z (- z)))%float
  else of_uint63 (Uint63.of_Z z).

(** [floor (x + k/2)] for [k] in {0, 1}, computed exactly from the mantissa
    and the exponent of [x].  NaN and the infinities, which no finite
    configuration produces, are sent to 0. *)
Definition floor_half (k : Z) (x : float) : Z :=
  match Prim2SF x with
  | S754_finite s m e =>
      let n := if s then Z.neg m else Z.pos m in
      if (0 <=? e)%Z then (n * 2 ^ e)%Z
      else ((2 * n + k * 2 ^ (- e)) / 2 ^ (1 - e))%Z
  | _ => 0%Z
  end.

(** [Math.round]: nearest integer, ties towards +infinity. *)
Definition Math_round (x : float) : Z := floor_half 1 x.

Definition Math_floor (x : float) : Z := floor_half 0 x.

Definition Math_ceil (x : float) : Z := (- Math_floor (- x)%float)%Z.

(** [x || 0] on a possibly missing number: undefined, NaN and 0 are falsy. *)
Definition or_zero (x : option float) : float :=
  match x with
  | Some v => if PrimFloat.is_nan v then 0%float else v
  | None => 0%float
  end.

End JS.

(** ** Question breakdown ([calculateQuestionBreakdown]) *)

Record DifficultyDist := {
  easy : float;
  medium : float;
  hard : float;
}.

Record TypeDist := {
  MCQ : float;
  Coding : option float;
  TrueFalse : float;
}.

(** One entry [{ difficulty, type, count }] of the breakdown. *)
Record BreakdownEntry := {
  req_difficulty : string;
  req_type : string;
  req_count : Z;
}.

(** [Math.round(n * (pct / 100))]. *)
Definition roundShare (n : Z) (pct : float) : Z :=
  JS.Math_round (JS.num n * (pct / 100))%float.

Definition mcqCountOf (typeDist : TypeDist) (count : Z) : Z :=
  roundShare count (MCQ typeDist).

Definition codingCountOf (typeDist : TypeDist) (count : Z) : Z :=
  roundShare count (JS.or_zero (Coding typeDist)).

(** The body of the loop over [difficulties]. *)
Definition tierEntries (typeDist : TypeDist) (d : string * Z)
  : list BreakdownEntry :=
  let '(difficulty, count) := d in
  if (count <=? 0)%Z then []
  else
    let mcqCount := mcqCountOf typeDist count in
    let codingCount := codingCountOf typeDist count in
    let tfCount := (count - mcqCount - codingCount)%Z in
    (if (0 <? mcqCount)%Z
     then [ {| req_difficulty := difficulty; req_type := "MCQ";
               req_count := mcqCount |} ] else [])
    ++ (if (0 <? codingCount)%Z
        then [ {| req_difficulty := difficulty; req_type := "Coding";
                  req_count := codingCount |} ] else [])
    ++ (if (0 <? tfCount)%Z
        then [ {| req_difficulty := difficulty; req_type := "TrueFalse";
                  req_count := tfCount |} ] else []).

Definition easyCountOf (total : Z) (difficultyDist : DifficultyDist) : Z :=
  roundShare total (easy difficultyDist).

Definition mediumCountOf (total : Z) (difficultyDist : DifficultyDist) : Z :=
  roundShare total (medium difficultyDist).

Definition hardCountOf (total : Z) (difficultyDist : DifficultyDist) : Z :=
  (total - easyCountOf total difficultyDist
         - mediumCountOf total difficultyDist)%Z.

Definition calculateQuestionBreakdown (total : Z)
    (difficultyDist : DifficultyDist) (typeDist : TypeDist)
  : list BreakdownEntry :=
  let difficulties :=
    [ ("easy", easyCountOf total difficultyDist);
      ("medium", mediumCountOf total difficultyDist);
      ("hard", hardCountOf total difficultyDist) ] in
  flat_map (tierEntries typeDist) difficulties.

(** Sum of the [count] fields of a breakdown. *)
Definition sumCounts (breakdown : list BreakdownEntry) : Z :=
  foldr (fun e acc => (req_count e + acc)%Z) 0%Z breakdown.

(** The defaults of [selectQuestionsForTest]. *)
Definition defaultDifficultyDist : DifficultyDist :=
  {| easy := 30; medium := 50; hard := 20 |}.

Definition defaultTypeDist : TypeDist :=
  {| MCQ := 70; Coding := Some 20%float; TrueFalse := 10 |}.

(** ** Data model *)

(** An ObjectId is handled through its text: [q._id.toString()] is the
    identity on this representation, and two ObjectIds are equal when their
    texts are.  Where the code hands the database a text in the place of an
    ObjectId the difference is kept (see [IdValue]). *)
Definition ObjectId := string.

(** A test case; [tc_input] is the text spliced into [solution(...)] and
    [tc_output] is [String(testCase.output)]. *)
Record TestCase := {
  tc_input : string;
  tc_output : string;
}.

(** Modelled from the spec: the Question schema ([models/questionModel.js] is
    not part of the sources); the fields are those the selector and the
    grader read. *)
Record Question := {
  q_id : ObjectId;
  questionType : string;
  difficulty : string;
  category : string;
  questionText : string;
  correctAnswer : string;
  testCases : list TestCase;
  isActive : bool;
}.

(** A generated question before it is saved (no identity yet). *)
Record QuestionDraft := {
  d_questionType : string;
  d_difficulty : string;
  d_category : string;
  d_questionText : string;
  d_correctAnswer : string;
  d_testCases : list TestCase;
}.

(** One element of [req.body.answers]. *)
Record Answer := {
  questionId : string;
  answer : string;
}.

Record SeenQuestion := {
  sq_question : ObjectId;
  sq_test : ObjectId;
  seenAt : Z;
  answeredCorrectly : bool;
}.

Record Perf := {
  attempted : nat;
  correct : nat;
}.

(** [models/studentQuestionHistoryModel.js]. *)
Record StudentQuestionHistory := {
  student : ObjectId;
  seenQuestions : list SeenQuestion;
  totalQuestionsAttempted : nat;
  correctAnswers : nat;
  categoryPerformance : gmap string Perf;
  difficultyPerformance : gmap string Perf;
}.

Record QuestionPool := {
  pool_id : ObjectId;
  pool_questions : list ObjectId;
  isDefault : bool;
  pool_isActive : bool;
}.

Record TestConfig := {
  passingPercentage : option float;
  shuffleQuestions : bool;
  shuffleOptions : bool;
}.

(** The Test schema ([models/testModel.js]), restricted to the fields the
    two handlers read or write and to three fields of [config];
    [test_questions] holds references that [populate('questions')]
    resolves.  [score] has the default 0; the fields left out ([totalPoints],
    [startTime], [endTime], [analytics], [expiresAt], the other switches of
    [config] and the timestamps) are not touched by the handlers. *)
Record Test := {
  test_id : ObjectId;
  test_questions : list ObjectId;
  test_leaveRequest : ObjectId;
  test_student : ObjectId;
  test_config : TestConfig;
  test_score : option nat;
  test_status : string;
}.

(** The Submission schema ([models/submissionModel.js]); the first
    component of an element of [sub_answers] is [question], the second
    [answer]. *)
Record Submission := {
  sub_test : ObjectId;
  sub_leaveRequest : ObjectId;
  sub_student : ObjectId;
  sub_answers : list (string * string);
  sub_score : nat;
  sub_totalQuestions : nat;
  sub_isPassed : bool;
  sub_tabSwitchCount : nat;
}.

Record LeaveRequest := {
  lr_subject : string;
  lr_status : string;
}.

Record User := {
  u_id : ObjectId;
  u_name : string;
  u_email : string;
  u_role : string;
}.

Record Notification := {
  n_user : ObjectId;
  n_title : string;
  n_message : string;
  n_type : string;
  n_link : string;
}.

(** The arguments of [sendTestCompletedEmail]. *)
Record Email := {
  m_to : string;
  m_adminName : string;
  m_studentName : string;
  m_studentEmail : string;
  m_subject : string;
  m_score : nat;
  m_totalQuestions : nat;
  m_isPassed : bool;
}.

(** JSON values sent to the client. *)
Inductive value :=
| VNull
| VBool (b : bool)
| VNum (n : Z)
| VFloat (x : float)
| VStr (s : string)
| VArr (l : list value)
| VObj (o : gmap string value).

(** What a computation completes with: a value, or a thrown error carrying
    the HTTP status the error middleware answers with. *)
Record Error := {
  err_status : nat;
  err_message : string;
}.

Inductive Completion (A : Type) :=
| Normal (a : A)
| Thrown (e : Error).
Arguments Normal {A} a.
Arguments Thrown {A} e.

(** The request handed to the generator. *)
Record GenRequest := {
  g_category : string;
  g_difficulty : string;
  g_questionType : string;
  g_count : Z;
}.

(** ** The world the code runs in *)

(** The collections behind the Mongoose models. *)
Record Db := {
  questions : list Question;
  pools : list QuestionPool;
  histories : gmap ObjectId StudentQuestionHistory;
  tests : gmap ObjectId Test;
  submissions : list Submission;
  leaveRequests : gmap ObjectId LeaveRequest;
  users : list User;
  notifications : list Notification;
}.

(** The collaborators the code cannot control: the clock, the time zone of
    the host, the random source, the question generator, the identities the
    database hands out, the sandbox, and whether the history collection can
    be read or written.  [LocalTZA t isUTC] is the offset of local time from
    UTC in milliseconds, at the UTC instant [t] when [isUTC] is set and at
    the local time [t] otherwise. *)
Record Env := {
  clock : Z;
  LocalTZA : Z -> bool -> Z;
  random : nat -> nat;
  generator : GenRequest -> list QuestionDraft;
  objectIds : nat -> ObjectId;
  sandbox : string -> Completion string;
  historyReadFault : option Error;
  historyWriteFault : option Error;
}.

Record World := {
  env : Env;
  db : Db;
  randomPos : nat;
  idPos : nat;
  vmRuns : list string;
  console : list string;
  outbox : list Email;
}.

(** ** Computations: state passing with exceptions

    A write that happened before an error was thrown stays in the world, as
    with the database. *)

Definition Eff (A : Type) : Type := World -> Completion A * World.

#[global] Instance Eff_ret : MRet Eff := fun A a w => (Normal a, w).

#[global] Instance Eff_bind : MBind Eff := fun A B f m w =>
  match m w with
  | (Normal a, w') => f a w'
  | (Thrown e, w') => (Thrown e, w')
  end.

Definition throw {A} (e : Error) : Eff A := fun w => (Thrown e, w).

(** [try { body } catch (e) { handler e }]. *)
Definition tryCatch {A} (body : Eff A) (handler : Error -> Eff A) : Eff A :=
  fun w =>
    match body w with
    | (Normal a, w') => (Normal a, w')
    | (Thrown e, w') => handler e w'
    end.

Definition gets {A} (f : World -> A) : Eff A := fun w => (Normal (f w), w).

Definition modify (f : World -> World) : Eff unit := fun w => (Normal tt, f w).

(** [for (const x of l) { s = body x s }]. *)
Fixpoint forOf {A S} (l : list A) (body : A -> S -> Eff S) (s : S) : Eff S :=
  match l with
  | [] => mret s
  | x :: l' => s' ← body x s; forOf l' body s'
  end.

Definition typeError (msg : string) : Error :=
  {| err_status := 500; err_message := "TypeError: " +:+ msg |}.

(** *** Updating the world *)

Definition with_db (f : Db -> Db) (w : World) : World :=
  {| env := env w; db := f (db w); randomPos := randomPos w;
     idPos := idPos w; vmRuns := vmRuns w; console := console w;
     outbox := outbox w |}.

Definition with_randomPos (n : nat) (w : World) : World :=
  {| env := env w; db := db w; randomPos := n; idPos := idPos w;
     vmRuns := vmRuns w; console := console w; outbox := outbox w |}.

Definition with_idPos (n : nat) (w : World) : World :=
  {| env := env w; db := db w; randomPos := randomPos w; idPos := n;
     vmRuns := vmRuns w; console := console w; outbox := outbox w |}.

Definition with_vmRuns (l : list string) (w : World) : World :=
  {| env := env w; db := db w; randomPos := randomPos w; idPos := idPos w;
     vmRuns := l; console := console w; outbox := outbox w |}.

Definition with_console (l : list string) (w : World) : World :=
  {| env := env w; db := db w; randomPos := randomPos w; idPos := idPos w;
     vmRuns := vmRuns w; console := l; outbox := outbox w |}.

Definition with_outbox (l : list Email) (w : World) : World :=
  {| env := env w; db := db w; randomPos := randomPos w; idPos := idPos w;
     vmRuns := vmRuns w; console := console w; outbox := l |}.

Definition set_questions (l : list Question) (d : Db) : Db :=
  {| questions := l; pools := pools d; histories := histories d;
     tests := tests d; submissions := submissions d;
     leaveRequests := leaveRequests d; users := users d;
     notifications := notifications d |}.

Definition set_histories (m : gmap ObjectId StudentQuestionHistory) (d : Db)
  : Db :=
  {| questions := questions d; pools := pools d; histories := m;
     tests := tests d; submissions := submissions d;
     leaveRequests := leaveRequests d; users := users d;
     notifications := notifications d |}.

Definition set_tests (m : gmap ObjectId Test) (d : Db) : Db :=
  {| questions := questions d; pools := pools d; histories := histories d;
     tests := m; submissions := submissions d;
     leaveRequests := leaveRequests d; users := users d;
     notifications := notifications d |}.

Definition set_submissions (l : list Submission) (d : Db) : Db :=
  {| questions := questions d; pools := pools d; histories := histories d;
     tests := tests d; submissions := l;
     leaveRequests := leaveRequests d; users := users d;
     notifications := notifications d |}.

Definition set_leaveRequests (m : gmap ObjectId LeaveRequest) (d : Db) : Db :=
  {| questions := questions d; pools := pools d; histories := histories d;
     tests := tests d; submissions := submissions d;
     leaveRequests := m; users := users d;
     notifications := notifications d |}.

Definition set_notifications (l : list Notification) (d : Db) : Db :=
  {| questions := questions d; pools := pools d; histories := histories d;
     tests := tests d; submissions := submissions d;
     leaveRequests := leaveRequests d; users := users d;
     notifications := l |}.

(** *** Collaborators *)

(** [new Date()], in milliseconds. *)
Definition Date_now : Eff Z := gets (fun w => clock (env w)).

(** [Math.floor(Math.random() * bound)]: an integer below [bound], taken from
    the random source. *)
Definition Math_random_below (bound : nat) : Eff nat :=
  fun w =>
    (Normal (random (env w) (randomPos w) `mod` bound)%nat,
     with_randomPos (S (randomPos w)) w).

(** [StudentQuestionHistory.findOne({ student })]. *)
Definition StudentQuestionHistory_findOne (studentId : ObjectId)
  : Eff (option StudentQuestionHistory) :=
  fun w =>
    match historyReadFault (env w) with
    | Some e => (Thrown e, w)
    | None => (Normal (histories (db w) !! studentId), w)
    end.

(** [history.save()]. *)
Definition StudentQuestionHistory_save (history : StudentQuestionHistory)
  : Eff unit :=
  fun w =>
    match historyWriteFault (env w) with
    | Some e => (Thrown e, w)
    | None =>
        (Normal tt,
         with_db (fun d =>
           set_histories (<[student history := history]> (histories d)) d) w)
    end.

Definition QuestionPool_findById (id : ObjectId) : Eff (option QuestionPool) :=
  gets (fun w => List.find (fun p => String.eqb (pool_id p) id) (pools (db w))).

(** [QuestionPool.findOne({ isDefault: true, isActive: true })]. *)
Definition QuestionPool_findDefault : Eff (option QuestionPool) :=
  gets (fun w =>
    List.find (fun p => isDefault p && pool_isActive p) (pools (db w))).

(** [aiQuestionGenerator.generateQuestions(request)]. *)
Definition generateQuestions (request : GenRequest)
  : Eff (list QuestionDraft) :=
  gets (fun w => generator (env w) request).

(** [new Question({ ...q, isAIGenerated: true }).save()]: the database gives
    the document its identity. *)
Definition Question_save (q : QuestionDraft) : Eff Question :=
  fun w =>
    let saved :=
      {| q_id := objectIds (env w) (idPos w);
         questionType := d_questionType q; difficulty := d_difficulty q;
         category := d_category q; questionText := d_questionText q;
         correctAnswer := d_correctAnswer q; testCases := d_testCases q;
         isActive := true |} in
    (Normal saved,
     with_idPos (S (idPos w))
       (with_db (fun d => set_questions (questions d ++ [saved]) d) w)).

(** The body of the loop of [saveGeneratedQuestions]. *)
Definition saveOne (q : QuestionDraft) (savedQuestions : list Question)
  : Eff (list Question) :=
  saved ← Question_save q;
  mret (savedQuestions ++ [saved]).

(** [saveGeneratedQuestions]. *)
Definition saveGeneratedQuestions (questions : list QuestionDraft)
  : Eff (list Question) :=
  forOf questions saveOne [].

(** [new VM({ timeout: 1000, sandbox: {} }).run(code)], followed by
    [String(result)]; a runtime error and a timeout are both thrown. *)
Definition vm_run (code : string) : Eff string :=
  fun w => (sandbox (env w) code, with_vmRuns (vmRuns w ++ [code]) w).

Definition console_error (msg : string) : Eff unit :=
  modify (fun w => with_console (console w ++ [msg]) w).

(** ** The question store *)

(** A value that a [$match] stage compares with [_id].  The stages of
    [Model.aggregate] reach the database as they are written (Mongoose casts
    the conditions of [find], not the pipeline of [aggregate]), and the
    database never finds a string equal to an ObjectId.  The [_id] of a
    question is an ObjectId: the Test, Submission and QuestionPool schemas
    refer to questions by [Schema.Types.ObjectId]. *)
Inductive IdValue :=
| IdText (text : string)
| IdObject (id : ObjectId).

(** Whether the stored [_id] equals a value of a query. *)
Definition idEquals (id : ObjectId) (v : IdValue) : bool :=
  match v with
  | IdObject id' => String.eqb id id'
  | IdText _ => false
  end.

(** The [$match] stage built by [selectQuestions]. *)
Record Query := {
  m_difficulty : string;
  m_questionType : string;
  m_isActive : bool;
  m_id_nin : list IdValue;
  m_category_in : option (list string);
  m_id_in : option (list IdValue);
}.

Definition inIds (id : ObjectId) (ids : list ObjectId) : bool :=
  existsb (String.eqb id) ids.

Definition matchesQuery (query : Query) (q : Question) : bool :=
  String.eqb (difficulty q) (m_difficulty query)
  && String.eqb (questionType q) (m_questionType query)
  && Bool.eqb (isActive q) (m_isActive query)
  && negb (existsb (idEquals (q_id q)) (m_id_nin query))
  && match m_category_in query with
     | Some cs => inIds (category q) cs
     | None => true
     end
  && match m_id_in query with
     | Some ids => existsb (idEquals (q_id q)) ids
     | None => true
     end.

(** [[a[i], a[j]] = [a[j], a[i]]]. *)
Definition swap {A} (a : list A) (i j : nat) : list A :=
  match a !! i, a !! j with
  | Some x, Some y => <[j := x]> (<[i := y]> a)
  | _, _ => a
  end.

(** The loop of the Fisher-Yates shuffle, from index [i] down to 1. *)
Fixpoint shuffleFrom {A} (i : nat) (shuffled : list A) : Eff (list A) :=
  match i with
  | O => mret shuffled
  | S i' =>
      j ← Math_random_below (S i);
      shuffleFrom i' (swap shuffled i j)
  end.

(** [shuffleArray]. *)
Definition shuffleArray {A} (array : list A) : Eff (list A) :=
  shuffleFrom (length array - 1) array.

(** [Question.aggregate([{ $match: query }, { $sample: { size } }])]: up to
    [size] distinct documents among those that match, picked with the random
    source. *)
Definition Question_sample (query : Query) (size : Z) : Eff (list Question) :=
  stored ← gets (fun w => questions (db w));
  shuffled ← shuffleArray (List.filter (matchesQuery query) stored);
  mret (take (Z.to_nat size) shuffled).

(** ** class SmartQuestionSelector *)

Definition emptyHistory (studentId : ObjectId) : StudentQuestionHistory :=
  {| student := studentId; seenQuestions := [];
     totalQuestionsAttempted := 0; correctAnswers := 0;
     categoryPerformance := ∅; difficultyPerformance := ∅ |}.

Definition getStudentHistory (studentId : ObjectId)
  : Eff StudentQuestionHistory :=
  found ← StudentQuestionHistory_findOne studentId;
  match found with
  | Some history => mret history
  | None =>
      let history := emptyHistory studentId in
      StudentQuestionHistory_save history;; mret history
  end.

Definition msPerDay : Z := 86400000.

(** The largest time value of a Date, in milliseconds on either side of the
    epoch. *)
Definition maxTime : Z := 8640000000000000.

(** [TimeClip]: a time value outside the range of a Date makes the Date
    invalid. *)
Definition TimeClip (time : Z) : option Z :=
  if (maxTime <? Z.abs time)%Z then None else Some time.

(** [const cutoffDate = new Date();
    cutoffDate.setDate(cutoffDate.getDate() - days)]: the day of the month is
    set on the local calendar, so the local time of day is kept and the
    local date moves by [days] days, a whole number; the result is turned
    back into UTC and clipped.  [None] is the invalid Date. *)
Definition cutoffDate (e : Env) (days : Z) : option Z :=
  let t := (clock e + LocalTZA e (clock e) true)%Z in
  let newDate := (t - days * msPerDay)%Z in
  TimeClip (newDate - LocalTZA e newDate false)%Z.

(** [new Date(sq.seenAt) > cutoffDate]: no Date is later than the invalid
    one. *)
Definition laterThan (cutoff : option Z) (time : Z) : bool :=
  match cutoff with
  | Some c => (c <? time)%Z
  | None => false
  end.

(** [getRecentlySeenQuestionIds]: the identities are returned as texts,
    [sq.question.toString()]. *)
Definition getRecentlySeenQuestionIds (e : Env)
    (history : StudentQuestionHistory) (days : Z) : list string :=
  map sq_question
    (List.filter (fun sq => laterThan (cutoffDate e days) (seenAt sq))
       (seenQuestions history)).

(** The query of one cell.  [excludeIds] holds texts, those of
    [getRecentlySeenQuestionIds] and those [selectQuestions] pushes with
    [q._id.toString()]; [pool.questions] holds the ObjectIds of the pool
    document. *)
Definition queryFor (req : BreakdownEntry) (excludeIds : list string)
    (categories : option (list string)) (pool : option QuestionPool)
  : Query :=
  {| m_difficulty := req_difficulty req;
     m_questionType := req_type req;
     m_isActive := true;
     m_id_nin := map IdText excludeIds;
     m_category_in :=
       match categories with
       | Some (c :: cs) => Some (c :: cs)
       | _ => None
       end;
     m_id_in :=
       match pool with
       | Some p =>
           match pool_questions p with
           | [] => None
           | ids => Some (map IdObject ids)
           end
       | None => None
       end |}.

(** The body of the loop of [selectQuestions]: [selected] and [excludeIds]
    after the cell [req] has been drawn. *)
Definition drawCell (categories : option (list string))
    (pool : option QuestionPool) (req : BreakdownEntry)
    (state : list Question * list string)
  : Eff (list Question * list string) :=
  let '(selected, excludeIds) := state in
  questions ← Question_sample
                (queryFor req excludeIds categories pool) (req_count req);
  mret (selected ++ questions, excludeIds ++ map q_id questions).

(** [selectQuestions]; the second component is [excludeIds] as the loop
    leaves it (the array is extended in place). *)
Definition selectQuestions (breakdown : list BreakdownEntry)
    (excludeIds : list string) (categories : option (list string))
    (pool : option QuestionPool)
  : Eff (list Question * list string) :=
  forOf breakdown (drawCell categories pool) ([], excludeIds).

Definition typeKey (d t : string) : string := d +:+ "-" +:+ t.

Definition countByType (existing : list Question) : gmap string nat :=
  foldl (fun existingByType q =>
           let key := typeKey (difficulty q) (questionType q) in
           <[key := (default 0 (existingByType !! key) + 1)%nat]>
             existingByType)
        ∅ existing.

(** The body of the loop of [generateAdditionalQuestions]. *)
Definition generateCell (existingByType : gmap string nat)
    (categories : option (list string)) (req : BreakdownEntry)
    (generated : list Question) : Eff (list Question) :=
  let key := typeKey (req_difficulty req) (req_type req) in
  let have := default 0%nat (existingByType !! key) in
  let need := (req_count req - Z.of_nat have)%Z in
  if (0 <? need)%Z then
    category ←
      match categories with
      | Some (c :: cs) =>
          i ← Math_random_below (length (c :: cs));
          mret (default "" ((c :: cs) !! i))
      | _ => mret "General"
      end;
    questions ← generateQuestions
                  {| g_category := category;
                     g_difficulty := req_difficulty req;
                     g_questionType := req_type req;
                     g_count := need |};
    saved ← saveGeneratedQuestions questions;
    mret (generated ++ saved)
  else mret generated.

(** [array.slice(0, count)]: a negative [count] counts from the end. *)
Definition slice0 {A} (count : Z) (array : list A) : list A :=
  if (count <? 0)%Z
  then take (Z.to_nat (Z.of_nat (length array) + count)) array
  else take (Z.to_nat count) array.

(** [generateAdditionalQuestions]. *)
Definition generateAdditionalQuestions (count : Z)
    (breakdown : list BreakdownEntry) (existing : list Question)
    (categories : option (list string)) : Eff (list Question) :=
  let existingByType := countByType existing in
  generated ← forOf breakdown (generateCell existingByType categories) [];
  mret (slice0 count generated).

Definition checkAnswer (question : Question) (answer : string) : bool :=
  if String.eqb (questionType question) "MCQ"
     || String.eqb (questionType question) "TrueFalse"
  then String.eqb (correctAnswer question) answer
  else false.

Definition bump (isCorrect : bool) (perf : Perf) : Perf :=
  {| attempted := S (attempted perf);
     correct := if isCorrect then S (correct perf) else correct perf |}.

Definition noPerf : Perf := {| attempted := 0; correct := 0 |}.

(** The body of the loop over [questions] in [updateStudentHistory]. *)
Definition recordQuestion (testId : ObjectId) (now : Z)
    (answers : list Answer) (history : StudentQuestionHistory) (q : Question)
  : StudentQuestionHistory :=
  let found :=
    List.find (fun a => String.eqb (questionId a) (q_id q)) answers in
  let isCorrect :=
    match found with
    | Some a => checkAnswer q (answer a)
    | None => false
    end in
  let catPerf := default noPerf (categoryPerformance history !! category q) in
  let diffPerf :=
    default noPerf (difficultyPerformance history !! difficulty q) in
  {| student := student history;
     seenQuestions :=
       seenQuestions history
       ++ [ {| sq_question := q_id q; sq_test := testId; seenAt := now;
               answeredCorrectly := isCorrect |} ];
     totalQuestionsAttempted := totalQuestionsAttempted history;
     correctAnswers := correctAnswers history;
     categoryPerformance :=
       <[category q := bump isCorrect catPerf]> (categoryPerformance history);
     difficultyPerformance :=
       <[difficulty q := bump isCorrect diffPerf]>
         (difficultyPerformance history) |}.

(** [answers.filter((a, i) => this.checkAnswer(questions[i], a.answer))],
    from index [i] on; reading a field of [questions[i]] past the end of
    [questions] throws. *)
Fixpoint filterByIndex (questions : list Question) (i : nat)
    (answers : list Answer) : Eff (list Answer) :=
  match answers with
  | [] => mret []
  | a :: rest =>
      match questions !! i with
      | None =>
          throw (typeError "Cannot read properties of undefined")
      | Some q =>
          kept ← filterByIndex questions (S i) rest;
          mret (if checkAnswer q (answer a) then a :: kept else kept)
      end
  end.

(** [updateStudentHistory] once the history is loaded: the loop over
    [questions], the two counters, and the save. *)
Definition recordAnswers (testId : ObjectId) (questions : list Question)
    (answers : list Answer) (history : StudentQuestionHistory)
  : Eff StudentQuestionHistory :=
  now ← Date_now;
  let history := foldl (recordQuestion testId now answers) history questions in
  counted ← filterByIndex questions 0 answers;
  let history :=
    {| student := student history;
       seenQuestions := seenQuestions history;
       totalQuestionsAttempted :=
         totalQuestionsAttempted history + length questions;
       correctAnswers := correctAnswers history + length counted;
       categoryPerformance := categoryPerformance history;
       difficultyPerformance := difficultyPerformance history |} in
  StudentQuestionHistory_save history;;
  mret history.

Definition updateStudentHistory (studentId testId : ObjectId)
    (questions : list Question) (answers : list Answer)
  : Eff StudentQuestionHistory :=
  history ← getStudentHistory studentId;
  recordAnswers testId questions answers history.

Definition getAdaptiveDifficulty (studentId : ObjectId) : Eff DifficultyDist :=
  history ← getStudentHistory studentId;
  if (totalQuestionsAttempted history <? 10)%nat then
    mret {| easy := 30; medium := 50; hard := 20 |}
  else
    let overallAccuracy :=
      (JS.num (Z.of_nat (correctAnswers history))
       / JS.num (Z.of_nat (totalQuestionsAttempted history)))%float in
    if (0.8 <=? overallAccuracy)%float then
      mret {| easy := 10; medium := 40; hard := 50 |}
    else if (0.6 <=? overallAccuracy)%float then
      mret {| easy := 25; medium := 50; hard := 25 |}
    else
      mret {| easy := 50; medium := 40; hard := 10 |}.

(** The [config] argument of [selectQuestionsForTest], defaults filled in. *)
Record SelectorConfig := {
  poolId : option ObjectId;
  totalQuestions : Z;
  difficultyDistribution : DifficultyDist;
  categories : option (list string);
  questionTypes : TypeDist;
  avoidRecentQuestions : bool;
  recentQuestionDays : Z;
  generateIfNeeded : bool;
}.

Definition selectQuestionsForTest (studentId : ObjectId)
    (config : SelectorConfig) : Eff (list Question) :=
  history ← getStudentHistory studentId;
  host ← gets env;
  let recentlySeenIds :=
    if avoidRecentQuestions config
    then getRecentlySeenQuestionIds host history (recentQuestionDays config)
    else [] in
  pool ← match poolId config with
          | Some id => QuestionPool_findById id
          | None => QuestionPool_findDefault
          end;
  let questionBreakdown :=
    calculateQuestionBreakdown (totalQuestions config)
      (difficultyDistribution config) (questionTypes config) in
  '(selectedQuestions, _) ←
    selectQuestions questionBreakdown recentlySeenIds (categories config) pool;
  selectedQuestions ←
    (if (Z.of_nat (length selectedQuestions) <? totalQuestions config)%Z
        && generateIfNeeded config
     then
       let needed :=
         (totalQuestions config - Z.of_nat (length selectedQuestions))%Z in
       additionalQuestions ←
         generateAdditionalQuestions needed questionBreakdown
           selectedQuestions (categories config);
       mret (selectedQuestions ++ additionalQuestions)
     else mret selectedQuestions);
  shuffleArray selectedQuestions.

(** ** controllers/testController.js *)

(** [populate('questions')]: the references of a test resolved against the
    Question collection; a reference to a document that is gone is dropped. *)
Definition populate (d : Db) (test : Test) : list Question :=
  omap (fun ref => List.find (fun q => String.eqb (q_id q) ref) (questions d))
       (test_questions test).

(** [Test.findById(id).populate('questions')], for an [id] that is the
    text of an ObjectId (see [isObjectIdText]); for any other text the query
    is rejected with a CastError before it is run, which is not modelled. *)
Definition Test_findById_populate (id : ObjectId)
  : Eff (option (Test * list Question)) :=
  gets (fun w =>
    match tests (db w) !! id with
    | Some test => Some (test, populate (db w) test)
    | None => None
    end).

(** [test.save()]. *)
Definition Test_save (test : Test) : Eff unit :=
  modify (with_db (fun d => set_tests (<[test_id test := test]> (tests d)) d)).

(** [submission.save()], for a document whose [answers[].question] are
    texts of ObjectIds (see [isObjectIdText]); for any other text the
    document fails validation and is not stored, which is not modelled. *)
Definition Submission_save (submission : Submission) : Eff unit :=
  modify (with_db (fun d => set_submissions (submissions d ++ [submission]) d)).

Definition LeaveRequest_findById (id : ObjectId) : Eff (option LeaveRequest) :=
  gets (fun w => leaveRequests (db w) !! id).

Definition LeaveRequest_save (id : ObjectId) (lr : LeaveRequest) : Eff unit :=
  modify (with_db (fun d =>
    set_leaveRequests (<[id := lr]> (leaveRequests d)) d)).

(** [User.find({ role })]. *)
Definition User_find (role : string) : Eff (list User) :=
  gets (fun w => List.filter (fun u => String.eqb (u_role u) role) (users (db w))).

Definition Notification_create (n : Notification) : Eff unit :=
  modify (with_db (fun d => set_notifications (notifications d ++ [n]) d)).

Definition sendTestCompletedEmail (m : Email) : Eff unit :=
  modify (fun w => with_outbox (outbox w ++ [m]) w).

(** *** getTestById *)

Definition TestCase_toObject (tc : TestCase) : gmap string value :=
  <["input" := VStr (tc_input tc)]> (<["output" := VStr (tc_output tc)]> ∅).

(** The fields of a question other than the answer and the test cases. *)
Definition publicFields (q : Question) : gmap string value :=
  <["_id" := VStr (q_id q)]>
    (<["questionType" := VStr (questionType q)]>
       (<["difficulty" := VStr (difficulty q)]>
          (<["category" := VStr (category q)]>
             (<["questionText" := VStr (questionText q)]>
                (<["isActive" := VBool (isActive q)]> ∅))))).

(** [q.toObject()]. *)
Definition Question_toObject (q : Question) : gmap string value :=
  <["correctAnswer" := VStr (correctAnswer q)]>
    (<["testCases" := VArr (map (fun tc => VObj (TestCase_toObject tc))
                              (testCases q))]>
       (publicFields q)).

Definition TestConfig_toObject (config : TestConfig) : gmap string value :=
  <["passingPercentage" := match passingPercentage config with
                           | Some p => VFloat p
                           | None => VNull
                           end]>
    (<["shuffleQuestions" := VBool (shuffleQuestions config)]>
       (<["shuffleOptions" := VBool (shuffleOptions config)]> ∅)).

(** The fields of the record as [test.toObject()] writes them, the
    questions apart. *)
Definition testFields (test : Test) : gmap string value :=
  <["_id" := VStr (test_id test)]>
    (<["leaveRequest" := VStr (test_leaveRequest test)]>
       (<["student" := VStr (test_student test)]>
          (<["config" := VObj (TestConfig_toObject (test_config test))]>
             (<["score" := match test_score test with
                           | Some s => VNum (Z.of_nat s)
                           | None => VNull
                           end]>
                (<["status" := VStr (test_status test)]> ∅))))).

(** [test.toObject()] on a populated test. *)
Definition Test_toObject (test : Test) (questions : list Question)
  : gmap string value :=
  <["questions" := VArr (map (fun q => VObj (Question_toObject q)) questions)]>
    (testFields test).

(** [const { correctAnswer, testCases, ...question } = o; return question]. *)
Definition withoutAnswers (o : gmap string value) : gmap string value :=
  delete "testCases" (delete "correctAnswer" o).

(** [{ ...testObject, questions }] with
    [questions = questionObjects.map(withoutAnswers)]. *)
Definition testView (testObject : gmap string value)
    (questionObjects : list (gmap string value)) : value :=
  let questions := map withoutAnswers questionObjects in
  VObj (<["questions" := VArr (map VObj questions)]> testObject).

Definition getTestById (id : ObjectId) : Eff (nat * value) :=
  found ← Test_findById_populate id;
  match found with
  | Some (test, questions) =>
      mret (200%nat,
            testView (Test_toObject test questions)
              (map Question_toObject questions))
  | None => throw {| err_status := 404; err_message := "Test not found" |}
  end.

(** *** submitTest *)

Record Request := {
  params_id : ObjectId;
  body_answers : list Answer;
  body_tabSwitchCount : option nat;
  req_user : User;
}.

(** The line feed of [`\n; solution(${testCase.input});`]. *)
Definition nl : string := String "010"%char "".

Definition program (code : string) (testCase : TestCase) : string :=
  code +:+ nl +:+ "; solution(" +:+ tc_input testCase +:+ ");".

(** The loop over [question.testCases]: [true] when it ends with
    [passedAllCases] still set, [false] as soon as a case breaks out. *)
Fixpoint runTestCases (code : string) (testCases : list TestCase) : Eff bool :=
  match testCases with
  | [] => mret true
  | testCase :: rest =>
      passed ←
        tryCatch (A := bool)
          (result ← vm_run (program code testCase);
           mret (String.eqb result (tc_output testCase)))
          (fun e => mret false);
      if (passed : bool) then runTestCases code rest else mret false
  end.

(** One iteration of the loop over [answers]: the increment of [score]. *)
Definition gradeAnswer (questions : list Question) (submittedAnswer : Answer)
  : Eff nat :=
  match List.find
          (fun q => String.eqb (q_id q) (questionId submittedAnswer))
          questions with
  | None => mret 0%nat
  | Some question =>
      if String.eqb (questionType question) "MCQ" then
        mret (if String.eqb (correctAnswer question) (answer submittedAnswer)
              then 1%nat else 0%nat)
      else if String.eqb (questionType question) "Coding" then
        passedAllCases ←
          runTestCases (answer submittedAnswer) (testCases question);
        mret (if (passedAllCases : bool) then 1%nat else 0%nat)
      else mret 0%nat
  end.

(** The body of the loop over [answers]. *)
Definition gradeStep (questions : list Question) (submittedAnswer : Answer)
    (score : nat) : Eff nat :=
  point ← gradeAnswer questions submittedAnswer;
  mret (score + point)%nat.

Definition gradeAnswers (questions : list Question) (answers : list Answer)
  : Eff nat :=
  forOf answers (gradeStep questions) 0%nat.

(** [Math.ceil(totalQuestions * 0.6)]. *)
Definition passingScoreOf (totalQuestions : nat) : Z :=
  JS.Math_ceil (JS.num (Z.of_nat totalQuestions) * 0.6)%float.

Definition gradeBody (score : nat) (isPassed : bool) (totalQuestions : nat)
  : value :=
  VObj (<["message" := VStr "Test submitted successfully"]>
          (<["score" := VNum (Z.of_nat score)]>
             (<["isPassed" := VBool isPassed]>
                (<["totalQuestions" := VNum (Z.of_nat totalQuestions)]> ∅)))).

(** The body of the loop over [admins]: the in-app notice and the email. *)
Definition notifyAdmin (req : Request) (test : Test)
    (leaveRequest : LeaveRequest) (score totalQuestions : nat)
    (isPassed : bool) (admin : User) (_ : unit) : Eff unit :=
  let studentName := u_name (req_user req) in
  let studentEmail := u_email (req_user req) in
  let resultText := if isPassed then "PASSED" else "FAILED" in
  Notification_create
    {| n_user := u_id admin;
       n_title := "Test Completed";
       n_message :=
         "Student " +:+ studentName +:+ " (" +:+ studentEmail
         +:+ ") has completed their test and " +:+ resultText
         +:+ " with a score of " +:+ pretty score +:+ "/"
         +:+ pretty totalQuestions +:+ ".";
       n_type := "test_result";
       n_link := "/leave/" +:+ test_leaveRequest test |};;
  sendTestCompletedEmail
    {| m_to := u_email admin; m_adminName := u_name admin;
       m_studentName := studentName;
       m_studentEmail := studentEmail;
       m_subject := lr_subject leaveRequest;
       m_score := score; m_totalQuestions := totalQuestions;
       m_isPassed := isPassed |}.

(** The part of [submitTest] after the history update: the leave request and
    the notices to the admins, then the response. *)
Definition finishSubmission (req : Request) (test : Test) (score : nat)
    (totalQuestions : nat) (isPassed : bool) : Eff (nat * value) :=
  found ← LeaveRequest_findById (test_leaveRequest test);
  match found with
  | None => throw (typeError "Cannot set properties of null")
  | Some leaveRequest =>
      LeaveRequest_save (test_leaveRequest test)
        {| lr_subject := lr_subject leaveRequest;
           lr_status := "Test Completed" |};;
      admins ← User_find "admin";
      forOf admins
        (notifyAdmin req test leaveRequest score totalQuestions isPassed) tt;;
      mret (200%nat, gradeBody score isPassed totalQuestions)
  end.

(** The history step of [submitTest]: a failure is logged, not rethrown. *)
Definition recordHistory (req : Request) (test : Test)
    (questions : list Question) (answers : list Answer) : Eff unit :=
  tryCatch
    (updateStudentHistory (u_id (req_user req)) (test_id test)
       questions answers;;
     mret tt)
    (fun historyError =>
       console_error
         ("Failed to update question history: "
          +:+ err_message historyError)).

(** The test as [submitTest] saves it. *)
Definition completed (test : Test) (score : nat) : Test :=
  {| test_id := test_id test; test_questions := test_questions test;
     test_leaveRequest := test_leaveRequest test;
     test_student := test_student test;
     test_config := test_config test;
     test_score := Some score; test_status := "Completed" |}.

(** The Submission document [submitTest] creates. *)
Definition submissionOf (req : Request) (test : Test) (score : nat)
    (totalQuestions : nat) (isPassed : bool) : Submission :=
  {| sub_test := test_id test;
     sub_leaveRequest := test_leaveRequest test;
     sub_student := u_id (req_user req);
     sub_answers :=
       map (fun a => (questionId a, answer a)) (body_answers req);
     sub_score := score;
     sub_totalQuestions := totalQuestions;
     sub_isPassed := isPassed;
     sub_tabSwitchCount := default 0%nat (body_tabSwitchCount req) |}.

Definition submitTest (req : Request) : Eff (nat * value) :=
  found ← Test_findById_populate (params_id req);
  match found with
  | None => throw {| err_status := 404; err_message := "Test not found" |}
  | Some (test, questions) =>
      let answers := body_answers req in
      score ← gradeAnswers questions answers;
      Test_save (completed test score);;
      let totalQuestions := length questions in
      let passingScore := passingScoreOf totalQuestions in
      let isPassed := (passingScore <=? Z.of_nat score)%Z in
      Submission_save (submissionOf req test score totalQuestions isPassed);;
      recordHistory req test questions answers;;
      finishSubmission req test score totalQuestions isPassed
  end.

(** ** Definitions used to state the properties *)

(** *** What a sandbox makes of a submission

    The grading of [submitTest] as a function of the sandbox alone. *)

Section SandboxOutcomes.

Variable sb : string -> Completion string.

(** Whether one test case succeeds: the program returns and its stringified
    result is the expected output. *)
Definition caseSucceeds (code : string) (testCase : TestCase) : bool :=
  match sb (program code testCase) with
  | Normal result => String.eqb result (tc_output testCase)
  | Thrown _ => false
  end.

(** The test cases up to and including the first one that fails. *)
Fixpoint throughFirstFailure (ok : TestCase -> bool) (testCases : list TestCase)
  : list TestCase :=
  match testCases with
  | [] => []
  | testCase :: rest =>
      testCase :: (if ok testCase then throughFirstFailure ok rest else [])
  end.

(** The question an answer is for. *)
Definition questionFor (questions : list Question) (a : Answer)
  : option Question :=
  List.find (fun q => String.eqb (q_id q) (questionId a)) questions.

(** The programs the sandbox runs for one answer. *)
Definition runsFor (questions : list Question) (a : Answer) : list string :=
  match questionFor questions a with
  | Some q =>
      if String.eqb (questionType q) "MCQ" then []
      else if String.eqb (questionType q) "Coding" then
        map (program (answer a))
          (throughFirstFailure (caseSucceeds (answer a)) (testCases q))
      else []
  | None => []
  end.

(** The programs the sandbox runs for a whole submission. *)
Definition runsForAll (questions : list Question) (answers : list Answer)
  : list string :=
  flat_map (runsFor questions) answers.

(** The point one answer earns. *)
Definition pointFor (questions : list Question) (a : Answer) : nat :=
  match questionFor questions a with
  | Some q =>
      if String.eqb (questionType q) "MCQ" then
        if String.eqb (correctAnswer q) (answer a) then 1 else 0
      else if String.eqb (questionType q) "Coding" then
        if forallb (caseSucceeds (answer a)) (testCases q) then 1 else 0
      else 0
  | None => 0
  end%nat.

Definition scoreFor (questions : list Question) (answers : list Answer)
  : nat :=
  foldr (fun a acc => pointFor questions a + acc)%nat 0%nat answers.

End SandboxOutcomes.




(** The stored questions with other hidden answers and test cases. *)
Definition rewriteAnswers (f : Question -> string)
    (g : Question -> list TestCase) (q : Question) : Question :=
  {| q_id := q_id q; questionType := questionType q;
     difficulty := difficulty q; category := category q;
     questionText := questionText q; correctAnswer := f q;
     testCases := g q; isActive := isActive q |}.


(** The world once [getStudentHistory] has made sure the learner has a
    history. *)
Definition ensureHistory (w : World) (studentId : ObjectId) : World :=
  match histories (db w) !! studentId with
  | Some _ => w
  | None =>
      with_db (fun d =>
        set_histories (<[studentId := emptyHistory studentId]> (histories d)) d)
        w
  end.

(** The history collection answers: it can be read, and written when the
    learner has no history yet. *)
Definition historyReachable (w : World) (studentId : ObjectId) : Prop :=
  historyReadFault (env w) = None
  /\ (histories (db w) !! studentId = None -> historyWriteFault (env w) = None).

(** What the notices to the admins leave as it was. *)
Definition kept (w w' : World) : Prop :=
  env w' = env w
  /\ questions (db w') = questions (db w)
  /\ histories (db w') = histories (db w)
  /\ tests (db w') = tests (db w)
  /\ submissions (db w') = submissions (db w)
  /\ vmRuns w' = vmRuns w
  /\ console w' = console w.

(** The line the history step logs for an error. *)
Definition historyLog (e : Error) : string :=
  "Failed to update question history: " +:+ err_message e.

(** The learner's history as [getStudentHistory] finds or creates it. *)
Definition historyOf (w : World) (studentId : ObjectId)
  : StudentQuestionHistory :=
  default (emptyHistory studentId) (histories (db w) !! studentId).

(** The world in which the stored questions carry other answers and other
    test cases. *)
Definition with_hidden (f : Question -> string)
    (g : Question -> list TestCase) (w : World) : World :=
  with_db (fun d => set_questions (map (rewriteAnswers f g) (questions d)) d) w.

(** Whether the two comparisons of [getAdaptiveDifficulty], made on binary64
    numbers, come out as on the exact fraction [correct / attempted]. *)
Definition bandsExactAt (attempted correct : nat) : bool :=
  let accuracy :=
    (JS.num (Z.of_nat correct) / JS.num (Z.of_nat attempted))%float in
  Bool.eqb (0.8 <=? accuracy)%float
    (4 * Z.of_nat attempted <=? 5 * Z.of_nat correct)%Z
  && Bool.eqb (0.6 <=? accuracy)%float
       (3 * Z.of_nat attempted <=? 5 * Z.of_nat correct)%Z.

(** Whether [Math.ceil(n * 0.6)], computed on binary64 numbers, is the
    ceiling of the exact product [3n / 5]. *)
Definition passMarkExactAt (n : nat) : bool :=
  (passingScoreOf n =? (3 * Z.of_nat n + 4) / 5)%Z.

(** The log entry [updateStudentHistory] appends for a question. *)
Definition entryFor (testId : ObjectId) (now : Z) (answers : list Answer)
    (q : Question) : SeenQuestion :=
  {| sq_question := q_id q; sq_test := testId; seenAt := now;
     answeredCorrectly :=
       match List.find (fun a => String.eqb (questionId a) (q_id q)) answers
       with
       | Some a => checkAnswer q (answer a)
       | None => false
       end |}.

(** The answers come in the order of the questions, one for each, and the
    questions are distinct. *)
Definition aligned (questions : list Question) (answers : list Answer)
  : Prop :=
  map questionId answers = map q_id questions
  /\ NoDup (map q_id questions).

(** The number of positions at which the answer is right for the question
    at the same position. *)
Definition rightAtSamePosition (questions : list Question)
    (answers : list Answer) : nat :=
  length (List.filter (fun qa => checkAnswer (fst qa) (answer (snd qa)))
            (combine questions answers)).

(** The number of log entries marked correct. *)
Definition countCorrect (log : list SeenQuestion) : nat :=
  length (List.filter answeredCorrectly log).

(** A binary64 value that is not a negative number. *)
Definition notNegative (x : spec_float) : Prop :=
  match x with
  | S754_finite s _ _ => s = false
  | _ => True
  end.

(** A configuration with a non-negative total and non-negative
    percentages. *)
Definition validConfig (total : Z) (dd : DifficultyDist) (td : TypeDist)
  : Prop :=
  (0 <= total)%Z
  /\ (0 <=? easy dd)%float = true
  /\ (0 <=? medium dd)%float = true
  /\ (0 <=? MCQ td)%float = true
  /\ (0 <=? JS.or_zero (Coding td))%float = true.

(** The rounded MCQ and Coding counts of a tier do not exceed the tier. *)
Definition tierWithin (td : TypeDist) (count : Z) : Prop :=
  (0 < count)%Z ->
  (mcqCountOf td count + codingCountOf td count <= count)%Z.

(** Rounding a tier of [count] questions neither goes below zero nor
    hands out more than [count]. *)
Definition tierFits (typeDist : TypeDist) (count : Z) : Prop :=
  (0 <= mcqCountOf typeDist count)%Z
  /\ (0 <= codingCountOf typeDist count)%Z
  /\ (mcqCountOf typeDist count + codingCountOf typeDist count <= count)%Z.

(** What a tier contributes: the positive ones among its three counts. *)
Definition tierTotal (typeDist : TypeDist) (count : Z) : Z :=
  if (count <=? 0)%Z then 0%Z
  else (Z.max 0 (mcqCountOf typeDist count)
        + Z.max 0 (codingCountOf typeDist count)
        + Z.max 0 (count - mcqCountOf typeDist count
                         - codingCountOf typeDist count))%Z.

(** ** Sample data *)

Definition question (id type diff answer : string) (cases : list TestCase)
  : Question :=
  {| q_id := id; questionType := type; difficulty := diff;
     category := "General"; questionText := "Question " +:+ id;
     correctAnswer := answer; testCases := cases; isActive := true |}.

(** A bank with five questions that match the default breakdown of seven. *)
Definition bank : list Question :=
  [ question "e1" "MCQ" "easy" "A" [];
    question "e2" "TrueFalse" "easy" "True" [];
    question "m1" "MCQ" "medium" "B" [];
    question "m2" "MCQ" "medium" "C" [];
    question "h1" "MCQ" "hard" "D" [] ].

Definition timedOut : Error :=
  {| err_status := 500; err_message := "Script execution timed out." |}.

Definition doubling : string :=
  "function solution(n) { while (n === 2) {} return n + n; }".

Definition doublingCases : list TestCase :=
  [ {| tc_input := "1"; tc_output := "2" |};
    {| tc_input := "2"; tc_output := "4" |};
    {| tc_input := "3"; tc_output := "6" |} ].

(** A sandbox in which [doubling] answers 1 and 3 and hangs on 2. *)
Definition sampleSandbox (code : string) : Completion string :=
  if String.eqb code (program doubling {| tc_input := "1"; tc_output := "2" |})
  then Normal "2"
  else if String.eqb code
            (program doubling {| tc_input := "3"; tc_output := "6" |})
  then Normal "6"
  else Thrown timedOut.

Definition sampleEnv : Env :=
  {| clock := 1700000000000;
     LocalTZA := fun _ _ => 0%Z;
     random := fun k => (7 * k + 3)%nat;
     generator := fun _ => [];
     objectIds := fun k => "gen" +:+ pretty k;
     sandbox := sampleSandbox;
     historyReadFault := None;
     historyWriteFault := None |}.

Definition student1 : User :=
  {| u_id := "s1"; u_name := "Sam"; u_email := "sam@example.org";
     u_role := "student" |}.

Definition admin1 : User :=
  {| u_id := "a1"; u_name := "Ada"; u_email := "ada@example.org";
     u_role := "admin" |}.

Definition assignedTest (id : ObjectId) (refs : list ObjectId)
    (percentage : float) : Test :=
  {| test_id := id; test_questions := refs; test_leaveRequest := "l1";
     test_student := "s1";
     test_config := {| passingPercentage := Some percentage;
                       shuffleQuestions := true; shuffleOptions := true |};
     test_score := Some 0%nat; test_status := "Assigned" |}.

(** Sam saw [e1] one day ago and [m1] ninety days ago. *)
Definition samHistory : StudentQuestionHistory :=
  {| student := "s1";
     seenQuestions :=
       [ {| sq_question := "m1"; sq_test := "t0";
            seenAt := 1700000000000 - 90 * 86400000;
            answeredCorrectly := true |};
         {| sq_question := "e1"; sq_test := "t0";
            seenAt := 1700000000000 - 86400000;
            answeredCorrectly := false |} ];
     totalQuestionsAttempted := 2; correctAnswers := 1;
     categoryPerformance := {[ "General" := {| attempted := 2; correct := 1 |} ]};
     difficultyPerformance :=
       {[ "easy" := {| attempted := 1; correct := 0 |};
          "medium" := {| attempted := 1; correct := 1 |} ]} |}.

(** A learner with 17 correct answers out of 20. *)
Definition strongHistory : StudentQuestionHistory :=
  {| student := "s2"; seenQuestions := [];
     totalQuestionsAttempted := 20; correctAnswers := 17;
     categoryPerformance := ∅; difficultyPerformance := ∅ |}.

Definition sampleDb (stored : list Question)
    (hs : gmap ObjectId StudentQuestionHistory) (ts : gmap ObjectId Test)
  : Db :=
  {| questions := stored; pools := []; histories := hs; tests := ts;
     submissions := [];
     leaveRequests :=
       {[ "l1" := {| lr_subject := "Exam week"; lr_status := "Test Assigned" |} ]};
     users := [student1; admin1]; notifications := [] |}.

Definition sampleWorld (e : Env) (d : Db) : World :=
  {| env := e; db := d; randomPos := 0; idPos := 0; vmRuns := [];
     console := []; outbox := [] |}.

(** The bank, with no history for anyone. *)
Definition bankWorld : World := sampleWorld sampleEnv (sampleDb bank ∅ ∅).

(** The bank with two more easy questions, and Sam's history. *)
Definition samWorld : World :=
  sampleWorld sampleEnv
    (sampleDb (bank ++ [ question "e3" "MCQ" "easy" "A" [];
                         question "e4" "MCQ" "easy" "B" [] ])
       {[ "s1" := samHistory; "s2" := strongHistory ]} ∅).

Definition halfHalf : DifficultyDist :=
  {| easy := 50; medium := 50; hard := 0 |}.

Definition previewConfig (total : Z) (dist : DifficultyDist)
  : SelectorConfig :=
  {| poolId := None; totalQuestions := total;
     difficultyDistribution := dist; categories := None;
     questionTypes := defaultTypeDist; avoidRecentQuestions := true;
     recentQuestionDays := 30; generateIfNeeded := false |}.

(** A test of one True/False question and two multiple-choice questions. *)
Definition quizQuestions : list Question :=
  [ question "tf1" "TrueFalse" "easy" "True" [];
    question "q1" "MCQ" "easy" "A" [];
    question "q2" "MCQ" "medium" "B" [] ].

Definition quizWorld (percentage : float) : World :=
  sampleWorld sampleEnv
    (sampleDb quizQuestions ∅
       {[ "t1" := assignedTest "t1" ["tf1"; "q1"; "q2"] percentage;
          "t2" := assignedTest "t2" ["q1"; "q2"] percentage ]}).

Definition submission (testId : ObjectId) (answers : list Answer) : Request :=
  {| params_id := testId; body_answers := answers;
     body_tabSwitchCount := None; req_user := student1 |}.

(** A test with one coding question whose second case hangs. *)
Definition codingQuestion : Question :=
  question "c1" "Coding" "medium" "" doublingCases.

Definition codingWorld : World :=
  sampleWorld sampleEnv
    (sampleDb [codingQuestion; question "q1" "MCQ" "easy" "A" []] ∅
       {[ "t3" := assignedTest "t3" ["c1"; "q1"] 60 ]}).

Definition codingAnswer : Answer :=
  {| questionId := "c1"; answer := doubling |}.

(** Both multiple-choice questions of the quiz answered correctly. *)
Definition rightAnswers : list Answer :=
  [ {| questionId := "q1"; answer := "A" |};
    {| questionId := "q2"; answer := "B" |} ].



(** ** More of the selector, and its callers *)

(** The test of [getWeakCategories] on one entry of the performance map: at
    least three attempts and an accuracy below one half. *)
Definition isWeak (perf : Perf) : bool :=
  (3 <=? attempted perf)%nat
  && (JS.num (Z.of_nat (correct perf)) / JS.num (Z.of_nat (attempted perf))
      <? 0.5)%float.

(** [getWeakCategories].  The loop visits the entries of the performance map;
    the map of the model keeps no insertion order, so the list comes in the
    order of the model's keys. *)
Definition getWeakCategories (studentId : ObjectId) : Eff (list string) :=
  history ← getStudentHistory studentId;
  mret (map fst
          (List.filter (fun entry => isWeak (snd entry))
             (map_to_list (categoryPerformance history)))).

(** The config [submitLeaveRequest], the handler of a new leave request,
    hands to the selector. *)
Definition leaveTestConfig (adaptiveDifficulty : DifficultyDist)
  : SelectorConfig :=
  {| poolId := None;
     totalQuestions := 7;
     difficultyDistribution := adaptiveDifficulty;
     categories := None;
     questionTypes := {| MCQ := 70; Coding := Some 20%float; TrueFalse := 10 |};
     avoidRecentQuestions := true;
     recentQuestionDays := 30;
     generateIfNeeded := true |}.

(** The two selector calls of [submitLeaveRequest]: the adaptive difficulty
    of the learner, then the selection of the questions of the test. *)
Definition selectForLeaveRequest (user : User) : Eff (list Question) :=
  adaptiveDifficulty ← getAdaptiveDifficulty (u_id user);
  selectQuestionsForTest (u_id user) (leaveTestConfig adaptiveDifficulty).

(** ** controllers/questionController.js *)

Module QuestionController.

(** [Question.findById(id)]. *)
Definition Question_findById (id : ObjectId) : Eff (option Question) :=
  gets (fun w =>
    List.find (fun q => String.eqb (q_id q) id) (questions (db w))).

(** [question.deleteOne()]: the document of that identity leaves the
    collection (identities are unique in a collection). *)
Definition Question_deleteOne (question : Question) : Eff unit :=
  modify (with_db (fun d =>
    set_questions
      (List.filter (fun q => negb (String.eqb (q_id q) (q_id question)))
         (questions d)) d)).

Definition deleteQuestion (id : ObjectId) : Eff (nat * value) :=
  found ← Question_findById id;
  match found with
  | None => throw {| err_status := 404; err_message := "Question not found" |}
  | Some question =>
      Question_deleteOne question;;
      mret (200%nat, VObj {[ "message" := VStr "Question removed" ]})
  end.

Definition DifficultyDist_toObject (dist : DifficultyDist) : value :=
  VObj (<["easy" := VFloat (easy dist)]>
          (<["medium" := VFloat (medium dist)]>
             (<["hard" := VFloat (hard dist)]> ∅))).

(** The handler of [GET /api/questions/adaptive-difficulty/:studentId];
    [params_studentId] is [req.params.studentId], missing on the route
    without the parameter. *)
Definition getAdaptiveDifficulty (params_studentId : option ObjectId)
    (user : User) : Eff (nat * value) :=
  let studentId :=
    match params_studentId with
    | Some id => if String.eqb id "" then u_id user else id
    | None => u_id user
    end in
  difficulty ← getAdaptiveDifficulty studentId;
  weakCategories ← getWeakCategories studentId;
  mret (200%nat,
        VObj (<["recommendedDifficulty" := DifficultyDist_toObject difficulty]>
                (<["weakCategories" := VArr (map VStr weakCategories)]> ∅))).

End QuestionController.

(** ** utils/aiQuestionGenerator.js: the template fallback *)

(** The table [getQuestionTemplates()] returns: for each category, for each
    difficulty, a list of questions; both levels in the order of their
    keys. *)
Definition Templates := list (string * list (string * list QuestionDraft)).

(** [o[key]] on an object given by its own keys, for a [key] that is not a
    name every object inherits (['constructor'], ['toString'], ...). *)
Definition property {A} (key : string) (o : list (string * A)) : option A :=
  option_map snd (List.find (fun entry => String.eqb (fst entry) key) o).

(** [allTemplates[category]?.[difficulty]]. *)
Definition templatesAt (allTemplates : Templates) (category difficulty : string)
  : option (list QuestionDraft) :=
  match property category allTemplates with
  | Some byDifficulty => property difficulty byDifficulty
  | None => None
  end.

Definition difficultyNames : list string := ["easy"; "medium"; "hard"].

(** The pool before duplicates are removed: the exact match, then the other
    difficulties of the category, then the other categories. *)
Definition collectTemplates (allTemplates : Templates)
    (category difficulty : string) : list QuestionDraft :=
  default [] (templatesAt allTemplates category difficulty)
  ++ match property category allTemplates with
     | Some byDifficulty =>
         flat_map (fun diff =>
                     if negb (String.eqb diff difficulty)
                     then default [] (property diff byDifficulty)
                     else [])
           difficultyNames
     | None => []
     end
  ++ flat_map (fun cat =>
                 if negb (String.eqb cat category)
                 then flat_map
                        (fun diff =>
                           default [] (templatesAt allTemplates cat diff))
                        difficultyNames
                 else [])
       (map fst allTemplates).

(** [pool.filter(q => { if (seen.has(q.questionText)) return false;
    seen.add(q.questionText); return true; })]. *)
Fixpoint dedupByText (seen : gset string) (pool : list QuestionDraft)
  : list QuestionDraft :=
  match pool with
  | [] => []
  | q :: rest =>
      if decide (d_questionText q ∈ seen) then dedupByText seen rest
      else q :: dedupByText ({[ d_questionText q ]} ∪ seen) rest
  end.

(** The filter on the question type; an empty filter result leaves the pool
    as it was.  The empty string is the falsy [questionType]. *)
Definition filterByType (questionType : string) (pool : list QuestionDraft)
  : list QuestionDraft :=
  if negb (String.eqb questionType "")
     && negb (String.eqb questionType "all")
     && negb (String.eqb questionType "MCQ")
  then
    let typeFiltered :=
      List.filter (fun q => String.eqb (d_questionType q) questionType) pool in
    if (0 <? length typeFiltered)%nat then typeFiltered else pool
  else if String.eqb questionType "MCQ" then
    let mcqFiltered :=
      List.filter (fun q => String.eqb (d_questionType q) "MCQ"
                            || String.eqb (d_questionType q) "TrueFalse")
        pool in
    if (0 <? length mcqFiltered)%nat then mcqFiltered else pool
  else pool.

(** [generateFromTemplates]; the shuffle is the loop of [shuffleArray], run
    on the pool itself. *)
Definition generateFromTemplates (allTemplates : Templates)
    (category difficulty questionType : string) (count : Z)
  : Eff (list QuestionDraft) :=
  let pool := collectTemplates allTemplates category difficulty in
  let pool := dedupByText ∅ pool in
  let pool := filterByType questionType pool in
  pool ← shuffleFrom (length pool - 1) pool;
  mret (slice0 count pool).

(** ** More definitions used to state the properties *)

Definition typeNames : list string := ["MCQ"; "Coding"; "TrueFalse"].

(** The nine cells a breakdown can have, in the order the loops visit
    them. *)
Definition allCells : list (string * string) :=
  flat_map (fun d => map (pair d) typeNames) difficultyNames.

(** The cell of the breakdown an entry stands for. *)
Definition cellOf (e : BreakdownEntry) : string * string :=
  (req_difficulty e, req_type e).

(** The cell a question belongs to. *)
Definition questionCell (q : Question) : string * string :=
  (difficulty q, questionType q).

(** Whether a question lies in a cell. *)
Definition inCell (c : string * string) (q : Question) : bool :=
  String.eqb (difficulty q) (fst c) && String.eqb (questionType q) (snd c).

(** What a breakdown asks for in a cell: the counts of the entries that
    stand for it (an entry with a count below zero asks for nothing). *)
Definition quota (breakdown : list BreakdownEntry) (c : string * string) : Z :=
  foldr (fun e acc =>
           if String.eqb (req_difficulty e) (fst c)
              && String.eqb (req_type e) (snd c)
           then (Z.max 0 (req_count e) + acc)%Z else acc)
        0%Z breakdown.

(** Whether a character is a hexadecimal digit in lower case. *)
Definition isHexDigit (c : ascii) : bool :=
  let n := nat_of_ascii c in
  ((48 <=? n)%nat && (n <=? 57)%nat) || ((97 <=? n)%nat && (n <=? 102)%nat).

(** The text of an ObjectId as [toString()] writes it: 24 hexadecimal
    digits in lower case.  Mongoose casts such a text to the ObjectId it is
    the text of. *)
Definition isObjectIdText (text : string) : bool :=
  (String.length text =? 24)%nat
  && forallb isHexDigit (list_ascii_of_string text).

(** The drafts [generateAdditionalQuestions] gets from the generator: for
    each cell of [breakdown] that [existingByType] leaves short, in order,
    what the generator returns when asked for the missing number; the
    category of the request is drawn with the random source, from position
    [pos] on, when categories are given. *)
Fixpoint generatedDrafts (e : Env) (existingByType : gmap string nat)
    (categories : option (list string)) (pos : nat)
    (breakdown : list BreakdownEntry) : list QuestionDraft :=
  match breakdown with
  | [] => []
  | req :: rest =>
      let key := typeKey (req_difficulty req) (req_type req) in
      let need :=
        (req_count req - Z.of_nat (default 0%nat (existingByType !! key)))%Z in
      if (0 <? need)%Z then
        match categories with
        | Some (c :: cs) =>
            let i := (random e pos `mod` length (c :: cs))%nat in
            generator e {| g_category := default "" ((c :: cs) !! i);
                           g_difficulty := req_difficulty req;
                           g_questionType := req_type req;
                           g_count := need |}
            ++ generatedDrafts e existingByType categories (S pos) rest
        | _ =>
            generator e {| g_category := "General";
                           g_difficulty := req_difficulty req;
                           g_questionType := req_type req;
                           g_count := need |}
            ++ generatedDrafts e existingByType categories pos rest
        end
      else generatedDrafts e existingByType categories pos rest
  end.

(** The config with [avoidRecentQuestions] set to [avoid]. *)
Definition with_avoidRecentQuestions (avoid : bool) (config : SelectorConfig)
  : SelectorConfig :=
  {| poolId := poolId config; totalQuestions := totalQuestions config;
     difficultyDistribution := difficultyDistribution config;
     categories := categories config; questionTypes := questionTypes config;
     avoidRecentQuestions := avoid;
     recentQuestionDays := recentQuestionDays config;
     generateIfNeeded := generateIfNeeded config |}.

(** Whether the selector may draw a question under the given category
    filter and pool. *)
Definition drawable (categories : option (list string))
    (pool : option QuestionPool) (q : Question) : Prop :=
  isActive q = true
  /\ (forall c cs, categories = Some (c :: cs) -> category q ∈ c :: cs)
  /\ (forall p, pool = Some p -> pool_questions p <> [] ->
        q_id q ∈ pool_questions p).


(** The identities the database hands out from position [pos] on. *)
Definition freshIds (e : Env) (pos n : nat) : list ObjectId :=
  map (objectIds e) (seq pos n).

(** The stored question a draft becomes under the identity [id]. *)
Definition savedAs (id : ObjectId) (q : QuestionDraft) : Question :=
  {| q_id := id; questionType := d_questionType q;
     difficulty := d_difficulty q; category := d_category q;
     questionText := d_questionText q; correctAnswer := d_correctAnswer q;
     testCases := d_testCases q; isActive := true |}.

(** The key [generateAdditionalQuestions] files a question under. *)
Definition keyOf (q : Question) : string :=
  typeKey (difficulty q) (questionType q).

Definition entryKey (req : BreakdownEntry) : string :=
  typeKey (req_difficulty req) (req_type req).

(** The number of questions filed under a key. *)
Definition filedUnder (k : string) (existing : list Question) : nat :=
  length (List.filter (fun q => String.eqb (keyOf q) k) existing).

(** A generator that delivers: asked for a positive number of questions, it
    returns that many. *)
Definition delivers (e : Env) : Prop :=
  forall request,
    (0 < g_count request)%Z ->
    length (generator e request) = Z.to_nat (g_count request).

(** The world [w'] is the world [w] with the questions [new] appended to
    the store under the next identities of the database; the histories, the
    tests and the submissions are as they were. *)
Definition storeGrownBy (w w' : World) (new : list Question) : Prop :=
  env w' = env w
  /\ questions (db w') = questions (db w) ++ new
  /\ idPos w' = (idPos w + length new)%nat
  /\ map q_id new = freshIds (env w) (idPos w) (length new)
  /\ histories (db w') = histories (db w)
  /\ tests (db w') = tests (db w)
  /\ submissions (db w') = submissions (db w).

(** Whether the log marks the question [q] as answered correctly: the answer
    found for its identity is right. *)
Definition answeredRight (answers : list Answer) (q : Question) : bool :=
  match List.find (fun a => String.eqb (questionId a) (q_id q)) answers with
  | Some a => checkAnswer q (answer a)
  | None => false
  end.

(** The counters a performance map holds under a key: zeros when the key
    is absent. *)
Definition perfAt (m : gmap string Perf) (k : string) : Perf :=
  default noPerf (m !! k).

(** The number of questions under a key, and of those answered right. *)
Definition attemptsUnder (key : Question -> string) (k : string)
    (questions : list Question) : nat :=
  length (List.filter (fun q => String.eqb (key q) k) questions).

Definition rightUnder (key : Question -> string) (k : string)
    (answers : list Answer) (questions : list Question) : nat :=
  length (List.filter (fun q => String.eqb (key q) k && answeredRight answers q)
            questions).

(** No counter of a history says more correct answers than attempts. *)
Definition countersConsistent (history : StudentQuestionHistory) : Prop :=
  (forall k perf, categoryPerformance history !! k = Some perf ->
     (correct perf <= attempted perf)%nat)
  /\ (forall k perf, difficultyPerformance history !! k = Some perf ->
        (correct perf <= attempted perf)%nat).

(** Whether the comparison of [getWeakCategories], made on binary64 numbers,
    comes out as on the exact fraction [correct / attempted]. *)
Definition weakExactAt (attempted correct : nat) : bool :=
  Bool.eqb
    (JS.num (Z.of_nat correct) / JS.num (Z.of_nat attempted) <? 0.5)%float
    (2 * Z.of_nat correct <? Z.of_nat attempted)%Z.

(** The admins, as [User.find({ role: 'admin' })] lists them. *)
Definition adminsOf (w : World) : list User :=
  List.filter (fun u => String.eqb (u_role u) "admin") (users (db w)).

(** The world a submission leaves: the sandbox runs, the saved test and
    submission, the histories and log lines of the history step, the leave
    request, and the notices and emails to the admins; the rest is as in
    [w]. *)
Definition afterSubmission (w : World) (runs : list string) (saved : Test)
    (stored : Submission) (hs : gmap ObjectId StudentQuestionHistory)
    (log : list string) (leaveRequestId : ObjectId) (leaveRequest : LeaveRequest)
    (notices : list Notification) (emails : list Email) : World :=
  {| env := env w;
     db := {| questions := questions (db w);
              pools := pools (db w);
              histories := hs;
              tests := <[test_id saved := saved]> (tests (db w));
              submissions := submissions (db w) ++ [stored];
              leaveRequests :=
                <[leaveRequestId := leaveRequest]> (leaveRequests (db w));
              users := users (db w);
              notifications := notifications (db w) ++ notices |};
     randomPos := randomPos w;
     idPos := idPos w;
     vmRuns := vmRuns w ++ runs;
     console := console w ++ log;
     outbox := outbox w ++ emails |}.

(** The world before the leave request is looked up: as [afterSubmission],
    with the leave requests, the notices and the emails as in [w]. *)
Definition beforeLeaveRequest (w : World) (runs : list string) (saved : Test)
    (stored : Submission) (hs : gmap ObjectId StudentQuestionHistory)
    (log : list string) : World :=
  {| env := env w;
     db := {| questions := questions (db w);
              pools := pools (db w);
              histories := hs;
              tests := <[test_id saved := saved]> (tests (db w));
              submissions := submissions (db w) ++ [stored];
              leaveRequests := leaveRequests (db w);
              users := users (db w);
              notifications := notifications (db w) |};
     randomPos := randomPos w;
     idPos := idPos w;
     vmRuns := vmRuns w ++ runs;
     console := console w ++ log;
     outbox := outbox w |}.

(** What every notice and every email of a submission says. *)
Definition noticeAbout (test : Test) (n : Notification) : Prop :=
  n_title n = "Test Completed" /\ n_type n = "test_result"
  /\ n_link n = "/leave/" +:+ test_leaveRequest test.

Definition emailAbout (req : Request) (leaveRequest : LeaveRequest)
    (score totalQuestions : nat) (isPassed : bool) (m : Email) : Prop :=
  m_studentName m = u_name (req_user req)
  /\ m_studentEmail m = u_email (req_user req)
  /\ m_subject m = lr_subject leaveRequest
  /\ m_score m = score /\ m_totalQuestions m = totalQuestions
  /\ m_isPassed m = isPassed.


(** The pool of [generateFromTemplates] before the filter on the type. *)
Definition candidates (allTemplates : Templates) (category difficulty : string)
  : list QuestionDraft :=
  dedupByText ∅ (collectTemplates allTemplates category difficulty).

(** Whether a question is of a type the filter of [generateFromTemplates]
    keeps: for 'MCQ', multiple-choice and true/false questions alike. *)
Definition typeWanted (questionType : string) (q : QuestionDraft) : bool :=
  if String.eqb questionType "MCQ"
  then String.eqb (d_questionType q) "MCQ"
       || String.eqb (d_questionType q) "TrueFalse"
  else String.eqb (d_questionType q) questionType.

(** The questions other than the one of identity [id]. *)
Definition without (id : ObjectId) (questions : list Question)
  : list Question :=
  List.filter (fun q => negb (String.eqb (q_id q) id)) questions.

(** A request with other answers. *)
Definition withAnswers (answers : list Answer) (req : Request) : Request :=
  {| params_id := params_id req; body_answers := answers;
     body_tabSwitchCount := body_tabSwitchCount req; req_user := req_user req |}.

(** Whether an answer is for one of the given questions. *)
Definition forKnownQuestion (questions : list Question) (a : Answer) : bool :=
  inIds (questionId a) (map q_id questions).

(** ** More sample data *)

(** A generator that returns as many questions as it is asked for. *)
Definition deliveringEnv : Env :=
  {| clock := 1700000000000;
     LocalTZA := fun _ _ => 0%Z;
     random := fun k => (7 * k + 3)%nat;
     generator := fun request =>
       replicate (Z.to_nat (g_count request))
         {| d_questionType := g_questionType request;
            d_difficulty := g_difficulty request;
            d_category := g_category request;
            d_questionText := "Generated question";
            d_correctAnswer := "A"; d_testCases := [] |};
     objectIds := fun k => "gen" +:+ pretty k;
     sandbox := sampleSandbox;
     historyReadFault := None;
     historyWriteFault := None |}.

Definition deliveringWorld : World :=
  sampleWorld deliveringEnv (sampleDb bank ∅ ∅).

(** A learner with a weak and a strong category. *)
Definition mixedHistory : StudentQuestionHistory :=
  {| student := "s3"; seenQuestions := [];
     totalQuestionsAttempted := 12; correctAnswers := 6;
     categoryPerformance :=
       {[ "React" := {| attempted := 5; correct := 1 |};
          "Python" := {| attempted := 5; correct := 5 |};
          "DSA" := {| attempted := 2; correct := 0 |} ]};
     difficultyPerformance :=
       {[ "easy" := {| attempted := 12; correct := 6 |} ]} |}.

Definition mixedWorld : World :=
  sampleWorld sampleEnv
    (sampleDb quizQuestions {[ "s3" := mixedHistory ]}
       {[ "t2" := assignedTest "t2" ["q1"; "q2"] 60 ]}).

Definition draft (type diff cat text answer : string) : QuestionDraft :=
  {| d_questionType := type; d_difficulty := diff; d_category := cat;
     d_questionText := text; d_correctAnswer := answer; d_testCases := [] |}.

(** A small table of templates: two categories, one Coding question. *)
Definition sampleTemplates : Templates :=
  [ ("JavaScript",
      [ ("easy", [ draft "MCQ" "easy" "JavaScript" "What is typeof null?" "C";
                   draft "TrueFalse" "easy" "JavaScript" "NaN === NaN" "False" ]);
        ("medium", [ draft "MCQ" "medium" "JavaScript" "What is a closure?" "B" ]);
        ("hard", [ draft "Coding" "hard" "JavaScript" "Write isPalindrome." "" ]) ]);
    ("Python",
      [ ("easy", [ draft "MCQ" "easy" "Python" "What is a list?" "A" ]);
        ("medium", []);
        ("hard", [ draft "MCQ" "hard" "Python" "What is the GIL?" "D" ]) ]) ].



(** The two multiple-choice questions of the quiz. *)
Definition twoQuestions : list Question :=
  [ question "q1" "MCQ" "easy" "A" []; question "q2" "MCQ" "medium" "B" [] ].

Definition examWeek : LeaveRequest :=
  {| lr_subject := "Exam week"; lr_status := "Test Assigned" |}.

(** Ria saw [e3] one day ago, and no other question. *)
Definition riaHistory : StudentQuestionHistory :=
  {| student := "s4";
     seenQuestions :=
       [ {| sq_question := "e3"; sq_test := "t0";
            seenAt := 1700000000000 - 86400000;
            answeredCorrectly := true |} ];
     totalQuestionsAttempted := 1; correctAnswers := 1;
     categoryPerformance := {[ "General" := {| attempted := 1; correct := 1 |} ]};
     difficultyPerformance :=
       {[ "easy" := {| attempted := 1; correct := 1 |} ]} |}.

(** The bank with two more easy questions, and Ria's history. *)
Definition riaWorld : World :=
  sampleWorld sampleEnv
    (sampleDb (bank ++ [ question "e3" "MCQ" "easy" "A" [];
                         question "e4" "MCQ" "easy" "B" [] ])
       {[ "s4" := riaHistory ]} ∅).

(** One easy multiple-choice question asked for. *)
Definition oneEasy : BreakdownEntry :=
  {| req_difficulty := "easy"; req_type := "MCQ"; req_count := 1 |}.

(** Two multiple-choice questions and a test on them, under identities as
    the database writes them. *)
Definition storedQuestions : list Question :=
  [ question "65a000000000000000000a01" "MCQ" "easy" "A" [];
    question "65a000000000000000000a02" "MCQ" "medium" "B" [] ].

Definition storedTest : Test :=
  assignedTest "65a000000000000000000b01"
    ["65a000000000000000000a01"; "65a000000000000000000a02"] 60.

Definition storedWorld : World :=
  sampleWorld sampleEnv
    (sampleDb storedQuestions ∅ {[ "65a000000000000000000b01" := storedTest ]}).

(** Both questions answered correctly, and an answer for a question that is
    not part of the test. *)
Definition storedAnswers : list Answer :=
  [ {| questionId := "65a000000000000000000a01"; answer := "A" |};
    {| questionId := "65a000000000000000000a02"; answer := "B" |} ].

Definition strayAnswer : Answer :=
  {| questionId := "65a000000000000000000aff"; answer := "A" |}.

(** * Properties *)

(** ** The breakdown *)

Lemma sumCounts_app (l1 l2 : list BreakdownEntry) :
  sumCounts (l1 ++ l2) = (sumCounts l1 + sumCounts l2)%Z.
Proof.
  induction l1 as [|e l1 IH]; simpl; [reflexivity|].
  rewrite IH. lia.
Qed.

(** A tier contributes the positive ones among the MCQ count, the Coding
    count and the TrueFalse remainder. *)
Lemma tierEntries_sum (typeDist : TypeDist) (d : string) (count : Z) :
  sumCounts (tierEntries typeDist (d, count)) = tierTotal typeDist count.
Proof.
  unfold tierEntries, tierTotal.
  destruct (count <=? 0)%Z; [reflexivity|].
  set (m := mcqCountOf typeDist count).
  set (c := codingCountOf typeDist count).
  rewrite !sumCounts_app.
  destruct (Z.ltb_spec 0 m), (Z.ltb_spec 0 c), (Z.ltb_spec 0 (count - m - c));
    simpl; lia.
Qed.

(** Within a tier that fits, the TrueFalse count is the remainder and the
    three counts add up to the count of the tier. *)
Lemma tierEntries_sum_fits (typeDist : TypeDist) (d : string) (count : Z) :
  (0 <= count)%Z ->
  ((0 < count)%Z -> tierFits typeDist count) ->
  sumCounts (tierEntries typeDist (d, count)) = count.
Proof.
  intros Hc Hfit. rewrite tierEntries_sum. unfold tierTotal.
  destruct (Z.leb_spec count 0); [lia|].
  destruct (Hfit ltac:(lia)) as (Hm & Hcod & Hle). lia.
Qed.

Lemma calculateQuestionBreakdown_sum (total : Z) (dd : DifficultyDist)
    (td : TypeDist) :
  sumCounts (calculateQuestionBreakdown total dd td)
  = (tierTotal td (easyCountOf total dd)
     + tierTotal td (mediumCountOf total dd)
     + tierTotal td (hardCountOf total dd))%Z.
Proof.
  unfold calculateQuestionBreakdown. cbn [flat_map].
  rewrite !sumCounts_app, !tierEntries_sum. simpl. lia.
Qed.

(** The remainder rule: when the rounded easy and medium counts leave a
    non-negative remainder for the hard tier and every tier fits, the
    breakdown adds up to exactly [total]. *)
Lemma calculateQuestionBreakdown_exact (total : Z) (dd : DifficultyDist)
    (td : TypeDist) :
  (0 <= easyCountOf total dd)%Z ->
  (0 <= mediumCountOf total dd)%Z ->
  (easyCountOf total dd + mediumCountOf total dd <= total)%Z ->
  (forall count, (0 < count)%Z ->
     count = easyCountOf total dd \/ count = mediumCountOf total dd
     \/ count = hardCountOf total dd ->
     tierFits td count) ->
  sumCounts (calculateQuestionBreakdown total dd td) = total.
Proof.
  intros He Hm Hh Hfit.
  unfold calculateQuestionBreakdown. cbn [flat_map].
  rewrite !sumCounts_app.
  rewrite !tierEntries_sum_fits; simpl; unfold hardCountOf in *;
    try lia; intros; apply Hfit; auto.
Qed.

(** *** Rounded shares of valid configurations are not negative *)

Lemma binary_round_aux_notNegative (mx ex : Z) (lx : location) :
  notNegative (binary_round_aux prec emax false mx ex lx).
Proof.
  unfold binary_round_aux.
  destruct (shr_fexp prec emax mx ex lx) as [mrs' e'].
  destruct (shr_fexp prec emax _ e' loc_Exact) as [mrs'' e''].
  destruct (shr_m mrs''); simpl; [trivial| |trivial].
  destruct (e'' <=? emax - prec)%Z; simpl; trivial.
Qed.

Lemma num_notNegative (z : Z) :
  (0 <= z)%Z -> notNegative (Prim2SF (JS.num z)).
Proof.
  intros Hz. unfold JS.num.
  destruct (Z.ltb_spec z 0) as [Hneg|_]; [lia|].
  rewrite of_uint63_spec. unfold binary_normalize.
  pose proof (Uint63.to_Z_bounded (Uint63.of_Z z)) as Hb.
  destruct (Uint63.to_Z (Uint63.of_Z z)) as [|m|m]; simpl; [trivial| |lia].
  unfold binary_round. destruct (shl_align _ _ _) as [mz ez].
  apply binary_round_aux_notNegative.
Qed.

Lemma leb_zero_notNegative (x : float) :
  (0 <=? x)%float = true -> notNegative (Prim2SF x).
Proof.
  rewrite leb_spec.
  replace (Prim2SF 0) with (S754_zero false) by (vm_compute; reflexivity).
  destruct (Prim2SF x) as [s|s| |s m e]; simpl; trivial.
  destruct s; [discriminate|reflexivity].
Qed.

Lemma percent_notNegative (pct : float) :
  (0 <=? pct)%float = true -> notNegative (Prim2SF (pct / 100)%float).
Proof.
  intros H. apply leb_zero_notNegative in H. rewrite div_spec.
  replace (Prim2SF 100)
    with (S754_finite false 7036874417766400 (-46))
    by (vm_compute; reflexivity).
  unfold SF64div, SFdiv.
  destruct (Prim2SF pct) as [s|s| |s m e]; simpl in *; trivial. subst s.
  destruct (SFdiv_core_binary _ _ _ _ _ _) as [[mz ez] lz].
  apply binary_round_aux_notNegative.
Qed.

Lemma mul_notNegative (x y : float) :
  notNegative (Prim2SF x) -> notNegative (Prim2SF y) ->
  notNegative (Prim2SF (x * y)%float).
Proof.
  rewrite FloatAxioms.mul_spec. unfold SF64mul, SFmul.
  destruct (Prim2SF x) as [sx|sx| |sx mx ex],
           (Prim2SF y) as [sy|sy| |sy my ey]; simpl; trivial.
  intros -> ->. apply binary_round_aux_notNegative.
Qed.

Lemma floor_half_notNegative (k : Z) (x : float) :
  (0 <= k)%Z -> notNegative (Prim2SF x) -> (0 <= JS.floor_half k x)%Z.
Proof.
  intros Hk. unfold JS.floor_half.
  destruct (Prim2SF x) as [s|s| |s m e]; simpl; try lia.
  intros ->. destruct (Z.leb_spec 0 e) as [He|He].
  - apply Z.mul_nonneg_nonneg; [lia|]. apply Z.pow_nonneg. lia.
  - apply Z.div_pos.
    + assert (0 <= 2 ^ (- e))%Z by (apply Z.pow_nonneg; lia). lia.
    + apply Z.pow_pos_nonneg; lia.
Qed.

(** A share of a non-negative count at a non-negative percentage rounds to
    a non-negative integer. *)
Lemma roundShare_notNegative (n : Z) (pct : float) :
  (0 <= n)%Z -> (0 <=? pct)%float = true -> (0 <= roundShare n pct)%Z.
Proof.
  intros Hn Hpct. unfold roundShare, JS.Math_round.
  apply floor_half_notNegative; [lia|].
  apply mul_notNegative; [apply num_notNegative, Hn|].
  apply percent_notNegative, Hpct.
Qed.

(** A tier of a valid configuration contributes at least its count, and
    exactly its count when its rounded counts stay within it. *)
Lemma tierTotal_lower (td : TypeDist) (count : Z) :
  (0 <=? MCQ td)%float = true ->
  (0 <=? JS.or_zero (Coding td))%float = true ->
  (0 <= count)%Z ->
  (count <= tierTotal td count)%Z
  /\ (tierTotal td count = count <-> tierWithin td count).
Proof.
  intros Hm Hc Hcount. unfold tierTotal, tierWithin.
  destruct (Z.leb_spec count 0) as [Hle|Hgt].
  - split; [lia|]. split; intros; lia.
  - pose proof (roundShare_notNegative count (MCQ td) Hcount Hm) as H1.
    pose proof (roundShare_notNegative count (JS.or_zero (Coding td))
                  Hcount Hc) as H2.
    fold (mcqCountOf td count) in H1. fold (codingCountOf td count) in H2.
    split; [lia|]. split; intros; lia.
Qed.

(** For a valid configuration the breakdown never asks for fewer than
    [total] questions, and it asks for exactly [total] if and only if no
    rounding overshoots: the easy and medium counts together stay within
    [total], and in every tier the MCQ and Coding counts together stay
    within the tier. *)
Lemma calculateQuestionBreakdown_exact_iff (total : Z) (dd : DifficultyDist)
    (td : TypeDist) :
  validConfig total dd td ->
  (total <= sumCounts (calculateQuestionBreakdown total dd td))%Z
  /\ (sumCounts (calculateQuestionBreakdown total dd td) = total
      <-> (easyCountOf total dd + mediumCountOf total dd <= total)%Z
          /\ tierWithin td (easyCountOf total dd)
          /\ tierWithin td (mediumCountOf total dd)
          /\ tierWithin td (hardCountOf total dd)).
Proof.
  intros (Htotal & He & Hm & Hmcq & Hcod).
  rewrite calculateQuestionBreakdown_sum.
  pose proof (roundShare_notNegative total (easy dd) Htotal He) as Heasy.
  pose proof (roundShare_notNegative total (medium dd) Htotal Hm) as Hmed.
  fold (easyCountOf total dd) in Heasy.
  fold (mediumCountOf total dd) in Hmed.
  destruct (tierTotal_lower td _ Hmcq Hcod Heasy) as [Le1 Eq1].
  destruct (tierTotal_lower td _ Hmcq Hcod Hmed) as [Le2 Eq2].
  unfold hardCountOf in *.
  set (e := easyCountOf total dd) in *.
  set (m := mediumCountOf total dd) in *.
  destruct (Z.le_gt_cases 0 (total - e - m)) as [Hh|Hh].
  - destruct (tierTotal_lower td _ Hmcq Hcod Hh) as [Le3 Eq3].
    split; [lia|]. split.
    + intros Hsum. split; [lia|].
      split; [apply Eq1; lia|]. split; [apply Eq2; lia|apply Eq3; lia].
    + intros (_ & W1 & W2 & W3).
      apply Eq1 in W1. apply Eq2 in W2. apply Eq3 in W3. lia.
  - assert (H0 : tierTotal td (total - e - m) = 0%Z).
    { unfold tierTotal. destruct (Z.leb_spec (total - e - m) 0); [reflexivity|lia]. }
    rewrite H0. split; [lia|]. split; [intros; lia|]. intros (Hle & _). lia.
Qed.

(** End-to-end example 1: ten questions at 30/50/20 are split 3, 5, 2, and
    the breakdown adds up to ten. *)
Lemma calculateQuestionBreakdown_ten :
  easyCountOf 10 defaultDifficultyDist = 3%Z
  /\ mediumCountOf 10 defaultDifficultyDist = 5%Z
  /\ hardCountOf 10 defaultDifficultyDist = 2%Z
  /\ sumCounts
       (calculateQuestionBreakdown 10 defaultDifficultyDist defaultTypeDist)
     = 10%Z.
Proof. vm_compute. repeat split; reflexivity. Qed.

(** C1 (the code departs from the claim): for one question at 50/50/0 both
    the easy and the medium share round up to 1, the hard remainder is -1 and
    is skipped, and the breakdown asks for two questions instead of one. *)
Theorem calculateQuestionBreakdown_overshoot :
  calculateQuestionBreakdown 1 halfHalf defaultTypeDist
  = [ {| req_difficulty := "easy"; req_type := "MCQ"; req_count := 1 |};
      {| req_difficulty := "medium"; req_type := "MCQ"; req_count := 1 |} ]
  /\ hardCountOf 1 halfHalf = (-1)%Z
  /\ sumCounts (calculateQuestionBreakdown 1 halfHalf defaultTypeDist) = 2%Z.
Proof. vm_compute. repeat split; reflexivity. Qed.

(** ** Computations *)

Lemma bind_run {A B} (m : Eff A) (f : A -> Eff B) (w : World) :
  (m ≫= f) w
  = match m w with
    | (Normal a, w') => f a w'
    | (Thrown e, w') => (Thrown e, w')
    end.
Proof. reflexivity. Qed.

Lemma bind_normal {A B} (m : Eff A) (f : A -> Eff B) (w w' : World) (a : A) :
  m w = (Normal a, w') -> (m ≫= f) w = f a w'.
Proof. intros H. rewrite bind_run, H. reflexivity. Qed.

Lemma bind_thrown {A B} (m : Eff A) (f : A -> Eff B) (w w' : World) e :
  m w = (Thrown e, w') -> (m ≫= f) w = (Thrown e, w').
Proof. intros H. rewrite bind_run, H. reflexivity. Qed.

Lemma forOf_app {A S} (l1 l2 : list A) (body : A -> S -> Eff S) (s : S)
    (w : World) :
  forOf (l1 ++ l2) body s w = (forOf l1 body s ≫= forOf l2 body) w.
Proof.
  revert s w. induction l1 as [|x l1 IH]; intros s w; cbn [forOf app].
  - reflexivity.
  - rewrite !bind_run. destruct (body x s w) as [[s'|e] w']; [|reflexivity].
    rewrite IH, bind_run. reflexivity.
Qed.

(** Run the first step of a computation with the equation [H] that tells
    how it completes. *)
Ltac step H := rewrite (bind_normal _ _ _ _ _ H).

Lemma with_randomPos_twice (n m : nat) (w : World) :
  with_randomPos n (with_randomPos m w) = with_randomPos n w.
Proof. reflexivity. Qed.

(** ** The shuffle *)

Lemma insert_head_perm {A} (t : list A) (k : nat) (x y : A) :
  t !! k = Some y -> y :: <[k := x]> t ≡ₚ x :: t.
Proof.
  revert k. induction t as [|z t IH]; intros [|k] Hk; simpl in *;
    try discriminate.
  - injection Hk as ->. apply perm_swap.
  - rewrite perm_swap, (IH k Hk). apply perm_swap.
Qed.

Lemma swap_perm {A} (a : list A) (i j : nat) : swap a i j ≡ₚ a.
Proof.
  unfold swap.
  destruct (a !! i) as [x|] eqn:Hi; [|reflexivity].
  destruct (a !! j) as [y|] eqn:Hj; [|reflexivity].
  revert i j Hi Hj. induction a as [|h t IH]; intros [|i] [|j] Hi Hj;
    simpl in *; try discriminate.
  - injection Hi as ->. injection Hj as ->. reflexivity.
  - injection Hi as ->. apply insert_head_perm. exact Hj.
  - injection Hj as ->. apply insert_head_perm. exact Hi.
  - f_equiv. apply IH; assumption.
Qed.

(** The shuffle always returns, with a permutation of its argument, and
    only draws from the random source. *)
Lemma shuffleFrom_spec {A} (i : nat) (l : list A) (w : World) :
  exists l' n,
    shuffleFrom i l w = (Normal l', with_randomPos n w) /\ l' ≡ₚ l.
Proof.
  revert l w. induction i as [|i IH]; intros l w.
  - exists l, (randomPos w). split; [|reflexivity].
    destruct w; reflexivity.
  - cbn [shuffleFrom]. rewrite bind_run. unfold Math_random_below.
    destruct (IH (swap l (S i) (random (env w) (randomPos w) `mod` S (S i)))
                (with_randomPos (S (randomPos w)) w)) as (l' & n & Hrun & Hp).
    exists l', n. rewrite Hrun, with_randomPos_twice. split; [reflexivity|].
    rewrite Hp. apply swap_perm.
Qed.

Lemma shuffleArray_spec {A} (l : list A) (w : World) :
  exists l' n,
    shuffleArray l w = (Normal l', with_randomPos n w) /\ l' ≡ₚ l.
Proof. apply shuffleFrom_spec. Qed.

(** ** The store *)

Lemma inIds_spec (id : ObjectId) (ids : list ObjectId) :
  inIds id ids = true <-> id ∈ ids.
Proof.
  unfold inIds. rewrite existsb_exists. split.
  - intros (x & Hin & Heq). apply String.eqb_eq in Heq. subst.
    apply list_elem_of_In. exact Hin.
  - intros Hin. exists id. split; [apply list_elem_of_In, Hin|].
    apply String.eqb_refl.
Qed.

(** No text equals a stored identity. *)
Lemma existsb_idEquals_texts (id : ObjectId) (texts : list string) :
  existsb (idEquals id) (map IdText texts) = false.
Proof. induction texts as [|t texts IH]; [reflexivity|exact IH]. Qed.

Lemma existsb_idEquals_objects (id : ObjectId) (ids : list ObjectId) :
  existsb (idEquals id) (map IdObject ids) = inIds id ids.
Proof.
  unfold inIds. induction ids as [|i ids IH]; [reflexivity|].
  cbn [map existsb idEquals]. rewrite IH. reflexivity.
Qed.

(** The exclusion list of a query excludes no stored question: the query
    matches what the query with an empty list matches. *)
Lemma matchesQuery_excludes_nothing (req : BreakdownEntry)
    (excludeIds : list string) categories pool (q : Question) :
  matchesQuery (queryFor req excludeIds categories pool) q
  = matchesQuery (queryFor req [] categories pool) q.
Proof.
  unfold matchesQuery. cbn [queryFor m_id_nin m_difficulty m_questionType
                            m_isActive m_category_in m_id_in map existsb].
  rewrite existsb_idEquals_texts. reflexivity.
Qed.

Lemma matchesQuery_cell (query : Query) (q : Question) :
  matchesQuery query q = true ->
  difficulty q = m_difficulty query /\ questionType q = m_questionType query.
Proof.
  unfold matchesQuery. rewrite !andb_true_iff.
  intros (((((Hd & Ht) & _) & _) & _) & _).
  split; apply String.eqb_eq; assumption.
Qed.

Lemma NoDup_ids_filter (p : Question -> bool) (l : list Question) :
  NoDup (map q_id l) -> NoDup (map q_id (List.filter p l)).
Proof.
  induction l as [|q l IH]; simpl; intros Hnd; [constructor|].
  apply NoDup_cons in Hnd as [Hq Hnd].
  destruct (p q); simpl; [|auto].
  apply NoDup_cons. split; [|auto].
  intros Hin. apply Hq.
  apply list_elem_of_fmap in Hin as (q' & Heq & Hin).
  apply list_elem_of_fmap. exists q'. split; [exact Heq|].
  apply list_elem_of_In. apply list_elem_of_In in Hin.
  apply filter_In in Hin. tauto.
Qed.

(** Sampling always returns: at most [size] documents, all stored and
    matching the query, [size] of them when that many match, without
    repeats when the stored identities are distinct.  The store itself is
    left as it was. *)
Lemma Question_sample_spec (query : Query) (size : Z) (w : World) :
  exists l n,
    Question_sample query size w = (Normal l, with_randomPos n w)
    /\ length l
       = Nat.min (Z.to_nat size)
           (length (List.filter (matchesQuery query) (questions (db w))))
    /\ (forall q, q ∈ l ->
          q ∈ questions (db w) /\ matchesQuery query q = true)
    /\ (NoDup (map q_id (questions (db w))) -> NoDup (map q_id l)).
Proof.
  unfold Question_sample. rewrite bind_run. unfold gets.
  destruct (shuffleArray_spec
              (List.filter (matchesQuery query) (questions (db w))) w)
    as (l' & n & Hrun & Hp).
  exists (take (Z.to_nat size) l'), n.
  rewrite bind_run, Hrun. split; [reflexivity|].
  split; [|split].
  - rewrite length_take, Hp. reflexivity.
  - intros q Hq. apply (elem_of_sublist _ l') in Hq; [|apply sublist_take].
    rewrite Hp in Hq.
    apply list_elem_of_In, filter_In in Hq as [Hin Hm].
    split; [apply list_elem_of_In, Hin|exact Hm].
  - intros Hnd. apply (NoDup_ids_filter (matchesQuery query)) in Hnd.
    assert (Hl' : NoDup (q_id <$> l')) by (rewrite Hp; exact Hnd).
    eapply sublist_NoDup; [exact Hl'|].
    apply (fmap_sublist q_id), sublist_take.
Qed.

(** ** Drawing the cells of a breakdown *)

Lemma drawCell_spec categories pool (req : BreakdownEntry)
    (selected : list Question) (excludeIds : list ObjectId) (w : World) :
  exists drawn n,
    drawCell categories pool req (selected, excludeIds) w
    = (Normal (selected ++ drawn, excludeIds ++ map q_id drawn),
       with_randomPos n w)
    /\ (length drawn <= Z.to_nat (req_count req))%nat
    /\ (forall q, q ∈ drawn ->
          q ∈ questions (db w)
          /\ difficulty q = req_difficulty req
          /\ questionType q = req_type req)
    /\ (NoDup (map q_id (questions (db w))) -> NoDup (map q_id drawn)).
Proof.
  destruct (Question_sample_spec (queryFor req excludeIds categories pool)
              (req_count req) w) as (l & n & Hrun & Hlen & Hin & Hnd).
  exists l, n. unfold drawCell. step Hrun.
  split; [reflexivity|]. split; [lia|]. split; [|exact Hnd].
  intros q Hq. destruct (Hin q Hq) as [Hst Hm].
  split; [exact Hst|]. exact (matchesQuery_cell _ _ Hm).
Qed.

(** The loop, for any state it is entered with. *)
Lemma forOf_drawCell_spec categories pool (breakdown : list BreakdownEntry) :
  forall (selected : list Question) (excludeIds : list ObjectId) (w : World),
  exists drawn n,
    forOf breakdown (drawCell categories pool) (selected, excludeIds) w
    = (Normal (selected ++ drawn, excludeIds ++ map q_id drawn),
       with_randomPos n w)
    /\ (Z.of_nat (length drawn)
        <= foldr (fun e acc => Z.max 0 (req_count e) + acc) 0 breakdown)%Z
    /\ (forall q, q ∈ drawn -> q ∈ questions (db w)).
Proof.
  induction breakdown as [|req breakdown IH]; intros selected excludeIds w.
  - exists [], (randomPos w). cbn [forOf]. rewrite !app_nil_r.
    split; [destruct w; reflexivity|]. split; [simpl; lia|].
    intros q Hq; inversion Hq.
  - destruct (drawCell_spec categories pool req selected excludeIds w)
      as (d1 & n1 & Hrun1 & Hlen1 & Hin1 & _).
    destruct (IH (selected ++ d1) (excludeIds ++ map q_id d1)
                (with_randomPos n1 w))
      as (d2 & n2 & Hrun2 & Hlen2 & Hin2).
    exists (d1 ++ d2), n2. cbn [forOf].
    step Hrun1. rewrite Hrun2.
    rewrite map_app, !app_assoc. split; [reflexivity|]. split.
    + rewrite length_app. cbn [foldr]. lia.
    + intros q Hq. apply elem_of_app in Hq as [Hq|Hq].
      * apply Hin1, Hq.
      * apply Hin2, Hq.
Qed.

(** [selectQuestions] always returns.  The exclusion list it leaves is the
    one it was given followed by the identities of the questions drawn, and
    every question drawn is a stored one. *)
Lemma selectQuestions_spec (breakdown : list BreakdownEntry)
    (excludeIds : list ObjectId) categories pool (w : World) :
  exists selected n,
    selectQuestions breakdown excludeIds categories pool w
    = (Normal (selected, excludeIds ++ map q_id selected),
       with_randomPos n w)
    /\ (Z.of_nat (length selected)
        <= foldr (fun e acc => Z.max 0 (req_count e) + acc) 0 breakdown)%Z
    /\ (forall q, q ∈ selected -> q ∈ questions (db w)).
Proof.
  unfold selectQuestions.
  destruct (forOf_drawCell_spec categories pool breakdown [] excludeIds w)
    as (drawn & n & Hrun & H). exists drawn, n. split; [exact Hrun|exact H].
Qed.

(** ** The history of a learner *)

Lemma getStudentHistory_spec (studentId : ObjectId) (w : World) :
  historyReachable w studentId ->
  getStudentHistory studentId w
  = (Normal (historyOf w studentId), ensureHistory w studentId).
Proof.
  intros [Hrd Hwr]. unfold getStudentHistory, historyOf, ensureHistory.
  rewrite bind_run. unfold StudentQuestionHistory_findOne. rewrite Hrd.
  destruct (histories (db w) !! studentId) as [h|] eqn:Hh; [reflexivity|].
  rewrite bind_run. unfold StudentQuestionHistory_save.
  rewrite (Hwr eq_refl). reflexivity.
Qed.

Lemma ensureHistory_env (w : World) (studentId : ObjectId) :
  env (ensureHistory w studentId) = env w.
Proof. unfold ensureHistory. destruct (_ !! _); reflexivity. Qed.

Lemma ensureHistory_questions (w : World) (studentId : ObjectId) :
  questions (db (ensureHistory w studentId)) = questions (db w).
Proof. unfold ensureHistory. destruct (_ !! _); reflexivity. Qed.

(** ** Generated questions *)

Lemma saveOne_spec (d : QuestionDraft) (acc : list Question) (w : World) :
  exists q w',
    saveOne d acc w = (Normal (acc ++ [q]), w')
    /\ env w' = env w
    /\ q_id q = objectIds (env w) (idPos w).
Proof. eexists. eexists. split; [reflexivity|]. split; reflexivity. Qed.

Lemma forOf_saveOne_spec (drafts : list QuestionDraft) :
  forall (acc : list Question) (w : World),
  exists saved w',
    forOf drafts saveOne acc w = (Normal (acc ++ saved), w')
    /\ env w' = env w
    /\ (forall q, q ∈ saved -> exists k, q_id q = objectIds (env w) k).
Proof.
  induction drafts as [|d drafts IH]; intros acc w.
  - exists [], w. cbn [forOf]. rewrite app_nil_r.
    split; [reflexivity|]. split; [reflexivity|].
    intros q Hq. inversion Hq.
  - destruct (saveOne_spec d acc w) as (q1 & w1 & Hrun1 & Henv1 & Hid1).
    destruct (IH (acc ++ [q1]) w1) as (saved & w' & Hrun & Henv & Hids).
    exists (q1 :: saved), w'. cbn [forOf].
    step Hrun1. rewrite Hrun, <- app_assoc.
    split; [reflexivity|]. split; [congruence|].
    intros q Hq. apply elem_of_cons in Hq as [->|Hq].
    + eauto.
    + rewrite <- Henv1. auto.
Qed.

Lemma generateCell_spec existingByType categories (req : BreakdownEntry)
    (generated : list Question) (w : World) :
  exists new w',
    generateCell existingByType categories req generated w
    = (Normal (generated ++ new), w')
    /\ env w' = env w
    /\ (forall q, q ∈ new -> exists k, q_id q = objectIds (env w) k).
Proof.
  unfold generateCell.
  destruct (0 <? _)%Z.
  2:{ exists [], w. rewrite app_nil_r. split; [reflexivity|].
      split; [reflexivity|]. intros q Hq. inversion Hq. }
  assert (Hcat : exists category w1,
             (match categories with
              | Some (c :: cs) =>
                  i ← Math_random_below (length (c :: cs));
                  mret (default "" ((c :: cs) !! i))
              | _ => mret "General"
              end : Eff string) w = (Normal category, w1)
             /\ env w1 = env w).
  { destruct categories as [[|c cs]|]; eauto. }
  destruct Hcat as (category & w1 & Hcat & Henv1).
  step Hcat. rewrite bind_run.
  unfold generateQuestions at 1, gets at 1. rewrite bind_run.
  unfold saveGeneratedQuestions.
  match goal with
  | |- context [forOf ?drafts saveOne [] w1] =>
      destruct (forOf_saveOne_spec drafts [] w1)
        as (saved & w' & Hrun & Henv & Hids)
  end.
  exists saved, w'. rewrite Hrun. split; [reflexivity|].
  split; [congruence|]. rewrite <- Henv1. exact Hids.
Qed.

Lemma forOf_generateCell_spec existingByType categories
    (breakdown : list BreakdownEntry) :
  forall (generated : list Question) (w : World),
  exists new w',
    forOf breakdown (generateCell existingByType categories) generated w
    = (Normal (generated ++ new), w')
    /\ env w' = env w
    /\ (forall q, q ∈ new -> exists k, q_id q = objectIds (env w) k).
Proof.
  induction breakdown as [|req breakdown IH]; intros generated w.
  - exists [], w. cbn [forOf]. rewrite app_nil_r.
    split; [reflexivity|]. split; [reflexivity|].
    intros q Hq. inversion Hq.
  - destruct (generateCell_spec existingByType categories req generated w)
      as (n1 & w1 & Hrun1 & Henv1 & Hids1).
    destruct (IH (generated ++ n1) w1) as (n2 & w2 & Hrun2 & Henv2 & Hids2).
    exists (n1 ++ n2), w2. cbn [forOf].
    step Hrun1. rewrite Hrun2, app_assoc.
    split; [reflexivity|]. split; [congruence|].
    intros q Hq. apply elem_of_app in Hq as [Hq|Hq]; [auto|].
    rewrite <- Henv1. auto.
Qed.

Lemma slice0_sublist {A} (count : Z) (l : list A) : sublist (slice0 count l) l.
Proof. unfold slice0. destruct (count <? 0)%Z; apply sublist_take. Qed.

Lemma slice0_take {A} (count : Z) (l : list A) :
  (0 <= count)%Z -> slice0 count l = take (Z.to_nat count) l.
Proof.
  intros Hc. unfold slice0. destruct (Z.ltb_spec count 0); [lia|reflexivity].
Qed.

(** The generator path always returns, with at most [count] questions when
    [count] is not negative, each carrying an identity the database has just
    handed out. *)
Lemma generateAdditionalQuestions_spec (count : Z)
    (breakdown : list BreakdownEntry) (existing : list Question) categories
    (w : World) :
  exists additional w',
    generateAdditionalQuestions count breakdown existing categories w
    = (Normal additional, w')
    /\ env w' = env w
    /\ ((0 <= count)%Z -> (length additional <= Z.to_nat count)%nat)
    /\ (forall q, q ∈ additional -> exists k, q_id q = objectIds (env w) k).
Proof.
  unfold generateAdditionalQuestions.
  destruct (forOf_generateCell_spec (countByType existing) categories
              breakdown [] w) as (new & w' & Hrun & Henv & Hids).
  exists (slice0 count new), w'.
  step Hrun. split; [reflexivity|].
  split; [exact Henv|]. split.
  - intros Hc. rewrite (slice0_take _ _ Hc), length_take. lia.
  - intros q Hq. apply Hids. eapply elem_of_sublist; [exact Hq|].
    apply slice0_sublist.
Qed.

(** ** Counts of a computed breakdown *)

Lemma Math_round_zero_times (y : float) :
  JS.Math_round (JS.num 0 * y)%float = 0%Z.
Proof.
  unfold JS.Math_round, JS.floor_half.
  rewrite FloatAxioms.mul_spec.
  replace (Prim2SF (JS.num 0)) with (S754_zero false) by (vm_compute; reflexivity).
  unfold SF64mul, SFmul. destruct (Prim2SF y); reflexivity.
Qed.

Lemma roundShare_zero (pct : float) : roundShare 0 pct = 0%Z.
Proof. unfold roundShare. apply Math_round_zero_times. Qed.

(** With no question asked for, the breakdown is empty. *)
Lemma calculateQuestionBreakdown_zero (dd : DifficultyDist) (td : TypeDist) :
  calculateQuestionBreakdown 0 dd td = [].
Proof.
  unfold calculateQuestionBreakdown, hardCountOf, easyCountOf, mediumCountOf.
  rewrite !roundShare_zero. reflexivity.
Qed.

Lemma tierEntries_positive (td : TypeDist) (d : string * Z) :
  Forall (fun e => (0 < req_count e)%Z) (tierEntries td d).
Proof.
  destruct d as [d count]. unfold tierEntries.
  destruct (count <=? 0)%Z; [constructor|].
  repeat apply Forall_app_2;
    match goal with
    | |- context [(0 <? ?c)%Z] => destruct (Z.ltb_spec 0 c)
    end; repeat constructor; simpl; lia.
Qed.

(** Every entry of a computed breakdown asks for at least one question. *)
Lemma calculateQuestionBreakdown_positive total dd td :
  Forall (fun e => (0 < req_count e)%Z) (calculateQuestionBreakdown total dd td).
Proof.
  unfold calculateQuestionBreakdown. cbn [flat_map].
  repeat apply Forall_app_2; try apply tierEntries_positive. constructor.
Qed.

Lemma sampleSizes_sumCounts (breakdown : list BreakdownEntry) :
  Forall (fun e => (0 < req_count e)%Z) breakdown ->
  foldr (fun e acc => (Z.max 0 (req_count e) + acc)%Z) 0%Z breakdown
  = sumCounts breakdown.
Proof.
  induction 1 as [|e l He _ IH]; [reflexivity|].
  unfold sumCounts in *. cbn [foldr]. rewrite IH. lia.
Qed.

(** ** selectQuestionsForTest *)

(** With the history collection reachable the selector returns: a shuffle
    of the questions drawn from the store followed by the generated ones. *)
Lemma selectQuestionsForTest_spec (studentId : ObjectId)
    (config : SelectorConfig) (w : World) :
  historyReachable w studentId ->
  exists selected additional result w',
    selectQuestionsForTest studentId config w = (Normal result, w')
    /\ result ≡ₚ selected ++ additional
    /\ (Z.of_nat (length selected)
        <= sumCounts (calculateQuestionBreakdown (totalQuestions config)
                        (difficultyDistribution config)
                        (questionTypes config)))%Z
    /\ (forall q, q ∈ selected -> q ∈ questions (db w))
    /\ (generateIfNeeded config = false -> additional = [])
    /\ (Z.of_nat (length selected + length additional)
        <= Z.max (totalQuestions config) (Z.of_nat (length selected)))%Z
    /\ (forall q, q ∈ additional -> exists k, q_id q = objectIds (env w) k).
Proof.
  intros Hreach. unfold selectQuestionsForTest.
  step (getStudentHistory_spec _ _ Hreach).
  set (w1 := ensureHistory w studentId).
  assert (Henv1 : env w1 = env w) by apply ensureHistory_env.
  assert (Hq1 : questions (db w1) = questions (db w))
    by apply ensureHistory_questions.
  rewrite bind_run. unfold gets at 1.
  set (recent := if avoidRecentQuestions config then _ else []).
  set (breakdown := calculateQuestionBreakdown _ _ _).
  assert (Hpool : exists pool,
            (match poolId config with
             | Some id => QuestionPool_findById id
             | None => QuestionPool_findDefault
             end) w1 = (Normal pool, w1)).
  { destruct (poolId config); eexists; reflexivity. }
  destruct Hpool as [pool Hpool].
  step Hpool.
  destruct (selectQuestions_spec breakdown recent (categories config) pool w1)
    as (selected & n & Hsel & Hlen & Hin).
  step Hsel.
  rewrite sampleSizes_sumCounts in Hlen
    by apply calculateQuestionBreakdown_positive.
  rewrite Hq1 in Hin.
  destruct ((Z.of_nat (length selected) <? totalQuestions config)%Z
            && generateIfNeeded config) eqn:Hshort.
  - apply andb_true_iff in Hshort as [Hlt Hgen]. apply Z.ltb_lt in Hlt.
    destruct (generateAdditionalQuestions_spec
                (totalQuestions config - Z.of_nat (length selected))
                breakdown selected (categories config) (with_randomPos n w1))
      as (additional & w2 & Hgenrun & Henv2 & Hlen2 & Hids).
    rewrite bind_run, (bind_normal _ _ _ _ _ Hgenrun).
    cbn [mret Eff_ret].
    destruct (shuffleArray_spec (selected ++ additional) w2)
      as (result & m & Hsh & Hperm).
    exists selected, additional, result, (with_randomPos m w2).
    rewrite Hsh. split; [reflexivity|]. split; [exact Hperm|].
    split; [exact Hlen|]. split; [exact Hin|].
    split; [congruence|]. split; [specialize (Hlen2 ltac:(lia)); lia|].
    intros q Hq. destruct (Hids q Hq) as [k Hk]. exists k.
    rewrite Hk. cbn [env with_randomPos]. rewrite Henv1. reflexivity.
  - rewrite bind_run. cbn [mret Eff_ret].
    destruct (shuffleArray_spec selected (with_randomPos n w1))
      as (result & m & Hsh & Hperm).
    exists selected, [], result, (with_randomPos m (with_randomPos n w1)).
    rewrite Hsh, app_nil_r. split; [reflexivity|]. split; [exact Hperm|].
    split; [exact Hlen|]. split; [exact Hin|].
    split; [reflexivity|]. split; [simpl; lia|].
    intros q Hq. inversion Hq.
Qed.

(** The selector returns at most [totalQuestions] questions, or as many as
    the breakdown asks for when that is more. *)
Lemma selectQuestionsForTest_length (studentId : ObjectId)
    (config : SelectorConfig) (w : World) :
  historyReachable w studentId ->
  exists result w',
    selectQuestionsForTest studentId config w = (Normal result, w')
    /\ (Z.of_nat (length result)
        <= Z.max (totalQuestions config)
             (sumCounts (calculateQuestionBreakdown (totalQuestions config)
                           (difficultyDistribution config)
                           (questionTypes config))))%Z.
Proof.
  intros Hreach.
  destruct (selectQuestionsForTest_spec studentId config w Hreach)
    as (selected & additional & result & w' & Hrun & Hperm & Hlen & _
        & _ & Hadd & _).
  exists result, w'. split; [exact Hrun|].
  rewrite Hperm, length_app. lia.
Qed.

(** When the breakdown does not overshoot, neither does the selection. *)
Lemma selectQuestionsForTest_within_total (studentId : ObjectId)
    (config : SelectorConfig) (w : World) :
  historyReachable w studentId ->
  (sumCounts (calculateQuestionBreakdown (totalQuestions config)
                (difficultyDistribution config) (questionTypes config))
   <= totalQuestions config)%Z ->
  exists result w',
    selectQuestionsForTest studentId config w = (Normal result, w')
    /\ (Z.of_nat (length result) <= totalQuestions config)%Z.
Proof.
  intros Hreach Hsum.
  destruct (selectQuestionsForTest_length studentId config w Hreach)
    as (result & w' & Hrun & Hlen).
  exists result, w'. split; [exact Hrun|]. lia.
Qed.

(** With [totalQuestions = 0] the selector returns the empty list. *)
Lemma selectQuestionsForTest_none (studentId : ObjectId)
    (config : SelectorConfig) (w : World) :
  historyReachable w studentId ->
  totalQuestions config = 0%Z ->
  exists w', selectQuestionsForTest studentId config w = (Normal [], w').
Proof.
  intros Hreach Hzero.
  destruct (selectQuestionsForTest_length studentId config w Hreach)
    as (result & w' & Hrun & Hlen).
  rewrite Hzero, calculateQuestionBreakdown_zero in Hlen. simpl in Hlen.
  destruct result; [eauto|simpl in Hlen; lia].
Qed.


(** End-to-end example 4: seven questions asked for, five in the bank that
    match, no generation: exactly those five are returned. *)
Lemma selectQuestionsForTest_five_of_seven :
  exists result w',
    selectQuestionsForTest "s1" (previewConfig 7 defaultDifficultyDist)
      bankWorld = (Normal result, w')
    /\ map q_id result = ["m1"; "m2"; "h1"; "e2"; "e1"]
    /\ length result = 5%nat.
Proof. eexists. eexists. vm_compute. repeat split; reflexivity. Qed.

(** C5 (the code departs from the claim): one question asked for at
    50/50/0, and two are returned, because the breakdown already asks for
    two: both shares round up to 1 and the negative remainder is dropped. *)
Theorem selectQuestionsForTest_exceeds_total :
  totalQuestions (previewConfig 1 halfHalf) = 1%Z
  /\ exists result w',
       selectQuestionsForTest "s1" (previewConfig 1 halfHalf) bankWorld
       = (Normal result, w')
       /\ map q_id result = ["m1"; "e1"]
       /\ length result = 2%nat.
Proof.
  split; [reflexivity|]. eexists. eexists. vm_compute.
  repeat split; reflexivity.
Qed.

(** ** Recently seen questions *)

Lemma getRecentlySeenQuestionIds_spec (e : Env)
    (history : StudentQuestionHistory) (days : Z) (id : ObjectId) :
  id ∈ getRecentlySeenQuestionIds e history days
  <-> exists sq cutoff,
        sq ∈ seenQuestions history
        /\ cutoffDate e days = Some cutoff
        /\ (cutoff < seenAt sq)%Z
        /\ sq_question sq = id.
Proof.
  unfold getRecentlySeenQuestionIds.
  change (map sq_question ?l) with (sq_question <$> l).
  rewrite list_elem_of_fmap. split.
  - intros (sq & -> & Hin). apply list_elem_of_In, filter_In in Hin.
    destruct Hin as [Hin Hlt]. exists sq.
    destruct (cutoffDate e days) as [cutoff|]; [|discriminate Hlt].
    exists cutoff. split; [apply list_elem_of_In, Hin|].
    split; [reflexivity|]. cbn [laterThan] in Hlt. split; [lia|reflexivity].
  - intros (sq & cutoff & Hin & Hcut & Hlt & <-). exists sq.
    split; [reflexivity|].
    apply list_elem_of_In, filter_In. split; [apply list_elem_of_In, Hin|].
    rewrite Hcut. cbn [laterThan]. lia.
Qed.

(** ** The exclusion list *)

(** Sampling under a query does not depend on the exclusion list of the
    query. *)
Lemma Question_sample_excludes_nothing (req : BreakdownEntry)
    (excludeIds : list string) categories pool (size : Z) (w : World) :
  Question_sample (queryFor req excludeIds categories pool) size w
  = Question_sample (queryFor req [] categories pool) size w.
Proof.
  unfold Question_sample. rewrite !bind_run. unfold gets.
  rewrite (List.filter_ext _ _
             (matchesQuery_excludes_nothing req excludeIds categories pool)).
  reflexivity.
Qed.

(** The loop of [selectQuestions] draws the same questions and leaves the
    same world whatever exclusion list it is entered with. *)
Lemma forOf_drawCell_excludes_nothing categories pool
    (breakdown : list BreakdownEntry) :
  forall (selected : list Question) (excludeIds excludeIds' : list string)
         (w : World),
  exists drawn n,
    forOf breakdown (drawCell categories pool) (selected, excludeIds) w
    = (Normal (selected ++ drawn, excludeIds ++ map q_id drawn),
       with_randomPos n w)
    /\ forOf breakdown (drawCell categories pool) (selected, excludeIds') w
       = (Normal (selected ++ drawn, excludeIds' ++ map q_id drawn),
          with_randomPos n w).
Proof.
  induction breakdown as [|req breakdown IH];
    intros selected excludeIds excludeIds' w.
  - exists [], (randomPos w). cbn [forOf]. rewrite !app_nil_r.
    split; destruct w; reflexivity.
  - destruct (Question_sample_spec (queryFor req [] categories pool)
                (req_count req) w) as (d1 & n1 & Hrun1 & _).
    destruct (IH (selected ++ d1) (excludeIds ++ map q_id d1)
                (excludeIds' ++ map q_id d1) (with_randomPos n1 w))
      as (d2 & n2 & Hrun2 & Hrun2').
    assert (Hcell : forall ex,
              drawCell categories pool req (selected, ex) w
              = (Normal (selected ++ d1, ex ++ map q_id d1),
                 with_randomPos n1 w)).
    { intros ex. unfold drawCell.
      rewrite bind_run, Question_sample_excludes_nothing, Hrun1.
      reflexivity. }
    exists (d1 ++ d2), n2. cbn [forOf].
    rewrite !(bind_normal _ _ _ _ _ (Hcell _)), Hrun2, Hrun2'.
    rewrite map_app, !app_assoc. split; reflexivity.
Qed.

(** [selectQuestions] selects the same questions, and leaves the same world,
    as with an empty exclusion list. *)
Lemma selectQuestions_excludes_nothing (breakdown : list BreakdownEntry)
    (excludeIds : list string) categories pool (w : World) :
  exists selected n,
    selectQuestions breakdown excludeIds categories pool w
    = (Normal (selected, excludeIds ++ map q_id selected),
       with_randomPos n w)
    /\ selectQuestions breakdown [] categories pool w
       = (Normal (selected, map q_id selected), with_randomPos n w).
Proof.
  unfold selectQuestions.
  destruct (forOf_drawCell_excludes_nothing categories pool breakdown []
              excludeIds [] w) as (drawn & n & Hrun & Hrun').
  exists drawn, n. split; [exact Hrun|exact Hrun'].
Qed.

(** The selector returns the same questions, and leaves the same world,
    whether or not [avoidRecentQuestions] is set. *)
Lemma selectQuestionsForTest_ignores_avoidRecentQuestions
    (studentId : ObjectId) (config : SelectorConfig) (w : World) :
  selectQuestionsForTest studentId config w
  = selectQuestionsForTest studentId
      (with_avoidRecentQuestions false config) w.
Proof.
  unfold selectQuestionsForTest.
  cbn [with_avoidRecentQuestions poolId totalQuestions difficultyDistribution
       categories questionTypes avoidRecentQuestions recentQuestionDays
       generateIfNeeded].
  rewrite !(bind_run (getStudentHistory studentId)).
  destruct (getStudentHistory studentId w) as [[history|e] w1];
    [|reflexivity].
  rewrite !(bind_run (gets env)). unfold gets at 1 2.
  set (recent := if avoidRecentQuestions config then _ else []).
  set (breakdown := calculateQuestionBreakdown _ _ _).
  assert (Hpool : exists pool,
            (match poolId config with
             | Some id => QuestionPool_findById id
             | None => QuestionPool_findDefault
             end) w1 = (Normal pool, w1)).
  { destruct (poolId config); eexists; reflexivity. }
  destruct Hpool as [pool Hpool].
  rewrite !(bind_normal _ _ _ _ _ Hpool).
  destruct (selectQuestions_excludes_nothing breakdown recent
              (categories config) pool w1) as (selected & n & Hrun & Hrun').
  rewrite (bind_normal _ _ _ _ _ Hrun), (bind_normal _ _ _ _ _ Hrun').
  reflexivity.
Qed.

(** ** Grading *)

Lemma with_vmRuns_self (w : World) : with_vmRuns (vmRuns w) w = w.
Proof. destruct w; reflexivity. Qed.

(** The loop over the test cases of a coding question always returns; it
    reports whether every case succeeds, and it runs the cases up to and
    including the first one that fails, and no other. *)
Lemma runTestCases_spec (code : string) (testCases : list TestCase) :
  forall w : World,
    runTestCases code testCases w
    = (Normal (forallb (caseSucceeds (sandbox (env w)) code) testCases),
       with_vmRuns
         (vmRuns w
          ++ map (program code)
               (throughFirstFailure (caseSucceeds (sandbox (env w)) code)
                  testCases))
         w).
Proof.
  induction testCases as [|testCase rest IH]; intros w.
  - cbn. rewrite app_nil_r, with_vmRuns_self. reflexivity.
  - cbn [runTestCases forallb throughFirstFailure map].
    rewrite bind_run. unfold tryCatch. rewrite bind_run.
    unfold vm_run at 1, caseSucceeds at 1 3.
    destruct (sandbox (env w) (program code testCase)) as [result|e] eqn:Hs.
    + cbn [mret Eff_ret].
      destruct (String.eqb result (tc_output testCase)).
      * rewrite IH. cbn [env vmRuns with_vmRuns andb].
        rewrite <- app_assoc. reflexivity.
      * reflexivity.
    + reflexivity.
Qed.

(** One answer: the world only gains the programs that were run, and the
    point is the one [pointFor] tells. *)
Lemma gradeAnswer_spec (questions : list Question) (a : Answer) (w : World) :
  gradeAnswer questions a w
  = (Normal (pointFor (sandbox (env w)) questions a),
     with_vmRuns (vmRuns w ++ runsFor (sandbox (env w)) questions a) w).
Proof.
  unfold gradeAnswer, pointFor, runsFor, questionFor.
  destruct (List.find _ questions) as [q|].
  2:{ cbn. rewrite app_nil_r, with_vmRuns_self. reflexivity. }
  destruct (String.eqb (questionType q) "MCQ").
  { cbn. rewrite app_nil_r, with_vmRuns_self. reflexivity. }
  destruct (String.eqb (questionType q) "Coding").
  2:{ cbn. rewrite app_nil_r, with_vmRuns_self. reflexivity. }
  rewrite bind_run, runTestCases_spec. reflexivity.
Qed.

Lemma gradeStep_spec (questions : list Question) (a : Answer) (score : nat)
    (w : World) :
  gradeStep questions a score w
  = (Normal (score + pointFor (sandbox (env w)) questions a)%nat,
     with_vmRuns (vmRuns w ++ runsFor (sandbox (env w)) questions a) w).
Proof. unfold gradeStep. rewrite bind_run, gradeAnswer_spec. reflexivity. Qed.

Lemma forOf_gradeStep_spec (questions : list Question) (answers : list Answer) :
  forall (score : nat) (w : World),
    forOf answers (gradeStep questions) score w
    = (Normal (score + scoreFor (sandbox (env w)) questions answers)%nat,
       with_vmRuns
         (vmRuns w ++ runsForAll (sandbox (env w)) questions answers) w).
Proof.
  induction answers as [|a answers IH]; intros score w.
  - cbn. rewrite app_nil_r, with_vmRuns_self, Nat.add_0_r. reflexivity.
  - cbn [forOf scoreFor runsForAll flat_map foldr].
    step (gradeStep_spec questions a score w).
    rewrite IH. cbn [env vmRuns with_vmRuns].
    rewrite <- app_assoc, Nat.add_assoc. reflexivity.
Qed.

(** Grading a submission always returns, whatever the sandbox does. *)
Lemma gradeAnswers_spec (questions : list Question) (answers : list Answer)
    (w : World) :
  gradeAnswers questions answers w
  = (Normal (scoreFor (sandbox (env w)) questions answers),
     with_vmRuns
       (vmRuns w ++ runsForAll (sandbox (env w)) questions answers) w).
Proof. apply (forOf_gradeStep_spec questions answers 0). Qed.

(** An answer to a multiple-choice question earns its point exactly when
    it is the stored answer, character for character. *)
Lemma gradeAnswer_MCQ (questions : list Question) (a : Answer)
    (q : Question) (w : World) :
  questionFor questions a = Some q ->
  questionType q = "MCQ" ->
  exists point,
    gradeAnswer questions a w = (Normal point, w)
    /\ (point = 1%nat <-> correctAnswer q = answer a)
    /\ (point = 0%nat <-> correctAnswer q <> answer a).
Proof.
  intros Hq Hty. rewrite gradeAnswer_spec. unfold pointFor, runsFor.
  rewrite Hq, Hty. cbn [String.eqb Ascii.eqb Bool.eqb andb].
  rewrite app_nil_r, with_vmRuns_self.
  destruct (String.eqb_spec (correctAnswer q) (answer a)) as [Heq|Hne].
  - exists 1%nat. split; [reflexivity|]. split; split; intros; try lia; tauto.
  - exists 0%nat. split; [reflexivity|]. split; split; intros; try lia; tauto.
Qed.

(** End-to-end example 3: when the second of three test cases times out
    (or throws), the question earns nothing whatever cases 1 and 3 do, and
    case 3 is not run. *)
Lemma runTestCases_second_fails (code : string) (c1 c2 c3 : TestCase)
    (e : Error) (w : World) :
  sandbox (env w) (program code c2) = Thrown e ->
  exists runs,
    runTestCases code [c1; c2; c3] w
    = (Normal false, with_vmRuns (vmRuns w ++ runs) w)
    /\ (runs = [program code c1] \/ runs = [program code c1; program code c2]).
Proof.
  intros Hc2. rewrite runTestCases_spec.
  assert (Hfail : caseSucceeds (sandbox (env w)) code c2 = false)
    by (unfold caseSucceeds; rewrite Hc2; reflexivity).
  cbn [forallb throughFirstFailure map]. rewrite Hfail.
  destruct (caseSucceeds _ code c1);
    eexists; (split; [reflexivity|]); cbn; auto.
Qed.

(** An answer to a True/False question never earns a point in [submitTest]. *)
Lemma gradeAnswer_TrueFalse (questions : list Question) (a : Answer)
    (q : Question) (w : World) :
  questionFor questions a = Some q ->
  questionType q = "TrueFalse" ->
  gradeAnswer questions a w = (Normal 0%nat, w).
Proof.
  intros Hq Hty. rewrite gradeAnswer_spec. unfold pointFor, runsFor.
  rewrite Hq, Hty. cbn [String.eqb Ascii.eqb Bool.eqb andb].
  rewrite app_nil_r, with_vmRuns_self. reflexivity.
Qed.

(** C2 (the code departs from the claim): the stored answer of a True/False
    question, submitted character for character, earns no point in
    [submitTest], which only scores the types MCQ and Coding; [checkAnswer],
    used for the history, counts the same answer as correct. *)
Theorem TrueFalse_answer_unscored :
  let q := question "tf1" "TrueFalse" "easy" "True" [] in
  let a := {| questionId := "tf1"; answer := "True" |} in
  questionFor quizQuestions a = Some q
  /\ correctAnswer q = answer a
  /\ checkAnswer q (answer a) = true
  /\ gradeAnswer quizQuestions a (quizWorld 60)
     = (Normal 0%nat, quizWorld 60)
  /\ fst (submitTest (submission "t1" [a]) (quizWorld 60))
     = Normal (200%nat, gradeBody 0 false 3).
Proof. vm_compute. repeat split; reflexivity. Qed.

Lemma forallb_elem_of {A} (p : A -> bool) (l : list A) :
  forallb p l = true <-> forall x, x ∈ l -> p x = true.
Proof.
  rewrite forallb_forall. split; intros H x Hx; apply H;
    apply list_elem_of_In; exact Hx.
Qed.

Lemma forallb_false_elem_of {A} (p : A -> bool) (l : list A) :
  forallb p l = false <-> exists x, x ∈ l /\ p x = false.
Proof.
  induction l as [|a l IH]; simpl.
  - split; [discriminate|]. intros (x & Hx & _). inversion Hx.
  - rewrite andb_false_iff, IH. split.
    + intros [Ha|(x & Hx & Hp)].
      * exists a. split; [apply list_elem_of_here|exact Ha].
      * exists x. split; [apply list_elem_of_further, Hx|exact Hp].
    + intros (x & Hx & Hp). apply elem_of_cons in Hx as [->|Hx]; eauto.
Qed.

(** The cases run are those before the first failing one, and that one. *)
Lemma throughFirstFailure_split (ok : TestCase -> bool)
    (before after : list TestCase) (testCase : TestCase) :
  (forall c, c ∈ before -> ok c = true) ->
  ok testCase = false ->
  throughFirstFailure ok (before ++ testCase :: after) = before ++ [testCase].
Proof.
  intros Hbefore Hfail. induction before as [|c before IH]; simpl.
  - rewrite Hfail. reflexivity.
  - rewrite (Hbefore c) by apply list_elem_of_here.
    rewrite IH; [reflexivity|]. intros c' Hc'. apply Hbefore.
    apply list_elem_of_further, Hc'.
Qed.

(** C3: an answer to a Coding question earns its point exactly when every
    attached test case succeeds, and nothing otherwise; the sandbox is run
    on the cases up to and including the first that fails (wrong output,
    thrown error or timeout) and on no later one; and the rest of the
    submission is graded all the same. *)
Theorem coding_question_all_or_nothing (questions : list Question)
    (submittedAnswer : Answer) (question : Question) (rest : list Answer)
    (w : World) :
  questionFor questions submittedAnswer = Some question ->
  questionType question = "Coding" ->
  let ok := caseSucceeds (sandbox (env w)) (answer submittedAnswer) in
  let executed := throughFirstFailure ok (testCases question) in
  let w' :=
    with_vmRuns
      (vmRuns w ++ map (program (answer submittedAnswer)) executed) w in
  exists point,
    gradeAnswer questions submittedAnswer w = (Normal point, w')
    /\ (point = 1%nat <->
        forall testCase, testCase ∈ testCases question -> ok testCase = true)
    /\ (point = 0%nat <->
        exists testCase, testCase ∈ testCases question /\ ok testCase = false)
    /\ (forall before testCase after,
          testCases question = before ++ testCase :: after ->
          (forall c, c ∈ before -> ok c = true) ->
          ok testCase = false ->
          executed = before ++ [testCase])
    /\ exists scoreRest w'',
         gradeAnswers questions rest w' = (Normal scoreRest, w'')
         /\ gradeAnswers questions (submittedAnswer :: rest) w
            = (Normal (point + scoreRest)%nat, w'').
Proof.
  intros Hq Hty ok executed w'.
  assert (Hpoint : pointFor (sandbox (env w)) questions submittedAnswer
                   = if forallb ok (testCases question) then 1%nat else 0%nat).
  { unfold pointFor. rewrite Hq, Hty. reflexivity. }
  assert (Hruns : runsFor (sandbox (env w)) questions submittedAnswer
                  = map (program (answer submittedAnswer)) executed).
  { unfold runsFor. rewrite Hq, Hty. reflexivity. }
  exists (if forallb ok (testCases question) then 1%nat else 0%nat).
  split; [rewrite gradeAnswer_spec, Hpoint, Hruns; reflexivity|].
  split; [|split; [|split]].
  - rewrite <- forallb_elem_of. destruct (forallb ok _); split; auto;
      discriminate.
  - rewrite <- forallb_false_elem_of. destruct (forallb ok _); split; auto;
      discriminate.
  - intros before testCase after Heq Hbefore Hfail. subst executed.
    rewrite Heq. apply throughFirstFailure_split; assumption.
  - eexists. eexists. split; [apply gradeAnswers_spec|].
    rewrite gradeAnswers_spec.
    cbn [scoreFor runsForAll flat_map foldr]. rewrite Hpoint, Hruns.
    subst w'. cbn [env vmRuns with_vmRuns]. rewrite <- app_assoc.
    reflexivity.
Qed.

(** ** The history step *)

Lemma with_histories_self (w : World) :
  with_db (set_histories (histories (db w))) w = w.
Proof. destruct w as [e [] ? ? ? ? ?]; reflexivity. Qed.

Lemma filterByIndex_world (questions : list Question) (answers : list Answer) :
  forall (i : nat) (w : World),
  exists r, filterByIndex questions i answers w = (r, w).
Proof.
  induction answers as [|a answers IH]; intros i w; cbn [filterByIndex].
  - eexists; reflexivity.
  - destruct (questions !! i) as [q|]; [|eexists; reflexivity].
    destruct (IH (S i) w) as [[kept|e] Hr]; rewrite bind_run, Hr;
      eexists; reflexivity.
Qed.

Lemma recordAnswers_frame (testId : ObjectId) (questions : list Question)
    (answers : list Answer) (history : StudentQuestionHistory) (w : World) :
  exists r hs,
    recordAnswers testId questions answers history w
    = (r, with_db (set_histories hs) w).
Proof.
  unfold recordAnswers. rewrite bind_run. unfold Date_now at 1, gets at 1.
  destruct (filterByIndex_world questions answers 0 w) as [[counted|e] Hf];
    rewrite bind_run, Hf.
  - rewrite bind_run. unfold StudentQuestionHistory_save.
    destruct (historyWriteFault (env w)) as [e|].
    + exists (Thrown e), (histories (db w)).
      rewrite with_histories_self. reflexivity.
    + eexists. eexists. reflexivity.
  - exists (Thrown e), (histories (db w)).
    rewrite with_histories_self. reflexivity.
Qed.

(** Whatever it completes with, [updateStudentHistory] touches nothing but
    the history collection. *)
Lemma updateStudentHistory_frame (studentId testId : ObjectId)
    (questions : list Question) (answers : list Answer) (w : World) :
  exists r hs,
    updateStudentHistory studentId testId questions answers w
    = (r, with_db (set_histories hs) w).
Proof.
  unfold updateStudentHistory, getStudentHistory.
  rewrite !bind_run. unfold StudentQuestionHistory_findOne at 1.
  destruct (historyReadFault (env w)) as [e|].
  { exists (Thrown e), (histories (db w)). rewrite with_histories_self.
    reflexivity. }
  destruct (histories (db w) !! studentId) as [h|].
  - cbn [mret Eff_ret]. apply recordAnswers_frame.
  - rewrite bind_run. unfold StudentQuestionHistory_save at 1.
    destruct (historyWriteFault (env w)) as [e|].
    + exists (Thrown e), (histories (db w)). rewrite with_histories_self.
      reflexivity.
    + cbn [mret Eff_ret].
      match goal with
      | |- context [recordAnswers testId questions answers ?h ?w1] =>
          destruct (recordAnswers_frame testId questions answers h w1)
            as (r & hs & Hr)
      end.
      exists r, hs. rewrite Hr. reflexivity.
Qed.


(** The history step always completes normally: it stores the update, or
    it logs one line; either way it touches only the history collection and
    the console. *)
Lemma recordHistory_spec (req : Request) (test : Test)
    (questions : list Question) (answers : list Answer) (w : World) :
  exists hs log,
    recordHistory req test questions answers w
    = (Normal tt,
       with_console (console w ++ log) (with_db (set_histories hs) w))
    /\ ((log = []
         /\ exists h,
              updateStudentHistory (u_id (req_user req)) (test_id test)
                questions answers w
              = (Normal h, with_db (set_histories hs) w))
        \/ exists e,
             log = [historyLog e]
             /\ updateStudentHistory (u_id (req_user req)) (test_id test)
                  questions answers w
                = (Thrown e, with_db (set_histories hs) w)).
Proof.
  destruct (updateStudentHistory_frame (u_id (req_user req)) (test_id test)
              questions answers w) as ([h|e] & hs & Hrun);
    exists hs; unfold recordHistory, tryCatch; rewrite bind_run, Hrun.
  - exists []. split.
    + cbn [mret Eff_ret]. rewrite app_nil_r.
      destruct w as [? [] ? ? ? ? ?]; reflexivity.
    + left. eauto.
  - exists [historyLog e]. split; [reflexivity|]. right. eauto.
Qed.

(** ** submitTest *)










(** ** The adaptive difficulty *)

(** On the counts a learner can reach in practice (up to 150 attempts), the
    binary64 comparisons of the accuracy with 0.8 and 0.6 agree with the
    exact ones. *)
Lemma bands_exact_up_to_150 :
  forallb (fun attempted =>
             forallb (bandsExactAt attempted) (seq 0 (S attempted)))
          (seq 10 141)
  = true.
Proof. vm_compute. reflexivity. Qed.

(** C7: for a learner whose history can be loaded (or created),
    [getAdaptiveDifficulty] returns 30/50/20 below ten attempts, and
    otherwise 10/40/50 when the accuracy is at least 0.8, 25/50/25 when it is
    at least 0.6 and below 0.8, and 50/40/10 in the remaining case; the
    accuracy is [correctAnswers / totalQuestionsAttempted] as JavaScript
    computes it. *)
Theorem getAdaptiveDifficulty_bands (studentId : ObjectId) (w : World) :
  historyReachable w studentId ->
  let history := historyOf w studentId in
  let attempts := totalQuestionsAttempted history in
  let accuracy :=
    (JS.num (Z.of_nat (correctAnswers history))
     / JS.num (Z.of_nat attempts))%float in
  exists dist,
    getAdaptiveDifficulty studentId w
    = (Normal dist, ensureHistory w studentId)
    /\ ((attempts < 10)%nat ->
        dist = {| easy := 30; medium := 50; hard := 20 |})
    /\ ((10 <= attempts)%nat -> (0.8 <=? accuracy)%float = true ->
        dist = {| easy := 10; medium := 40; hard := 50 |})
    /\ ((10 <= attempts)%nat -> (0.6 <=? accuracy)%float = true ->
        (0.8 <=? accuracy)%float = false ->
        dist = {| easy := 25; medium := 50; hard := 25 |})
    /\ ((10 <= attempts)%nat -> (0.6 <=? accuracy)%float = false ->
        (0.8 <=? accuracy)%float = false ->
        dist = {| easy := 50; medium := 40; hard := 10 |}).
Proof.
  intros Hreach history attempts accuracy.
  unfold getAdaptiveDifficulty.
  step (getStudentHistory_spec _ _ Hreach).
  fold history. fold attempts. fold accuracy.
  destruct (Nat.ltb_spec attempts 10) as [Hlt|Hge].
  - eexists. split; [reflexivity|].
    repeat split; intros; solve [reflexivity | lia].
  - destruct (0.8 <=? accuracy)%float eqn:H8.
    + eexists. split; [reflexivity|].
      repeat split; intros; solve [reflexivity | lia | discriminate].
    + destruct (0.6 <=? accuracy)%float eqn:H6.
      * eexists. split; [reflexivity|].
        repeat split; intros; solve [reflexivity | lia | discriminate].
      * eexists. split; [reflexivity|].
        repeat split; intros; solve [reflexivity | lia | discriminate].
Qed.

(** End-to-end example 2: 17 correct answers out of 20. *)
Lemma getAdaptiveDifficulty_17_of_20 :
  fst (getAdaptiveDifficulty "s2" samWorld)
  = Normal {| easy := 10; medium := 40; hard := 50 |}.
Proof. vm_compute. reflexivity. Qed.

(** On tests of up to 1000 questions the pass mark computed on binary64
    numbers is the exact ceiling of 60%. *)
Lemma passingScoreOf_exact_up_to_1000 :
  forallb passMarkExactAt (seq 0 1001) = true.
Proof. vm_compute. reflexivity. Qed.

(** ** The history update *)

Lemma foldl_recordQuestion (testId : ObjectId) (now : Z)
    (answers : list Answer) (questions : list Question) :
  forall history,
    let history' :=
      foldl (recordQuestion testId now answers) history questions in
    seenQuestions history'
    = seenQuestions history ++ map (entryFor testId now answers) questions
    /\ totalQuestionsAttempted history' = totalQuestionsAttempted history
    /\ correctAnswers history' = correctAnswers history
    /\ student history' = student history.
Proof.
  induction questions as [|q questions IH]; intros history; cbn [foldl map].
  - rewrite app_nil_r. repeat split.
  - destruct (IH (recordQuestion testId now answers history q))
      as (Hlog & Htot & Hcor & Hst).
    cbn zeta in *. rewrite Hlog, Htot, Hcor, Hst. cbn.
    rewrite <- app_assoc. repeat split.
Qed.

(** Whenever [updateStudentHistory] returns, it has appended one log entry
    per question and raised [totalQuestionsAttempted] by the number of
    questions. *)
Lemma updateStudentHistory_log (studentId testId : ObjectId)
    (questions : list Question) (answers : list Answer) (w w' : World)
    (history : StudentQuestionHistory) :
  historyReachable w studentId ->
  updateStudentHistory studentId testId questions answers w
  = (Normal history, w') ->
  seenQuestions history
  = seenQuestions (historyOf w studentId)
    ++ map (entryFor testId (clock (env w)) answers) questions
  /\ totalQuestionsAttempted history
     = (totalQuestionsAttempted (historyOf w studentId) + length questions)%nat.
Proof.
  intros Hreach. unfold updateStudentHistory.
  step (getStudentHistory_spec _ _ Hreach).
  unfold recordAnswers. rewrite bind_run. unfold Date_now at 1, gets at 1.
  rewrite ensureHistory_env.
  destruct (foldl_recordQuestion testId (clock (env w)) answers questions
              (historyOf w studentId)) as (Hlog & Htot & _).
  destruct (filterByIndex_world questions answers 0
              (ensureHistory w studentId)) as [[counted|e] Hf];
    rewrite bind_run, Hf; [|discriminate].
  rewrite bind_run. unfold StudentQuestionHistory_save.
  destruct (historyWriteFault _); [discriminate|].
  cbn [mret Eff_ret]. intros Heq. injection Heq as <- _.
  cbn [seenQuestions totalQuestionsAttempted].
  cbn zeta in Hlog, Htot. rewrite Hlog, Htot. split; reflexivity.
Qed.

(** The counter of [updateStudentHistory] counts the positions at which the
    answer is right for the question at the same position; an answer past
    the last question makes it throw. *)
Lemma filterByIndex_spec (questions : list Question) (answers : list Answer) :
  forall (i : nat) (w : World),
    (length answers <= length (drop i questions))%nat ->
    exists counted,
      filterByIndex questions i answers w = (Normal counted, w)
      /\ length counted = rightAtSamePosition (drop i questions) answers.
Proof.
  induction answers as [|a answers IH]; intros i w Hlen;
    cbn [filterByIndex].
  - exists []. split; [reflexivity|]. unfold rightAtSamePosition.
    destruct (drop i questions); reflexivity.
  - destruct (questions !! i) as [q|] eqn:Hq.
    2:{ apply lookup_ge_None in Hq. rewrite length_drop in Hlen.
        simpl in Hlen. lia. }
    rewrite (drop_S _ _ _ Hq) in Hlen |- *. simpl in Hlen.
    destruct (IH (S i) w ltac:(lia)) as (counted & Hrun & Hcount).
    step Hrun. cbn [mret Eff_ret].
    unfold rightAtSamePosition in *. cbn [combine List.filter fst snd].
    destruct (checkAnswer q (answer a)); eexists;
      (split; [reflexivity|]); simpl; lia.
Qed.

Lemma find_aligned (questions : list Question) (answers : list Answer) :
  aligned questions answers ->
  forall i q a,
    questions !! i = Some q -> answers !! i = Some a ->
    List.find (fun a' => String.eqb (questionId a') (q_id q)) answers = Some a.
Proof.
  intros [Hids Hnd]. revert answers Hids.
  induction questions as [|q0 questions IH]; intros answers Hids i q a.
  { intros Hq. rewrite lookup_nil in Hq. discriminate. }
  destruct answers as [|a0 answers]; [discriminate|].
  cbn [map] in Hids, Hnd. injection Hids as Hid0 Hids.
  apply NoDup_cons in Hnd as [Hfresh Hnd].
  destruct i as [|i]; cbn [lookup list_lookup List.find].
  - intros [= ->] [= ->]. rewrite Hid0, String.eqb_refl. reflexivity.
  - intros Hq Ha. rewrite Hid0.
    destruct (String.eqb_spec (q_id q0) (q_id q)) as [Heq|_].
    + exfalso. apply Hfresh. rewrite Heq.
      apply (list_elem_of_fmap_2 q_id). eapply list_elem_of_lookup_2, Hq.
    + apply (IH Hnd answers Hids i q a Hq Ha).
Qed.

(** When the answers are aligned with the questions, the log entries marked
    correct are as many as the counter counts. *)
Lemma countCorrect_aligned (testId : ObjectId) (now : Z)
    (questions : list Question) (answers : list Answer) :
  aligned questions answers ->
  countCorrect (map (entryFor testId now answers) questions)
  = rightAtSamePosition questions answers.
Proof.
  intros Hal. pose proof (find_aligned questions answers Hal) as Hfind.
  destruct Hal as [Hids _].
  assert (Hlen : length answers = length questions).
  { rewrite <- (length_map questionId), Hids. apply length_map. }
  unfold countCorrect, rightAtSamePosition.
  assert (Hgen : forall qs' as',
            length as' = length qs' ->
            (forall j q a, qs' !! j = Some q -> as' !! j = Some a ->
               List.find (fun a' => String.eqb (questionId a') (q_id q))
                 answers = Some a) ->
            length (List.filter answeredCorrectly
                      (map (entryFor testId now answers) qs'))
            = length (List.filter
                        (fun qa => checkAnswer (fst qa) (answer (snd qa)))
                        (combine qs' as'))).
  { induction qs' as [|q qs' IH]; intros [|a as'] Hl Hf; try discriminate;
      [reflexivity|].
    cbn [map combine List.filter fst snd].
    unfold entryFor at 1. cbn [answeredCorrectly].
    rewrite (Hf 0%nat q a eq_refl eq_refl).
    assert (Hrest : length (List.filter answeredCorrectly
                              (map (entryFor testId now answers) qs'))
                    = length (List.filter
                                (fun qa => checkAnswer (fst qa) (answer (snd qa)))
                                (combine qs' as'))).
    { apply IH; [simpl in Hl; lia|]. intros j. apply (Hf (S j)). }
    destruct (checkAnswer q (answer a)); simpl; rewrite Hrest; reflexivity. }
  apply Hgen; [exact Hlen|exact Hfind].
Qed.

(** So for aligned answers the two aggregates move with the log. *)
Lemma updateStudentHistory_aligned (studentId testId : ObjectId)
    (questions : list Question) (answers : list Answer) (w : World) :
  historyReachable w studentId ->
  historyWriteFault (env w) = None ->
  aligned questions answers ->
  exists history w',
    updateStudentHistory studentId testId questions answers w
    = (Normal history, w')
    /\ seenQuestions history
       = seenQuestions (historyOf w studentId)
         ++ map (entryFor testId (clock (env w)) answers) questions
    /\ correctAnswers history
       = (correctAnswers (historyOf w studentId)
          + countCorrect
              (map (entryFor testId (clock (env w)) answers) questions))%nat
    /\ totalQuestionsAttempted history
       = (totalQuestionsAttempted (historyOf w studentId)
          + length questions)%nat.
Proof.
  intros Hreach Hwr Hal. unfold updateStudentHistory.
  step (getStudentHistory_spec _ _ Hreach).
  unfold recordAnswers. rewrite bind_run. unfold Date_now at 1, gets at 1.
  rewrite ensureHistory_env.
  destruct (foldl_recordQuestion testId (clock (env w)) answers questions
              (historyOf w studentId)) as (Hlog & Htot & Hcor & Hst).
  assert (Hlen : (length answers <= length (drop 0 questions))%nat).
  { destruct Hal as [Hids _]. rewrite drop_0.
    rewrite <- (length_map questionId), Hids, length_map. lia. }
  destruct (filterByIndex_spec questions answers 0
              (ensureHistory w studentId) Hlen) as (counted & Hf & Hcount).
  rewrite drop_0 in Hcount.
  step Hf. rewrite bind_run.
  unfold StudentQuestionHistory_save. rewrite ensureHistory_env, Hwr.
  cbn [mret Eff_ret]. eexists. eexists. split; [reflexivity|].
  cbn zeta in Hlog, Htot, Hcor, Hst.
  cbn [db with_db histories set_histories student seenQuestions
       correctAnswers totalQuestionsAttempted].
  rewrite Hlog, Htot, Hcor, Hcount, (countCorrect_aligned _ _ _ _ Hal).
  repeat split.
Qed.

(** C9 (the code departs from the claim): two multiple-choice questions,
    both answered correctly, the answers sent in the other order.  Both log
    entries are marked correct, yet [correctAnswers] does not move: the log
    pairs answers with questions by identity, the counter by position.
    [totalQuestionsAttempted] does rise by the number of questions. *)
Theorem correctAnswers_counted_by_position :
  let questions := [ question "q1" "MCQ" "easy" "A" [];
                     question "q2" "MCQ" "medium" "B" [] ] in
  let answers := [ {| questionId := "q2"; answer := "B" |};
                   {| questionId := "q1"; answer := "A" |} ] in
  histories (db (quizWorld 60)) !! "s1" = None
  /\ exists history w',
       updateStudentHistory "s1" "t2" questions answers (quizWorld 60)
       = (Normal history, w')
       /\ histories (db w') !! "s1" = Some history
       /\ map answeredCorrectly (seenQuestions history) = [true; true]
       /\ countCorrect (seenQuestions history) = 2%nat
       /\ correctAnswers history = 0%nat
       /\ totalQuestionsAttempted history = 2%nat.
Proof.
  split; [vm_compute; reflexivity|]. eexists. eexists.
  split; [vm_compute; reflexivity|]. vm_compute. repeat split; reflexivity.
Qed.

(** ** getTestById *)

Lemma find_rewriteAnswers f g (ref : ObjectId) (l : list Question) :
  List.find (fun q => String.eqb (q_id q) ref) (map (rewriteAnswers f g) l)
  = option_map (rewriteAnswers f g)
      (List.find (fun q => String.eqb (q_id q) ref) l).
Proof.
  induction l as [|q l IH]; cbn [map List.find]; [reflexivity|].
  cbn [rewriteAnswers q_id]. destruct (String.eqb (q_id q) ref);
    [reflexivity|exact IH].
Qed.

(** Populating a test commutes with changing the hidden values. *)
Lemma populate_with_hidden f g (w : World) (test : Test) :
  populate (db (with_hidden f g w)) test
  = map (rewriteAnswers f g) (populate (db w) test).
Proof.
  unfold populate. cbn [with_hidden with_db db set_questions questions].
  induction (test_questions test) as [|ref refs IH]; [reflexivity|].
  cbn [omap list_omap]. rewrite find_rewriteAnswers.
  destruct (List.find _ (questions (db w))) as [q|]; cbn [option_map].
  - cbn [map]. f_equal. exact IH.
  - exact IH.
Qed.

(** What is left of a question object is its public fields. *)
Lemma withoutAnswers_toObject (q : Question) :
  withoutAnswers (Question_toObject q) = publicFields q.
Proof.
  unfold withoutAnswers, Question_toObject.
  rewrite delete_insert_eq, delete_insert_ne by discriminate.
  rewrite delete_insert_eq.
  unfold publicFields.
  rewrite !(delete_insert_ne _ "correctAnswer") by discriminate.
  rewrite !(delete_insert_ne _ "testCases") by discriminate.
  rewrite !delete_empty. reflexivity.
Qed.

Lemma testView_populated (test : Test) (questions : list Question) :
  testView (Test_toObject test questions) (map Question_toObject questions)
  = VObj (<["questions" := VArr (map VObj (map publicFields questions))]>
            (testFields test)).
Proof.
  unfold testView, Test_toObject. rewrite insert_insert_eq.
  rewrite !map_map.
  rewrite (map_ext (fun q => VObj (withoutAnswers (Question_toObject q)))
             (fun q => VObj (publicFields q)));
    [reflexivity|].
  intros q. rewrite withoutAnswers_toObject. reflexivity.
Qed.

Lemma publicFields_hidden (q : Question) :
  publicFields q !! "correctAnswer" = None
  /\ publicFields q !! "testCases" = None.
Proof.
  unfold publicFields. split;
    rewrite !lookup_insert_ne by discriminate; apply lookup_empty.
Qed.

(** On any objects: what [testView] sends for a question has neither key,
    and it only depends on the other keys of the question objects and on the
    fields of the test other than [questions]. *)
Lemma testView_hides (testObject : gmap string value)
    (questionObjects : list (gmap string value)) :
  exists sent,
    testView testObject questionObjects
    = VObj (<["questions" := VArr (map VObj sent)]> testObject)
    /\ length sent = length questionObjects
    /\ forall o, o ∈ sent ->
                 o !! "correctAnswer" = None /\ o !! "testCases" = None.
Proof.
  exists (map withoutAnswers questionObjects).
  split; [reflexivity|]. split; [apply length_map|].
  intros o Ho. apply list_elem_of_fmap in Ho as (o' & -> & _).
  unfold withoutAnswers. split.
  - rewrite lookup_delete_ne by discriminate. apply lookup_delete_eq.
  - apply lookup_delete_eq.
Qed.

Lemma testView_independent (t1 t2 : gmap string value)
    (qs1 qs2 : list (gmap string value)) :
  delete "questions" t1 = delete "questions" t2 ->
  map withoutAnswers qs1 = map withoutAnswers qs2 ->
  testView t1 qs1 = testView t2 qs2.
Proof.
  intros Ht Hq. unfold testView. rewrite Hq. f_equal.
  rewrite <- (insert_delete_eq t1), <- (insert_delete_eq t2), Ht.
  reflexivity.
Qed.

(** C10: the response of [getTestById] is the same whatever answers and
    test cases the stored questions carry, and for a test that exists every
    question object in it lacks the fields [correctAnswer] and
    [testCases]. *)
Theorem getTestById_hides_answers (id : ObjectId) (w : World)
    (f : Question -> string) (g : Question -> list TestCase) :
  fst (getTestById id (with_hidden f g w)) = fst (getTestById id w)
  /\ forall test,
       tests (db w) !! id = Some test ->
       exists questionObjects,
         getTestById id w
         = (Normal (200%nat,
                    VObj (<["questions" := VArr (map VObj questionObjects)]>
                            (testFields test))),
            w)
         /\ length questionObjects = length (populate (db w) test)
         /\ forall o, o ∈ questionObjects ->
                      o !! "correctAnswer" = None /\ o !! "testCases" = None.
Proof.
  assert (Hrun : forall w0 test,
            tests (db w0) !! id = Some test ->
            getTestById id w0
            = (Normal (200%nat,
                       VObj (<["questions" :=
                                 VArr (map VObj
                                         (map publicFields
                                            (populate (db w0) test)))]>
                               (testFields test))),
               w0)).
  { intros w0 test Htest. unfold getTestById.
    rewrite (bind_normal _ _ w0 w0 (Some (test, populate (db w0) test)))
      by (unfold Test_findById_populate, gets; rewrite Htest; reflexivity).
    cbn [mret Eff_ret]. rewrite testView_populated. reflexivity. }
  split.
  - destruct (tests (db w) !! id) as [test|] eqn:Htest.
    + rewrite (Hrun w test Htest), (Hrun (with_hidden f g w) test Htest).
      rewrite populate_with_hidden.
      rewrite (map_map (rewriteAnswers f g) publicFields). reflexivity.
    + unfold getTestById.
      rewrite (bind_normal _ _ w w None)
        by (unfold Test_findById_populate, gets; rewrite Htest; reflexivity).
      rewrite (bind_normal _ _ (with_hidden f g w) (with_hidden f g w) None)
        by (unfold Test_findById_populate, gets; cbn; rewrite Htest;
            reflexivity).
      reflexivity.
  - intros test Htest. exists (map publicFields (populate (db w) test)).
    split; [exact (Hrun w test Htest)|]. split; [apply length_map|].
    intros o Ho. apply list_elem_of_fmap in Ho as (q & -> & _).
    apply publicFields_hidden.
Qed.

(** A stored answer does not show in the response. *)
Lemma getTestById_sample :
  exists body questionObjects,
    fst (getTestById "t2" (quizWorld 60)) = Normal (200%nat, VObj body)
    /\ body !! "questions" = Some (VArr (map VObj questionObjects))
    /\ map (fun o => (o !! "_id", o !! "correctAnswer", o !! "testCases"))
         questionObjects
       = [ (Some (VStr "q1"), None, None); (Some (VStr "q2"), None, None) ].
Proof.
  eexists. exists (map publicFields (populate (db (quizWorld 60))
                                       (assignedTest "t2" ["q1"; "q2"] 60))).
  vm_compute. repeat split; reflexivity.
Qed.

(** * The theorems at sample inputs *)

(** The coding question whose second case hangs: no point, and the third
    case is not run. *)
Lemma coding_question_all_or_nothing_witness :
  questionFor [codingQuestion; question "q1" "MCQ" "easy" "A" []] codingAnswer
  = Some codingQuestion
  /\ questionType codingQuestion = "Coding"
  /\ exists point w',
       gradeAnswer [codingQuestion; question "q1" "MCQ" "easy" "A" []]
         codingAnswer codingWorld
       = (Normal point, w')
       /\ point = 0%nat
       /\ vmRuns w'
          = [ program doubling {| tc_input := "1"; tc_output := "2" |};
              program doubling {| tc_input := "2"; tc_output := "4" |} ].
Proof.
  split; [reflexivity|]. split; [reflexivity|].
  destruct (coding_question_all_or_nothing
              [codingQuestion; question "q1" "MCQ" "easy" "A" []]
              codingAnswer codingQuestion [] codingWorld eq_refl eq_refl)
    as (point & Hrun & _ & Hzero & _).
  exists point. eexists. split; [exact Hrun|]. split.
  - apply Hzero. exists {| tc_input := "2"; tc_output := "4" |}.
    split; [|reflexivity].
    apply list_elem_of_further, list_elem_of_here.
  - reflexivity.
Defined.


(** 17 correct answers out of 20 place the learner in the highest band. *)
Lemma getAdaptiveDifficulty_bands_witness :
  historyReachable samWorld "s2"
  /\ exists dist,
       getAdaptiveDifficulty "s2" samWorld
       = (Normal dist, ensureHistory samWorld "s2")
       /\ dist = {| easy := 10; medium := 40; hard := 50 |}.
Proof.
  assert (Hreach : historyReachable samWorld "s2").
  { split; [reflexivity|]. intros _. reflexivity. }
  split; [exact Hreach|].
  destruct (getAdaptiveDifficulty_bands "s2" samWorld Hreach)
    as (dist & Hrun & _ & Hhigh & _).
  exists dist. split; [exact Hrun|]. apply Hhigh.
  - vm_compute. lia.
  - vm_compute. reflexivity.
Defined.


(** * More properties of the selector *)

(** ** shuffleArray *)

Lemma with_randomPos_self (w : World) : with_randomPos (randomPos w) w = w.
Proof. destruct w; reflexivity. Qed.

Lemma shuffleFrom_draws {A} (i : nat) :
  forall (l : list A) (w : World),
  exists l',
    shuffleFrom i l w = (Normal l', with_randomPos (randomPos w + i) w)
    /\ l' ≡ₚ l.
Proof.
  induction i as [|i IH]; intros l w.
  - exists l. rewrite Nat.add_0_r, with_randomPos_self.
    split; reflexivity.
  - cbn [shuffleFrom]. rewrite bind_run. unfold Math_random_below.
    destruct (IH (swap l (S i) (random (env w) (randomPos w) `mod` S (S i)))
                (with_randomPos (S (randomPos w)) w)) as (l' & Hrun & Hp).
    exists l'. rewrite Hrun, with_randomPos_twice. cbn [randomPos with_randomPos].
    split; [do 2 f_equal; lia|].
    rewrite Hp. apply swap_perm.
Qed.

(** X1: [shuffleArray] returns a permutation of its argument; it draws one
    random number for each element but the first and changes nothing else
    in the world. *)
Theorem shuffleArray_permutes {A} (array : list A) (w : World) :
  exists shuffled,
    shuffleArray array w
    = (Normal shuffled,
       with_randomPos (randomPos w + (length array - 1)) w)
    /\ shuffled ≡ₚ array.
Proof. apply shuffleFrom_draws. Qed.

(** ** calculateQuestionBreakdown *)

Lemma tierEntries_cells (td : TypeDist) (d : string) (count : Z) :
  sublist (map cellOf (tierEntries td (d, count))) (map (pair d) typeNames).
Proof.
  unfold tierEntries.
  destruct (count <=? 0)%Z; [apply sublist_nil_l|].
  destruct (0 <? mcqCountOf td count)%Z,
           (0 <? codingCountOf td count)%Z,
           (0 <? count - mcqCountOf td count - codingCountOf td count)%Z;
    cbn; repeat first [apply sublist_nil_l | apply sublist_skip
                      | apply sublist_cons].
Qed.

(** X2: the cells of a breakdown are among the nine cells
    difficulty x type, each at most once and in the order easy, medium,
    hard and MCQ, Coding, TrueFalse; every entry asks for at least one
    question. *)
Theorem calculateQuestionBreakdown_cells (total : Z) (dd : DifficultyDist)
    (td : TypeDist) :
  sublist (map cellOf (calculateQuestionBreakdown total dd td)) allCells
  /\ NoDup (map cellOf (calculateQuestionBreakdown total dd td))
  /\ Forall (fun e => (0 < req_count e)%Z)
       (calculateQuestionBreakdown total dd td).
Proof.
  assert (Hsub : sublist (map cellOf (calculateQuestionBreakdown total dd td))
                   allCells).
  { unfold calculateQuestionBreakdown, allCells, difficultyNames.
    cbn [flat_map]. rewrite !map_app, !app_nil_r.
    repeat apply sublist_app; apply tierEntries_cells. }
  split; [exact Hsub|]. split.
  - eapply sublist_NoDup; [|exact Hsub].
    apply (bool_decide_unpack _). vm_compute. reflexivity.
  - apply calculateQuestionBreakdown_positive.
Qed.

(** ** The adaptive profiles *)

(** The four distributions [getAdaptiveDifficulty] can answer with. *)
Lemma getAdaptiveDifficulty_profiles (studentId : ObjectId) (w : World) :
  historyReachable w studentId ->
  exists dist,
    getAdaptiveDifficulty studentId w
    = (Normal dist, ensureHistory w studentId)
    /\ (dist = {| easy := 30; medium := 50; hard := 20 |}
        \/ dist = {| easy := 10; medium := 40; hard := 50 |}
        \/ dist = {| easy := 25; medium := 50; hard := 25 |}
        \/ dist = {| easy := 50; medium := 40; hard := 10 |}).
Proof.
  intros Hreach. unfold getAdaptiveDifficulty.
  step (getStudentHistory_spec _ _ Hreach).
  destruct (_ <? 10)%nat; [eauto|].
  destruct (0.8 <=? _)%float; [eauto 6|].
  destruct (0.6 <=? _)%float; eauto 8.
Qed.

Lemma ensureHistory_reachable (w : World) (studentId : ObjectId) :
  historyReachable w studentId ->
  historyReachable (ensureHistory w studentId) studentId.
Proof.
  intros [Hrd Hwr]. split.
  - rewrite ensureHistory_env. exact Hrd.
  - unfold ensureHistory.
    destruct (histories (db w) !! studentId) eqn:Hh.
    + rewrite Hh. discriminate.
    + cbn. rewrite lookup_insert_eq. discriminate.
Qed.

(** ** getRecentlySeenQuestionIds *)

(** X3: within the range of a Date a longer window never lets more
    questions through.  On a host whose offsets from UTC differ by at most a
    day, and for [days <= days'], every identity that is recent for [days]
    is recent for [days'] as long as the cutoff for [days'] is a valid Date;
    once it is not, no question is recent. *)
Theorem getRecentlySeenQuestionIds_window (e : Env)
    (history : StudentQuestionHistory) (days days' : Z) (id : ObjectId) :
  (days <= days')%Z ->
  (forall t t', (LocalTZA e t false - LocalTZA e t' false <= msPerDay)%Z) ->
  (cutoffDate e days' <> None ->
   id ∈ getRecentlySeenQuestionIds e history days ->
   id ∈ getRecentlySeenQuestionIds e history days')
  /\ (cutoffDate e days' = None ->
      getRecentlySeenQuestionIds e history days' = []).
Proof.
  intros Hle Hzone. split.
  - intros Hvalid Hin.
    apply getRecentlySeenQuestionIds_spec
      in Hin as (sq & cutoff & Hsq & Hcut & Hlt & Hid).
    destruct (cutoffDate e days') as [cutoff'|] eqn:Hcut'; [|congruence].
    apply getRecentlySeenQuestionIds_spec. exists sq, cutoff'.
    split; [exact Hsq|]. split; [exact Hcut'|]. split; [|exact Hid].
    unfold cutoffDate, TimeClip in Hcut, Hcut'.
    destruct (_ <? _)%Z in Hcut; [discriminate Hcut|].
    destruct (_ <? _)%Z in Hcut'; [discriminate Hcut'|].
    injection Hcut as <-. injection Hcut' as <-.
    destruct (Z.eq_dec days days') as [->|Hne]; [exact Hlt|].
    pose proof (Hzone
                  (clock e + LocalTZA e (clock e) true - days * msPerDay)%Z
                  (clock e + LocalTZA e (clock e) true - days' * msPerDay)%Z)
      as Hz.
    unfold msPerDay in *. lia.
  - intros Hcut. unfold getRecentlySeenQuestionIds. rewrite Hcut.
    cbn [laterThan]. induction (seenQuestions history) as [|sq l IH];
      [reflexivity|exact IH].
Qed.

(** ** getStudentHistory *)

(** X4: find-or-create.  The history [getStudentHistory] returns is the one
    stored for the learner afterwards; a learner without a history gets an
    empty one; the histories of other learners are not touched; and asking
    again returns the same history and changes nothing. *)
Theorem getStudentHistory_find_or_create (studentId : ObjectId) (w : World) :
  historyReachable w studentId ->
  exists history w',
    getStudentHistory studentId w = (Normal history, w')
    /\ histories (db w') !! studentId = Some history
    /\ (histories (db w) !! studentId = None ->
        history = emptyHistory studentId)
    /\ (forall other, other <> studentId ->
          histories (db w') !! other = histories (db w) !! other)
    /\ getStudentHistory studentId w' = (Normal history, w').
Proof.
  intros Hreach.
  exists (historyOf w studentId), (ensureHistory w studentId).
  split; [apply getStudentHistory_spec, Hreach|].
  assert (Hstored : histories (db (ensureHistory w studentId)) !! studentId
                    = Some (historyOf w studentId)).
  { unfold ensureHistory, historyOf.
    destruct (histories (db w) !! studentId) eqn:Hh; [exact Hh|].
    cbn. apply lookup_insert_eq. }
  split; [exact Hstored|]. split; [|split].
  - intros Hnone. unfold historyOf. rewrite Hnone. reflexivity.
  - intros other Hother. unfold ensureHistory.
    destruct (histories (db w) !! studentId); [reflexivity|].
    cbn. apply lookup_insert_ne. congruence.
  - rewrite (getStudentHistory_spec _ _ (ensureHistory_reachable _ _ Hreach)).
    unfold historyOf at 1. rewrite Hstored. cbn [default].
    f_equal. unfold ensureHistory at 1. rewrite Hstored. reflexivity.
Qed.

(** ** selectQuestions *)

Lemma matchesQuery_drawable (req : BreakdownEntry) (excludeIds : list ObjectId)
    categories pool (q : Question) :
  matchesQuery (queryFor req excludeIds categories pool) q = true ->
  drawable categories pool q.
Proof.
  unfold matchesQuery. rewrite !andb_true_iff.
  intros (((((_ & _) & Hact) & _) & Hcat) & Hpool).
  cbn [queryFor m_isActive m_category_in m_id_in] in *.
  split; [|split].
  - destruct (isActive q); [reflexivity|discriminate Hact].
  - intros c cs ->. apply inIds_spec, Hcat.
  - intros p -> Hne. destruct (pool_questions p) as [|i ids]; [congruence|].
    rewrite existsb_idEquals_objects in Hpool. apply inIds_spec, Hpool.
Qed.

Lemma inCell_spec (c : string * string) (q : Question) :
  inCell c q = true <-> questionCell q = c.
Proof.
  unfold inCell, questionCell. destruct c as [d t]. cbn [fst snd].
  rewrite andb_true_iff, !String.eqb_eq. split.
  - intros [-> ->]. reflexivity.
  - intros [= -> ->]. auto.
Qed.

Lemma filter_inCell_length (c : string * string) (l : list Question) :
  (length (List.filter (inCell c) l) <= length l)%nat.
Proof.
  induction l as [|q l IH]; simpl; [lia|].
  destruct (inCell c q); simpl; lia.
Qed.

Lemma filter_inCell_other (c c' : string * string) (l : list Question) :
  (forall q, q ∈ l -> questionCell q = c') -> c' <> c ->
  List.filter (inCell c) l = [].
Proof.
  intros Hall Hne. induction l as [|q l IH]; [reflexivity|].
  simpl. destruct (inCell c q) eqn:Hq.
  - apply inCell_spec in Hq. exfalso. apply Hne.
    rewrite <- Hq. symmetry. apply Hall, list_elem_of_here.
  - apply IH. intros q' Hq'. apply Hall, list_elem_of_further, Hq'.
Qed.

Lemma drawCell_cell categories pool (req : BreakdownEntry)
    (selected : list Question) (excludeIds : list ObjectId) (w : World) :
  exists drawn n,
    drawCell categories pool req (selected, excludeIds) w
    = (Normal (selected ++ drawn, excludeIds ++ map q_id drawn),
       with_randomPos n w)
    /\ (Z.of_nat (length drawn) <= Z.max 0 (req_count req))%Z
    /\ (forall q, q ∈ drawn ->
          q ∈ questions (db w) /\ questionCell q = cellOf req
          /\ drawable categories pool q).
Proof.
  destruct (Question_sample_spec (queryFor req excludeIds categories pool)
              (req_count req) w) as (l & n & Hrun & Hlen & Hin & _).
  exists l, n. unfold drawCell. step Hrun.
  split; [reflexivity|]. split; [lia|].
  intros q Hq. destruct (Hin q Hq) as [Hst Hm].
  split; [exact Hst|]. split.
  - destruct (matchesQuery_cell _ _ Hm) as [Hd Ht].
    unfold questionCell, cellOf. cbn [queryFor m_difficulty m_questionType] in *.
    congruence.
  - exact (matchesQuery_drawable _ _ _ _ _ Hm).
Qed.

Lemma forOf_drawCell_cells categories pool (breakdown : list BreakdownEntry) :
  forall (selected : list Question) (excludeIds : list ObjectId) (w : World),
  exists drawn n,
    forOf breakdown (drawCell categories pool) (selected, excludeIds) w
    = (Normal (selected ++ drawn, excludeIds ++ map q_id drawn),
       with_randomPos n w)
    /\ (forall q, q ∈ drawn ->
          q ∈ questions (db w) /\ questionCell q ∈ map cellOf breakdown
          /\ drawable categories pool q)
    /\ (forall c, (Z.of_nat (length (List.filter (inCell c) drawn))
                   <= quota breakdown c)%Z).
Proof.
  induction breakdown as [|req breakdown IH]; intros selected excludeIds w.
  - exists [], (randomPos w). cbn [forOf]. rewrite !app_nil_r.
    split; [rewrite with_randomPos_self; reflexivity|].
    split; [intros q Hq; inversion Hq|]. intros c. simpl. lia.
  - destruct (drawCell_cell categories pool req selected excludeIds w)
      as (d1 & n1 & Hrun1 & Hlen1 & Hin1).
    destruct (IH (selected ++ d1) (excludeIds ++ map q_id d1)
                (with_randomPos n1 w))
      as (d2 & n2 & Hrun2 & Hin2 & Hq2).
    exists (d1 ++ d2), n2. cbn [forOf].
    step Hrun1. rewrite Hrun2.
    rewrite map_app, !app_assoc. split; [reflexivity|]. split.
    + intros q Hq. apply elem_of_app in Hq as [Hq|Hq].
      * destruct (Hin1 q Hq) as (H1 & H2 & H3).
        split; [exact H1|]. split; [|exact H3].
        cbn [map]. rewrite H2. apply list_elem_of_here.
      * destruct (Hin2 q Hq) as (H1 & H2 & H3).
        split; [exact H1|]. split; [|exact H3].
        cbn [map]. apply list_elem_of_further, H2.
    + intros c. rewrite List.filter_app, length_app. cbn [quota foldr].
      specialize (Hq2 c). fold (quota breakdown c).
      destruct (String.eqb (req_difficulty req) (fst c)
                && String.eqb (req_type req) (snd c)) eqn:Hc.
      * pose proof (filter_inCell_length c d1). lia.
      * rewrite (filter_inCell_other c (cellOf req) d1).
        -- simpl. lia.
        -- intros q Hq. apply Hin1, Hq.
        -- intros Heq. rewrite <- Heq in Hc. unfold cellOf in Hc.
           cbn [fst snd] in Hc. rewrite !String.eqb_refl in Hc.
           discriminate Hc.
Qed.

(** X5: what [selectQuestions] draws.  Every selected question is stored and
    active, lies in a cell of the breakdown, belongs to one of the given
    categories when a non-empty list is given, and to the pool when the pool
    lists questions; no cell receives more questions than the breakdown asks
    for; and the store is only read (the random source apart). *)
Theorem selectQuestions_respects_cells (breakdown : list BreakdownEntry)
    (excludeIds : list ObjectId) (categories : option (list string))
    (pool : option QuestionPool) (w : World) :
  exists selected n,
    selectQuestions breakdown excludeIds categories pool w
    = (Normal (selected, excludeIds ++ map q_id selected),
       with_randomPos n w)
    /\ (forall q, q ∈ selected ->
          q ∈ questions (db w)
          /\ questionCell q ∈ map cellOf breakdown
          /\ drawable categories pool q)
    /\ (forall c, (Z.of_nat (length (List.filter (inCell c) selected))
                   <= quota breakdown c)%Z).
Proof.
  unfold selectQuestions.
  destruct (forOf_drawCell_cells categories pool breakdown [] excludeIds w)
    as (drawn & n & Hrun & H). exists drawn, n. split; [exact Hrun|exact H].
Qed.

(** ** Questions drawn twice, and questions seen recently *)

Lemma NoDup_ids_inj (l : list Question) (q1 q2 : Question) :
  NoDup (map q_id l) -> q1 ∈ l -> q2 ∈ l -> q_id q1 = q_id q2 -> q1 = q2.
Proof.
  induction l as [|q l IH]; intros Hnd H1 H2 Heq; [inversion H1|].
  cbn [map] in Hnd. apply NoDup_cons in Hnd as [Hq Hnd].
  apply elem_of_cons in H1 as [->|H1], H2 as [->|H2].
  - reflexivity.
  - exfalso. apply Hq. rewrite Heq.
    change (q_id q2 ∈ q_id <$> l). apply list_elem_of_fmap. eauto.
  - exfalso. apply Hq. rewrite <- Heq.
    change (q_id q1 ∈ q_id <$> l). apply list_elem_of_fmap. eauto.
  - auto.
Qed.

(** When no cell comes twice in the breakdown and the stored identities are
    distinct, no question is drawn twice: the cells share no question. *)
Lemma forOf_drawCell_no_repeats categories pool
    (breakdown : list BreakdownEntry) :
  forall (selected : list Question) (excludeIds : list ObjectId) (w : World),
  NoDup (map cellOf breakdown) ->
  NoDup (map q_id (questions (db w))) ->
  exists drawn n,
    forOf breakdown (drawCell categories pool) (selected, excludeIds) w
    = (Normal (selected ++ drawn, excludeIds ++ map q_id drawn),
       with_randomPos n w)
    /\ NoDup (map q_id drawn)
    /\ (forall q, q ∈ drawn ->
          q ∈ questions (db w) /\ questionCell q ∈ map cellOf breakdown).
Proof.
  induction breakdown as [|req breakdown IH];
    intros selected excludeIds w Hcells Hstore.
  - exists [], (randomPos w). cbn [forOf]. rewrite !app_nil_r.
    split; [rewrite with_randomPos_self; reflexivity|].
    split; [constructor|]. intros q Hq. inversion Hq.
  - cbn [map] in Hcells. apply NoDup_cons in Hcells as [Hreq Hcells].
    destruct (drawCell_spec categories pool req selected excludeIds w)
      as (d1 & n1 & Hrun1 & _ & Hin1 & Hnd1).
    destruct (IH (selected ++ d1) (excludeIds ++ map q_id d1)
                (with_randomPos n1 w) Hcells Hstore)
      as (d2 & n2 & Hrun2 & Hnd2 & Hin2).
    exists (d1 ++ d2), n2. cbn [forOf].
    step Hrun1. rewrite Hrun2.
    rewrite map_app, !app_assoc. split; [reflexivity|].
    assert (Hcell1 : forall q, q ∈ d1 -> questionCell q = cellOf req).
    { intros q Hq. destruct (Hin1 q Hq) as (_ & Hd & Ht).
      unfold questionCell, cellOf. congruence. }
    split.
    + apply NoDup_app. split; [exact (Hnd1 Hstore)|]. split; [|exact Hnd2].
      intros id Hid1 Hid2.
      apply list_elem_of_fmap in Hid1 as (q1 & -> & Hq1).
      apply list_elem_of_fmap in Hid2 as (q2 & Heq & Hq2).
      destruct (Hin1 q1 Hq1) as (Hst1 & _).
      destruct (Hin2 q2 Hq2) as (Hst2 & Hc2).
      rewrite <- (NoDup_ids_inj _ _ _ Hstore Hst1 Hst2 Heq) in Hc2.
      rewrite (Hcell1 q1 Hq1) in Hc2. exact (Hreq Hc2).
    + intros q Hq. apply elem_of_app in Hq as [Hq|Hq].
      * destruct (Hin1 q Hq) as (Hst & _). split; [exact Hst|].
        cbn [map]. rewrite (Hcell1 q Hq). apply list_elem_of_here.
      * destruct (Hin2 q Hq) as (Hst & Hc). split; [exact Hst|].
        cbn [map]. apply list_elem_of_further, Hc.
Qed.

Lemma breakdownCells_NoDup (total : Z) (dd : DifficultyDist) (td : TypeDist) :
  NoDup (map cellOf (calculateQuestionBreakdown total dd td)).
Proof.
  assert (Hsub : sublist (map cellOf (calculateQuestionBreakdown total dd td))
                   allCells).
  { unfold calculateQuestionBreakdown, allCells, difficultyNames.
    cbn [flat_map]. rewrite !map_app, !app_nil_r.
    repeat apply sublist_app; apply tierEntries_cells. }
  eapply sublist_NoDup; [|exact Hsub].
  apply (bool_decide_unpack _). vm_compute. reflexivity.
Qed.

(** Without generation, and with distinct identities in the store, the
    selector returns no question twice: the cells of the breakdown it
    computes differ in difficulty or in type. *)
Lemma selectQuestionsForTest_no_repeats (studentId : ObjectId)
    (config : SelectorConfig) (w : World) :
  historyReachable w studentId ->
  generateIfNeeded config = false ->
  NoDup (map q_id (questions (db w))) ->
  exists result w',
    selectQuestionsForTest studentId config w = (Normal result, w')
    /\ NoDup (map q_id result).
Proof.
  intros Hreach Hgen Hstore. unfold selectQuestionsForTest.
  step (getStudentHistory_spec _ _ Hreach).
  set (w1 := ensureHistory w studentId).
  assert (Hq1 : questions (db w1) = questions (db w))
    by apply ensureHistory_questions.
  rewrite bind_run. unfold gets at 1.
  set (recent := if avoidRecentQuestions config then _ else []).
  set (breakdown := calculateQuestionBreakdown _ _ _).
  assert (Hpool : exists pool,
            (match poolId config with
             | Some id => QuestionPool_findById id
             | None => QuestionPool_findDefault
             end) w1 = (Normal pool, w1)).
  { destruct (poolId config); eexists; reflexivity. }
  destruct Hpool as [pool Hpool].
  step Hpool.
  destruct (forOf_drawCell_no_repeats (categories config) pool breakdown []
              recent w1 (breakdownCells_NoDup _ _ _))
    as (selected & n & Hsel & Hnd & _); [rewrite Hq1; exact Hstore|].
  cbn [app] in Hsel.
  fold (selectQuestions breakdown recent (categories config) pool) in Hsel.
  step Hsel. rewrite Hgen, andb_false_r, bind_run. cbn [mret Eff_ret].
  destruct (shuffleArray_spec selected (with_randomPos n w1))
    as (result & m & Hsh & Hperm).
  exists result, (with_randomPos m (with_randomPos n w1)). rewrite Hsh.
  split; [reflexivity|]. change (NoDup (q_id <$> result)).
  rewrite Hperm. exact Hnd.
Qed.

(** C6 (the code departs from the claim): a question the learner saw within
    the window is selected again, although the store holds questions of the
    same cell that the learner never saw.  The exclusion list holds the
    texts of the identities, and the [$match] stage compares them with
    ObjectIds, so that it excludes nothing: the selector returns the same
    questions whether [avoidRecentQuestions] is set or not.  Ria saw [e3]
    one day ago; seven questions are asked for with a window of 30 days;
    the cell easy/MCQ asks for one question, [e1] is in that cell and Ria
    never saw it, and [e3] is returned.  The identities drawn are appended
    to the list as texts too, and a breakdown that names a cell twice draws
    the same question twice. *)
Theorem recent_question_selected_again :
  (forall studentId config w,
     selectQuestionsForTest studentId config w
     = selectQuestionsForTest studentId
         (with_avoidRecentQuestions false config) w)
  /\ (let config := previewConfig 7 defaultDifficultyDist in
      avoidRecentQuestions config = true
      /\ recentQuestionDays config = 30%Z
      /\ getRecentlySeenQuestionIds (env riaWorld) (historyOf riaWorld "s4")
           (recentQuestionDays config) = ["e3"]
      /\ quota (calculateQuestionBreakdown (totalQuestions config)
                  (difficultyDistribution config) (questionTypes config))
           ("easy", "MCQ") = 1%Z
      /\ question "e1" "MCQ" "easy" "A" [] ∈ questions (db riaWorld)
      /\ ("e1" ∉ map sq_question (seenQuestions (historyOf riaWorld "s4")))
      /\ exists result w',
           selectQuestionsForTest "s4" config riaWorld = (Normal result, w')
           /\ map q_id result = ["e3"; "e2"; "m1"; "m2"; "h1"])
  /\ (exists selected w',
        selectQuestions [oneEasy; oneEasy] [] None None bankWorld
        = (Normal (selected, ["e1"; "e1"]), w')
        /\ map q_id selected = ["e1"; "e1"]).
Proof.
  split; [exact selectQuestionsForTest_ignores_avoidRecentQuestions|].
  split.
  - cbn zeta. split; [reflexivity|]. split; [reflexivity|].
    split; [vm_compute; reflexivity|]. split; [vm_compute; reflexivity|].
    split; [apply list_elem_of_here|]. split.
    + intros Hin. apply list_elem_of_In in Hin. vm_compute in Hin.
      destruct Hin as [Heq|[]]. discriminate Heq.
    + eexists. eexists. vm_compute. split; reflexivity.
  - eexists. eexists. vm_compute. split; reflexivity.
Qed.

(** ** Saving generated questions *)

Lemma freshIds_app (e : Env) (pos n m : nat) :
  freshIds e pos (n + m) = freshIds e pos n ++ freshIds e (pos + n) m.
Proof. unfold freshIds. rewrite seq_app, map_app. reflexivity. Qed.

Lemma saveOne_exact (q : QuestionDraft) (acc : list Question) (w : World) :
  let saved := savedAs (objectIds (env w) (idPos w)) q in
  saveOne q acc w
  = (Normal (acc ++ [saved]),
     with_idPos (S (idPos w))
       (with_db (fun d => set_questions (questions d ++ [saved]) d) w)).
Proof. reflexivity. Qed.

Lemma forOf_saveOne_exact (drafts : list QuestionDraft) :
  forall (acc : list Question) (w : World),
    let saved :=
      zip_with savedAs (freshIds (env w) (idPos w) (length drafts)) drafts in
    forOf drafts saveOne acc w
    = (Normal (acc ++ saved),
       with_idPos (idPos w + length drafts)
         (with_db (fun d => set_questions (questions d ++ saved) d) w)).
Proof.
  induction drafts as [|d drafts IH]; intros acc w saved; subst saved.
  - cbn. rewrite app_nil_r, Nat.add_0_r.
    destruct w as [e d p i v c o]. destruct d.
    unfold with_idPos, with_db, set_questions. cbn.
    rewrite app_nil_r. reflexivity.
  - cbn [forOf]. step (saveOne_exact d acc w). rewrite IH.
    cbn [length freshIds seq map zip_with env idPos with_idPos with_db db
         questions set_questions].
    rewrite <- app_assoc. cbn [app].
    f_equal. unfold with_idPos, with_db, set_questions. cbn.
    rewrite <- app_assoc. cbn [app]. f_equal. lia.
Qed.

Lemma saveGeneratedQuestions_exact (drafts : list QuestionDraft)
    (w : World) :
  let saved :=
    zip_with savedAs (freshIds (env w) (idPos w) (length drafts)) drafts in
  saveGeneratedQuestions drafts w
  = (Normal saved,
     with_idPos (idPos w + length drafts)
       (with_db (fun d => set_questions (questions d ++ saved) d) w))
  /\ length saved = length drafts
  /\ map q_id saved = freshIds (env w) (idPos w) (length drafts).
Proof.
  intros saved. unfold saveGeneratedQuestions.
  rewrite (forOf_saveOne_exact drafts [] w). cbn [app]. fold saved.
  split; [reflexivity|].
  assert (Hlen : forall (ids : list ObjectId) (ds : list QuestionDraft),
            length ids = length ds ->
            length (zip_with savedAs ids ds) = length ds
            /\ map q_id (zip_with savedAs ids ds) = ids).
  { induction ids as [|i ids IH]; intros [|d' ds] Hl; try discriminate Hl;
      [split; reflexivity|].
    destruct (IH ds) as [H1 H2]; [simpl in Hl; lia|].
    cbn. rewrite H1, H2. split; reflexivity. }
  apply Hlen. unfold freshIds. rewrite length_map, length_seq. reflexivity.
Qed.

(** X6: [saveGeneratedQuestions] stores the questions it is given, in their
    order, under the next identities of the database, and returns them as
    stored; it writes nothing else. *)
Theorem saveGeneratedQuestions_appends (drafts : list QuestionDraft)
    (w : World) :
  let saved :=
    zip_with savedAs (freshIds (env w) (idPos w) (length drafts)) drafts in
  saveGeneratedQuestions drafts w
  = (Normal saved,
     with_idPos (idPos w + length drafts)
       (with_db (fun d => set_questions (questions d ++ saved) d) w))
  /\ length saved = length drafts
  /\ map q_id saved = freshIds (env w) (idPos w) (length drafts).
Proof. apply saveGeneratedQuestions_exact. Qed.

Lemma storeGrownBy_refl (w : World) : storeGrownBy w w [].
Proof.
  unfold storeGrownBy. rewrite app_nil_r. cbn [length].
  rewrite Nat.add_0_r. repeat split; reflexivity.
Qed.

Lemma storeGrownBy_trans (w1 w2 w3 : World) (l1 l2 : list Question) :
  storeGrownBy w1 w2 l1 -> storeGrownBy w2 w3 l2 ->
  storeGrownBy w1 w3 (l1 ++ l2).
Proof.
  intros (He1 & Hq1 & Hp1 & Hi1 & Hh1 & Ht1 & Hs1)
         (He2 & Hq2 & Hp2 & Hi2 & Hh2 & Ht2 & Hs2).
  unfold storeGrownBy. rewrite length_app, freshIds_app, map_app.
  rewrite Hi1, Hi2, He2, Hp1.
  repeat split; try congruence.
  - rewrite Hq2, Hq1, app_assoc. reflexivity.
  - lia.
Qed.

Lemma saveGeneratedQuestions_grows (drafts : list QuestionDraft) (w : World) :
  exists saved w',
    saveGeneratedQuestions drafts w = (Normal saved, w')
    /\ storeGrownBy w w' saved.
Proof.
  destruct (saveGeneratedQuestions_exact drafts w) as (Hrun & Hlen & Hids).
  eexists. eexists. split; [exact Hrun|].
  unfold storeGrownBy. rewrite Hlen.
  repeat split; try reflexivity. exact Hids.
Qed.

(** ** generateAdditionalQuestions *)

Lemma generateCell_grows existingByType categories (req : BreakdownEntry)
    (generated : list Question) (w : World) :
  exists new w',
    generateCell existingByType categories req generated w
    = (Normal (generated ++ new), w')
    /\ storeGrownBy w w' new.
Proof.
  unfold generateCell.
  destruct (0 <? _)%Z.
  2:{ exists [], w. rewrite app_nil_r. split; [reflexivity|].
      apply storeGrownBy_refl. }
  assert (Hcat : exists category w1,
             (match categories with
              | Some (c :: cs) =>
                  i ← Math_random_below (length (c :: cs));
                  mret (default "" ((c :: cs) !! i))
              | _ => mret "General"
              end : Eff string) w = (Normal category, w1)
             /\ storeGrownBy w w1 []).
  { destruct categories as [[|c cs]|];
      eexists; eexists; (split; [reflexivity|]);
      try apply storeGrownBy_refl.
    unfold storeGrownBy. cbn. rewrite app_nil_r, Nat.add_0_r.
    repeat split; reflexivity. }
  destruct Hcat as (category & w1 & Hcat & Hg1).
  step Hcat. rewrite bind_run.
  unfold generateQuestions at 1, gets at 1. rewrite bind_run.
  match goal with
  | |- context [saveGeneratedQuestions ?drafts w1] =>
      destruct (saveGeneratedQuestions_grows drafts w1)
        as (saved & w' & Hrun & Hg2)
  end.
  exists saved, w'. rewrite Hrun. split; [reflexivity|].
  apply (storeGrownBy_trans _ _ _ [] saved Hg1 Hg2).
Qed.

Lemma forOf_generateCell_grows existingByType categories
    (breakdown : list BreakdownEntry) :
  forall (generated : list Question) (w : World),
  exists new w',
    forOf breakdown (generateCell existingByType categories) generated w
    = (Normal (generated ++ new), w')
    /\ storeGrownBy w w' new.
Proof.
  induction breakdown as [|req breakdown IH]; intros generated w.
  - exists [], w. cbn [forOf]. rewrite app_nil_r.
    split; [reflexivity|]. apply storeGrownBy_refl.
  - destruct (generateCell_grows existingByType categories req generated w)
      as (n1 & w1 & Hrun1 & Hg1).
    destruct (IH (generated ++ n1) w1) as (n2 & w2 & Hrun2 & Hg2).
    exists (n1 ++ n2), w2. cbn [forOf].
    step Hrun1. rewrite Hrun2, app_assoc.
    split; [reflexivity|]. exact (storeGrownBy_trans _ _ _ _ _ Hg1 Hg2).
Qed.

(** One cell: what the generator returns for it is saved, draft by draft. *)
Lemma generateCell_exact existingByType categories (req : BreakdownEntry)
    (generated : list Question) (w : World) :
  let drafts :=
    generatedDrafts (env w) existingByType categories (randomPos w) [req] in
  let saved :=
    zip_with savedAs (freshIds (env w) (idPos w) (length drafts)) drafts in
  exists w',
    generateCell existingByType categories req generated w
    = (Normal (generated ++ saved), w')
    /\ storeGrownBy w w' saved
    /\ length saved = length drafts
    /\ forall rest,
         generatedDrafts (env w) existingByType categories (randomPos w)
           (req :: rest)
         = drafts
           ++ generatedDrafts (env w') existingByType categories
                (randomPos w') rest.
Proof.
  intros drafts saved. subst saved drafts.
  unfold generateCell. cbn [generatedDrafts].
  destruct (0 <? _)%Z.
  2:{ exists w. cbn [length freshIds seq map zip_with]. rewrite app_nil_r.
      split; [reflexivity|]. split; [apply storeGrownBy_refl|].
      split; reflexivity. }
  destruct categories as [[|c cs]|].
  - rewrite app_nil_r, bind_run. cbn [mret Eff_ret]. rewrite bind_run.
    unfold generateQuestions at 1, gets at 1. rewrite bind_run.
    match goal with
    | |- context [saveGeneratedQuestions ?ds w] =>
        destruct (saveGeneratedQuestions_exact ds w) as (Hrun & Hlen & Hids)
    end.
    rewrite Hrun. eexists. split; [reflexivity|]. split.
    + unfold storeGrownBy. rewrite Hlen.
      repeat split; try reflexivity. exact Hids.
    + split; [exact Hlen|]. reflexivity.
  - rewrite app_nil_r, bind_run, bind_run.
    unfold Math_random_below at 1. cbn [mret Eff_ret]. rewrite bind_run.
    unfold generateQuestions at 1, gets at 1. rewrite bind_run.
    cbn [env with_randomPos].
    match goal with
    | |- context [saveGeneratedQuestions ?ds ?w1] =>
        destruct (saveGeneratedQuestions_exact ds w1) as (Hrun & Hlen & Hids)
    end.
    cbn [env with_randomPos idPos] in Hrun, Hlen, Hids.
    rewrite Hrun. eexists. split; [reflexivity|]. split.
    + unfold storeGrownBy. rewrite Hlen.
      repeat split; try reflexivity. exact Hids.
    + split; [exact Hlen|]. reflexivity.
  - rewrite app_nil_r, bind_run. cbn [mret Eff_ret]. rewrite bind_run.
    unfold generateQuestions at 1, gets at 1. rewrite bind_run.
    match goal with
    | |- context [saveGeneratedQuestions ?ds w] =>
        destruct (saveGeneratedQuestions_exact ds w) as (Hrun & Hlen & Hids)
    end.
    rewrite Hrun. eexists. split; [reflexivity|]. split.
    + unfold storeGrownBy. rewrite Hlen.
      repeat split; try reflexivity. exact Hids.
    + split; [exact Hlen|]. reflexivity.
Qed.

(** The loop: the drafts of all the short cells are saved, in order. *)
Lemma forOf_generateCell_exact existingByType categories
    (breakdown : list BreakdownEntry) :
  forall (generated : list Question) (w : World),
    let drafts :=
      generatedDrafts (env w) existingByType categories (randomPos w)
        breakdown in
    let saved :=
      zip_with savedAs (freshIds (env w) (idPos w) (length drafts)) drafts in
    exists w',
      forOf breakdown (generateCell existingByType categories) generated w
      = (Normal (generated ++ saved), w')
      /\ storeGrownBy w w' saved
      /\ length saved = length drafts.
Proof.
  induction breakdown as [|req breakdown IH]; intros generated w drafts saved;
    subst saved drafts.
  - exists w. cbn [forOf generatedDrafts length freshIds seq map zip_with].
    rewrite app_nil_r. split; [reflexivity|].
    split; [apply storeGrownBy_refl|reflexivity].
  - destruct (generateCell_exact existingByType categories req generated w)
      as (w1 & Hrun1 & Hg1 & Hlen1 & Hrest).
    rewrite (Hrest breakdown).
    set (d1 := generatedDrafts (env w) existingByType categories
                 (randomPos w) [req]) in *.
    set (s1 := zip_with savedAs (freshIds (env w) (idPos w) (length d1)) d1)
      in *.
    destruct (IH (generated ++ s1) w1) as (w2 & Hrun2 & Hg2 & Hlen2).
    set (d2 := generatedDrafts (env w1) existingByType categories
                 (randomPos w1) breakdown) in *.
    pose proof Hg1 as (Henv1 & _ & Hpos1 & _).
    rewrite Henv1, Hpos1, Hlen1 in Hrun2, Hg2, Hlen2.
    set (s2 := zip_with savedAs
                 (freshIds (env w) (idPos w + length d1) (length d2)) d2)
      in *.
    assert (Hsaved : zip_with savedAs
                       (freshIds (env w) (idPos w) (length (d1 ++ d2)))
                       (d1 ++ d2) = s1 ++ s2).
    { rewrite length_app, freshIds_app. apply zip_with_app.
      unfold freshIds. rewrite length_map, length_seq. reflexivity. }
    rewrite Hsaved. exists w2. cbn [forOf]. step Hrun1.
    rewrite Hrun2, app_assoc. split; [reflexivity|]. split.
    + exact (storeGrownBy_trans _ _ _ _ _ Hg1 Hg2).
    + rewrite !length_app. lia.
Qed.

(** X7: [generateAdditionalQuestions] saves before it cuts.  For each cell
    of the breakdown that [existing] leaves short, in order, the generator
    is asked for the missing number; every question it returns is appended
    to the store, under the next identities of the database; what is
    returned is [slice(0, count)] of the saved questions, so every returned
    question is stored, and what the generator supplied beyond [count] is
    stored without being returned.  Histories, tests and submissions are
    not touched. *)
Theorem generateAdditionalQuestions_saves_then_cuts (count : Z)
    (breakdown : list BreakdownEntry) (existing : list Question)
    (categories : option (list string)) (w : World) :
  let drafts :=
    generatedDrafts (env w) (countByType existing) categories (randomPos w)
      breakdown in
  let saved :=
    zip_with savedAs (freshIds (env w) (idPos w) (length drafts)) drafts in
  exists w',
    generateAdditionalQuestions count breakdown existing categories w
    = (Normal (slice0 count saved), w')
    /\ storeGrownBy w w' saved
    /\ length saved = length drafts
    /\ forall q, q ∈ slice0 count saved -> q ∈ questions (db w').
Proof.
  intros drafts saved. unfold generateAdditionalQuestions.
  destruct (forOf_generateCell_exact (countByType existing) categories
              breakdown [] w) as (w' & Hrun & Hg & Hlen).
  fold drafts in Hrun, Hg, Hlen. fold saved in Hrun, Hg, Hlen.
  exists w'. step Hrun. split; [reflexivity|]. split; [exact Hg|].
  split; [exact Hlen|].
  intros q Hq. destruct Hg as (_ & Hqs & _). rewrite Hqs.
  apply elem_of_app. right.
  eapply elem_of_sublist; [exact Hq|apply slice0_sublist].
Qed.

(** ** updateStudentHistory: the performance counters *)

Lemma rightUnder_le (key : Question -> string) (k : string)
    (answers : list Answer) (questions : list Question) :
  (rightUnder key k answers questions <= attemptsUnder key k questions)%nat.
Proof.
  unfold rightUnder, attemptsUnder.
  induction questions as [|q questions IH]; simpl; [lia|].
  destruct (String.eqb (key q) k); simpl; [|exact IH].
  destruct (answeredRight answers q); simpl; lia.
Qed.

Lemma perfAt_insert (m : gmap string Perf) (k k' : string) (p : Perf) :
  perfAt (<[k' := p]> m) k = if String.eqb k' k then p else perfAt m k.
Proof.
  unfold perfAt. destruct (String.eqb_spec k' k) as [->|Hne].
  - rewrite lookup_insert_eq. reflexivity.
  - rewrite lookup_insert_ne by exact Hne. reflexivity.
Qed.

Lemma foldl_recordQuestion_counters (testId : ObjectId) (now : Z)
    (answers : list Answer) (questions : list Question) :
  forall history k,
    let history' :=
      foldl (recordQuestion testId now answers) history questions in
    let before := perfAt (categoryPerformance history) k in
    let after := perfAt (categoryPerformance history') k in
    let before' := perfAt (difficultyPerformance history) k in
    let after' := perfAt (difficultyPerformance history') k in
    attempted after
    = (attempted before + attemptsUnder category k questions)%nat
    /\ correct after
       = (correct before + rightUnder category k answers questions)%nat
    /\ attempted after'
       = (attempted before' + attemptsUnder difficulty k questions)%nat
    /\ correct after'
       = (correct before' + rightUnder difficulty k answers questions)%nat.
Proof.
  induction questions as [|q questions IH]; intros history k; cbn [foldl].
  - unfold attemptsUnder, rightUnder. cbn. repeat split; lia.
  - destruct (IH (recordQuestion testId now answers history q) k)
      as (Ha & Hc & Ha' & Hc').
    cbn zeta in *. rewrite Ha, Hc, Ha', Hc'.
    cbn [recordQuestion categoryPerformance difficultyPerformance].
    rewrite !perfAt_insert.
    unfold attemptsUnder, rightUnder. cbn [List.filter].
    fold (answeredRight answers q). fold (perfAt (categoryPerformance history) (category q)).
    fold (perfAt (difficultyPerformance history) (difficulty q)).
    unfold bump.
    destruct (String.eqb_spec (category q) k) as [->|Hk];
      destruct (String.eqb_spec (difficulty q) k) as [->|Hd];
      destruct (answeredRight answers q);
      cbn [andb length attempted correct]; repeat split; lia.
Qed.

Lemma filterByIndex_overflow (questions : list Question)
    (answers : list Answer) :
  forall (i : nat) (w : World),
    (length (drop i questions) < length answers)%nat ->
    filterByIndex questions i answers w
    = (Thrown (typeError "Cannot read properties of undefined"), w).
Proof.
  induction answers as [|a answers IH]; intros i w Hlen;
    cbn [filterByIndex]; [simpl in Hlen; lia|].
  destruct (questions !! i) as [q|] eqn:Hq; [|reflexivity].
  rewrite (drop_S _ _ _ Hq) in Hlen. simpl in Hlen.
  apply (bind_thrown _ _ _ _ _ (IH (S i) w ltac:(lia))).
Qed.

(** What [updateStudentHistory] returns when it returns: the history the
    loop over the questions leaves, its two totals raised, stored for the
    learner. *)
Lemma updateStudentHistory_result (studentId testId : ObjectId)
    (questions : list Question) (answers : list Answer) (w w' : World)
    (history : StudentQuestionHistory) :
  historyReachable w studentId ->
  updateStudentHistory studentId testId questions answers w
  = (Normal history, w') ->
  let folded :=
    foldl (recordQuestion testId (clock (env w)) answers)
      (historyOf w studentId) questions in
  categoryPerformance history = categoryPerformance folded
  /\ difficultyPerformance history = difficultyPerformance folded
  /\ seenQuestions history = seenQuestions folded
  /\ student history = student (historyOf w studentId)
  /\ (length answers <= length questions)%nat
  /\ w' = with_db (fun d =>
            set_histories (<[student history := history]> (histories d)) d)
            (ensureHistory w studentId).
Proof.
  intros Hreach. unfold updateStudentHistory.
  step (getStudentHistory_spec _ _ Hreach).
  unfold recordAnswers. rewrite bind_run. unfold Date_now at 1, gets at 1.
  rewrite ensureHistory_env.
  destruct (Nat.le_gt_cases (length answers) (length questions)) as [Hle|Hgt].
  2:{ rewrite bind_run, filterByIndex_overflow by (rewrite drop_0; exact Hgt).
      discriminate. }
  destruct (filterByIndex_spec questions answers 0 (ensureHistory w studentId))
    as (counted & Hf & _); [rewrite drop_0; exact Hle|].
  rewrite bind_run, Hf, bind_run. unfold StudentQuestionHistory_save.
  rewrite ensureHistory_env.
  destruct (historyWriteFault (env w)); [discriminate|].
  cbn [mret Eff_ret]. intros Heq. injection Heq as <- <-.
  cbn [categoryPerformance difficultyPerformance seenQuestions student].
  destruct (foldl_recordQuestion testId (clock (env w)) answers questions
              (historyOf w studentId)) as (_ & _ & _ & Hst).
  cbn zeta in Hst. repeat split; try reflexivity; [exact Hst|exact Hle].
Qed.

(** X8: the performance counters of [updateStudentHistory].  Under every
    category the number of attempts rises by the number of questions of
    that category in the test, and the number of correct ones by the number
    of those whose answer, found by the identity of the question, is right;
    likewise under every difficulty. *)
Theorem updateStudentHistory_counters (studentId testId : ObjectId)
    (questions : list Question) (answers : list Answer) (w w' : World)
    (history : StudentQuestionHistory) (k : string) :
  historyReachable w studentId ->
  updateStudentHistory studentId testId questions answers w
  = (Normal history, w') ->
  let before := historyOf w studentId in
  attempted (perfAt (categoryPerformance history) k)
  = (attempted (perfAt (categoryPerformance before) k)
     + attemptsUnder category k questions)%nat
  /\ correct (perfAt (categoryPerformance history) k)
     = (correct (perfAt (categoryPerformance before) k)
        + rightUnder category k answers questions)%nat
  /\ attempted (perfAt (difficultyPerformance history) k)
     = (attempted (perfAt (difficultyPerformance before) k)
        + attemptsUnder difficulty k questions)%nat
  /\ correct (perfAt (difficultyPerformance history) k)
     = (correct (perfAt (difficultyPerformance before) k)
        + rightUnder difficulty k answers questions)%nat.
Proof.
  intros Hreach Hrun before.
  destruct (updateStudentHistory_result _ _ _ _ _ _ _ Hreach Hrun)
    as (Hcp & Hdp & _).
  rewrite Hcp, Hdp.
  apply (foldl_recordQuestion_counters testId (clock (env w)) answers
           questions (historyOf w studentId) k).
Qed.

(** X9: an invariant of [updateStudentHistory].  If no counter of the
    learner's history says more correct answers than attempts, none does
    after the update. *)
Theorem updateStudentHistory_keeps_counters_consistent
    (studentId testId : ObjectId) (questions : list Question)
    (answers : list Answer) (w w' : World)
    (history : StudentQuestionHistory) :
  historyReachable w studentId ->
  countersConsistent (historyOf w studentId) ->
  updateStudentHistory studentId testId questions answers w
  = (Normal history, w') ->
  countersConsistent history.
Proof.
  intros Hreach [Hcat Hdiff] Hrun.
  destruct (updateStudentHistory_result _ _ _ _ _ _ _ Hreach Hrun)
    as (Hcp & Hdp & _).
  assert (Hbefore : forall (m : gmap string Perf) k,
            (forall k perf, m !! k = Some perf ->
               (correct perf <= attempted perf)%nat) ->
            (correct (perfAt m k) <= attempted (perfAt m k))%nat).
  { intros m k Hm. unfold perfAt. destruct (m !! k) as [p|] eqn:Hk.
    - exact (Hm k p Hk).
    - simpl. lia. }
  split; intros k perf Hk.
  - destruct (foldl_recordQuestion_counters testId (clock (env w)) answers
                questions (historyOf w studentId) k) as (Ha & Hc & _).
    cbn zeta in Ha, Hc. rewrite <- Hcp in Ha, Hc.
    unfold perfAt at 1 in Ha. unfold perfAt at 1 in Hc.
    rewrite Hk in Ha, Hc. cbn [default from_option id] in Ha, Hc.
    rewrite Ha, Hc.
    pose proof (Hbefore _ k Hcat).
    pose proof (rightUnder_le category k answers questions). lia.
  - destruct (foldl_recordQuestion_counters testId (clock (env w)) answers
                questions (historyOf w studentId) k) as (_ & _ & Ha & Hc).
    cbn zeta in Ha, Hc. rewrite <- Hdp in Ha, Hc.
    unfold perfAt at 1 in Ha. unfold perfAt at 1 in Hc.
    rewrite Hk in Ha, Hc. cbn [default from_option id] in Ha, Hc.
    rewrite Ha, Hc.
    pose proof (Hbefore _ k Hdiff).
    pose proof (rightUnder_le difficulty k answers questions). lia.
Qed.

(** X10: more answers than questions.  When the submission holds more answers
    than the test has questions, [updateStudentHistory] throws a TypeError
    after its loop and before it saves: nothing of the test is recorded for
    the learner. *)
Theorem updateStudentHistory_more_answers_than_questions
    (studentId testId : ObjectId) (questions : list Question)
    (answers : list Answer) (w : World) :
  historyReachable w studentId ->
  (length questions < length answers)%nat ->
  updateStudentHistory studentId testId questions answers w
  = (Thrown (typeError "Cannot read properties of undefined"),
     ensureHistory w studentId)
  /\ histories (db (ensureHistory w studentId)) !! studentId
     = Some (historyOf w studentId).
Proof.
  intros Hreach Hlen. split.
  - unfold updateStudentHistory.
    step (getStudentHistory_spec _ _ Hreach).
    unfold recordAnswers. rewrite bind_run. unfold Date_now at 1, gets at 1.
    apply bind_thrown, filterByIndex_overflow.
    rewrite drop_0. exact Hlen.
  - unfold ensureHistory, historyOf.
    destruct (histories (db w) !! studentId) eqn:Hh; [exact Hh|].
    cbn. apply lookup_insert_eq.
Qed.

Lemma filterByIndex_none (questions : list Question) (answers : list Answer) :
  (forall q a, q ∈ questions -> checkAnswer q a = false) ->
  forall (i : nat) (w : World) (counted : list Answer),
    filterByIndex questions i answers w = (Normal counted, w) -> counted = [].
Proof.
  intros Hnone. induction answers as [|a answers IH]; intros i w counted;
    cbn [filterByIndex].
  - intros [= <-]. reflexivity.
  - destruct (questions !! i) as [q|] eqn:Hq; [|discriminate].
    destruct (filterByIndex_world questions answers (S i) w) as [[kept|e] Hr];
      rewrite bind_run, Hr; [|discriminate].
    cbn [mret Eff_ret].
    rewrite (Hnone q (answer a) (list_elem_of_lookup_2 _ _ _ Hq)).
    intros [= <-]. exact (IH _ _ _ Hr).
Qed.

(** X11: coding questions never count as correct in the history.  For a test
    made of coding questions only, whatever the answers and whatever the
    sandbox would make of them, [updateStudentHistory] marks every log entry
    as not answered correctly and leaves [correctAnswers] as it was, while
    [totalQuestionsAttempted] rises by the number of questions. *)
Theorem updateStudentHistory_coding_never_correct
    (studentId testId : ObjectId) (questions : list Question)
    (answers : list Answer) (w w' : World)
    (history : StudentQuestionHistory) :
  historyReachable w studentId ->
  (forall q, q ∈ questions -> questionType q = "Coding") ->
  updateStudentHistory studentId testId questions answers w
  = (Normal history, w') ->
  let before := historyOf w studentId in
  correctAnswers history = correctAnswers before
  /\ totalQuestionsAttempted history
     = (totalQuestionsAttempted before + length questions)%nat
  /\ exists entries,
       seenQuestions history = seenQuestions before ++ entries
       /\ map sq_question entries = map q_id questions
       /\ Forall (fun sq => answeredCorrectly sq = false) entries.
Proof.
  intros Hreach Hcoding Hrun before.
  assert (Hnone : forall q a, q ∈ questions -> checkAnswer q a = false).
  { intros q a Hq. unfold checkAnswer. rewrite (Hcoding q Hq). reflexivity. }
  destruct (updateStudentHistory_log _ _ _ _ _ _ _ Hreach Hrun)
    as [Hlog Htot].
  split; [|split; [exact Htot|]].
  - revert Hrun. unfold updateStudentHistory.
    step (getStudentHistory_spec _ _ Hreach).
    unfold recordAnswers. rewrite bind_run. unfold Date_now at 1, gets at 1.
    rewrite ensureHistory_env.
    destruct (filterByIndex_world questions answers 0
                (ensureHistory w studentId)) as [[counted|e] Hf];
      rewrite bind_run, Hf; [|discriminate].
    rewrite (filterByIndex_none questions answers Hnone _ _ _ Hf).
    rewrite bind_run. unfold StudentQuestionHistory_save.
    destruct (historyWriteFault _); [discriminate|].
    cbn [mret Eff_ret]. intros Heq. injection Heq as <- _.
    cbn [correctAnswers length].
    destruct (foldl_recordQuestion testId (clock (env w)) answers questions
                (historyOf w studentId)) as (_ & _ & Hcor & _).
    cbn zeta in Hcor. rewrite Hcor. subst before. lia.
  - exists (map (entryFor testId (clock (env w)) answers) questions).
    split; [exact Hlog|]. split.
    + rewrite map_map. reflexivity.
    + apply Forall_forall. intros sq Hsq.
      apply list_elem_of_fmap in Hsq as (q & -> & Hq).
      cbn [entryFor answeredCorrectly].
      destruct (List.find _ answers) as [a|]; [|reflexivity].
      apply Hnone, Hq.
Qed.

(** ** getWeakCategories *)

Lemma filter_sublist {A} (p : A -> bool) (l : list A) :
  sublist (List.filter p l) l.
Proof.
  induction l as [|x l IH]; simpl; [constructor|].
  destruct (p x); [apply sublist_skip|apply sublist_cons]; exact IH.
Qed.

Lemma elem_of_filter {A} (p : A -> bool) (l : list A) (x : A) :
  x ∈ List.filter p l <-> x ∈ l /\ p x = true.
Proof. rewrite !list_elem_of_In. apply filter_In. Qed.

(** The comparison with one half is exact on binary64 numbers for up to 150
    attempts. *)
Lemma weak_exact_up_to_150 :
  forallb (fun attempted =>
             forallb (weakExactAt attempted) (seq 0 (S attempted)))
          (seq 1 150)
  = true.
Proof. vm_compute. reflexivity. Qed.

(** X12: [getWeakCategories] lists, without repeats, exactly the categories
    the learner has attempted at least three times with an accuracy below
    one half; a learner without a history has none (and is given an empty
    history by the call). *)
Theorem getWeakCategories_spec (studentId : ObjectId) (w : World) :
  historyReachable w studentId ->
  exists weakCategories,
    getWeakCategories studentId w
    = (Normal weakCategories, ensureHistory w studentId)
    /\ NoDup weakCategories
    /\ (forall c,
          c ∈ weakCategories
          <-> exists perf,
                categoryPerformance (historyOf w studentId) !! c = Some perf
                /\ (3 <= attempted perf)%nat
                /\ (JS.num (Z.of_nat (correct perf))
                    / JS.num (Z.of_nat (attempted perf)) <? 0.5)%float = true)
    /\ (histories (db w) !! studentId = None -> weakCategories = []).
Proof.
  intros Hreach. eexists. unfold getWeakCategories.
  step (getStudentHistory_spec _ _ Hreach). split; [reflexivity|].
  set (m := categoryPerformance (historyOf w studentId)).
  split; [|split].
  - eapply sublist_NoDup; [apply (NoDup_fst_map_to_list m)|].
    apply (fmap_sublist fst), filter_sublist.
  - intros c. split.
    + intros Hc. apply list_elem_of_fmap in Hc as ([k perf] & -> & Hin).
      apply elem_of_filter in Hin as [Hin Hweak].
      apply elem_of_map_to_list in Hin. exists perf.
      split; [exact Hin|]. unfold isWeak in Hweak. cbn [snd] in Hweak.
      apply andb_true_iff in Hweak as [H3 Hacc].
      split; [apply Nat.leb_le, H3|exact Hacc].
    + intros (perf & Hin & H3 & Hacc).
      apply list_elem_of_fmap. exists (c, perf). split; [reflexivity|].
      apply elem_of_filter. split; [apply elem_of_map_to_list, Hin|].
      unfold isWeak. cbn [snd]. apply andb_true_iff.
      split; [apply Nat.leb_le, H3|exact Hacc].
  - intros Hnone. subst m. unfold historyOf. rewrite Hnone.
    cbn [default emptyHistory categoryPerformance].
    rewrite map_to_list_empty. reflexivity.
Qed.

(** * More properties of the test controller *)

(** ** The effects of submitTest *)

(** [submitTest] up to the lookup of the leave request. *)
Lemma submitTest_run (req : Request) (w : World) (test : Test) :
  tests (db w) !! params_id req = Some test ->
  let questions := populate (db w) test in
  let answers := body_answers req in
  let score := scoreFor (sandbox (env w)) questions answers in
  let totalQuestions := length questions in
  let isPassed := (passingScoreOf totalQuestions <=? Z.of_nat score)%Z in
  exists hs log,
    submitTest req w
    = finishSubmission req test score totalQuestions isPassed
        (beforeLeaveRequest w
           (runsForAll (sandbox (env w)) questions answers)
           (completed test score)
           (submissionOf req test score totalQuestions isPassed) hs log).
Proof.
  intros Htest questions answers score totalQuestions isPassed.
  unfold submitTest.
  rewrite (bind_normal _ _ w w (Some (test, questions)))
    by (unfold Test_findById_populate, gets; rewrite Htest; reflexivity).
  fold answers.
  step (gradeAnswers_spec questions answers w).
  fold score.
  erewrite (bind_normal (Test_save _)) by reflexivity.
  fold totalQuestions. fold isPassed.
  erewrite (bind_normal (Submission_save _)) by reflexivity.
  match goal with
  | |- context [(recordHistory _ _ _ _ ≫= _) ?w2] =>
      destruct (recordHistory_spec req test questions answers w2)
        as (hs & log & Hrec & _);
      rewrite bind_run, Hrec
  end.
  exists hs, log. reflexivity.
Qed.

Lemma notifyAdmin_exact req test leaveRequest score totalQuestions isPassed
    (admin : User) (u : unit) (w : World) :
  exists notice email,
    notifyAdmin req test leaveRequest score totalQuestions isPassed admin u w
    = (Normal tt,
       with_outbox (outbox w ++ [email])
         (with_db (fun d => set_notifications (notifications d ++ [notice]) d)
            w))
    /\ n_user notice = u_id admin /\ noticeAbout test notice
    /\ m_to email = u_email admin
    /\ emailAbout req leaveRequest score totalQuestions isPassed email.
Proof.
  eexists. eexists. split; [reflexivity|].
  repeat split.
Qed.

Lemma forOf_notifyAdmin_exact req test leaveRequest score totalQuestions
    isPassed (admins : list User) :
  forall (u : unit) (w : World),
  exists notices emails,
    forOf admins
      (notifyAdmin req test leaveRequest score totalQuestions isPassed) u w
    = (Normal tt,
       with_outbox (outbox w ++ emails)
         (with_db (fun d => set_notifications (notifications d ++ notices) d)
            w))
    /\ map n_user notices = map u_id admins
    /\ Forall (noticeAbout test) notices
    /\ map m_to emails = map u_email admins
    /\ Forall (emailAbout req leaveRequest score totalQuestions isPassed)
         emails.
Proof.
  induction admins as [|admin admins IH]; intros u w; cbn [forOf].
  - destruct u. exists [], []. split.
    + destruct w as [e d p i v c o]. destruct d.
      unfold with_outbox, with_db, set_notifications. cbn.
      rewrite !app_nil_r. reflexivity.
    + repeat split; constructor.
  - destruct (notifyAdmin_exact req test leaveRequest score totalQuestions
                isPassed admin u w)
      as (notice & email & Hrun1 & Hu & Hn & Hto & Hm).
    match type of Hrun1 with
    | _ = (_, ?w1) =>
        destruct (IH tt w1) as (notices & emails & Hrun2 & Hus & Hns & Htos & Hms)
    end.
    exists (notice :: notices), (email :: emails).
    step Hrun1. rewrite Hrun2. split.
    + unfold with_outbox, with_db, set_notifications. cbn.
      rewrite <- !app_assoc. reflexivity.
    + cbn [map]. rewrite Hu, Hus, Hto, Htos.
      repeat split; try constructor; assumption.
Qed.

(** [submitTest] for a test that exists and whose leave request is on file:
    the response and the world it leaves. *)
Lemma submitTest_exact (req : Request) (w : World) (test : Test)
    (leaveRequest : LeaveRequest) :
  tests (db w) !! params_id req = Some test ->
  leaveRequests (db w) !! test_leaveRequest test = Some leaveRequest ->
  let questions := populate (db w) test in
  let answers := body_answers req in
  let score := scoreFor (sandbox (env w)) questions answers in
  let totalQuestions := length questions in
  let isPassed := (passingScoreOf totalQuestions <=? Z.of_nat score)%Z in
  exists hs log notices emails,
    submitTest req w
    = (Normal (200%nat, gradeBody score isPassed totalQuestions),
       afterSubmission w
         (runsForAll (sandbox (env w)) questions answers)
         (completed test score)
         (submissionOf req test score totalQuestions isPassed) hs log
         (test_leaveRequest test)
         {| lr_subject := lr_subject leaveRequest;
            lr_status := "Test Completed" |}
         notices emails)
    /\ map n_user notices = map u_id (adminsOf w)
    /\ Forall (noticeAbout test) notices
    /\ map m_to emails = map u_email (adminsOf w)
    /\ Forall (emailAbout req leaveRequest score totalQuestions isPassed)
         emails.
Proof.
  intros Htest Hlr questions answers score totalQuestions isPassed.
  destruct (submitTest_run req w test Htest) as (hs & log & Hrun).
  cbn zeta in Hrun. fold questions answers score totalQuestions isPassed in Hrun.
  rewrite Hrun. unfold finishSubmission.
  match goal with
  | |- context [(LeaveRequest_findById _ ≫= _) ?w3] =>
      rewrite (bind_normal _ _ w3 w3 (Some leaveRequest))
        by (unfold LeaveRequest_findById, gets; cbn; rewrite Hlr; reflexivity)
  end.
  erewrite (bind_normal (LeaveRequest_save _ _)) by reflexivity.
  erewrite (bind_normal (User_find _)) by reflexivity.
  match goal with
  | |- context [(forOf ?admins _ tt ≫= _) ?w4] =>
      destruct (forOf_notifyAdmin_exact req test leaveRequest score
                  totalQuestions isPassed admins tt w4)
        as (notices & emails & Hloop & Hus & Hns & Htos & Hms)
  end.
  exists hs, log, notices, emails. step Hloop.
  split; [reflexivity|]. split; [exact Hus|]. split; [exact Hns|].
  split; [exact Htos|exact Hms].
Qed.






(** ** The score of a submission *)

Lemma questionFor_known sb (questions : list Question) (a : Answer) :
  (pointFor sb questions a
   <= if forKnownQuestion questions a then 1 else 0)%nat
  /\ (forKnownQuestion questions a = false ->
      runsFor sb questions a = []).
Proof.
  unfold pointFor, runsFor, forKnownQuestion.
  destruct (questionFor questions a) as [q|] eqn:Hq.
  - apply find_some in Hq as [Hin Heq]. apply String.eqb_eq in Heq.
    assert (Hk : inIds (questionId a) (map q_id questions) = true).
    { apply inIds_spec. rewrite <- Heq. apply list_elem_of_fmap.
      exists q. split; [reflexivity|apply list_elem_of_In, Hin]. }
    rewrite Hk. split; [|discriminate].
    destruct (String.eqb (questionType q) "MCQ");
      [destruct (String.eqb _ _); lia|].
    destruct (String.eqb (questionType q) "Coding"); [|lia].
    destruct (forallb _ _); lia.
  - split; [lia|reflexivity].
Qed.

Lemma scoreFor_known sb (questions : list Question) (answers : list Answer) :
  scoreFor sb questions answers
  = scoreFor sb questions (List.filter (forKnownQuestion questions) answers)
  /\ runsForAll sb questions answers
     = runsForAll sb questions
         (List.filter (forKnownQuestion questions) answers)
  /\ (scoreFor sb questions answers
      <= length (List.filter (forKnownQuestion questions) answers))%nat.
Proof.
  unfold scoreFor, runsForAll.
  induction answers as [|a answers (IH1 & IH2 & IH3)];
    [repeat split; simpl; lia|].
  cbn [foldr List.filter flat_map].
  destruct (questionFor_known sb questions a) as [Hle Hruns].
  destruct (forKnownQuestion questions a).
  - cbn [foldr flat_map length]. rewrite <- IH1, <- IH2.
    repeat split. lia.
  - rewrite (Hruns eq_refl), <- IH1, <- IH2. cbn [app].
    repeat split; lia.
Qed.



(** X18: answers for questions that are not part of the test are skipped.
    When every [questionId] of the submission is the text of an ObjectId (so
    that the Submission document passes validation), the response is the
    one of the submission without the answers for other questions, and the
    sandbox runs the same programs. *)
Theorem submitTest_skips_unknown_questions (req : Request) (w : World)
    (test : Test) (leaveRequest : LeaveRequest) :
  tests (db w) !! params_id req = Some test ->
  leaveRequests (db w) !! test_leaveRequest test = Some leaveRequest ->
  Forall (fun a => isObjectIdText (questionId a) = true) (body_answers req) ->
  let known :=
    List.filter (forKnownQuestion (populate (db w) test)) (body_answers req) in
  Forall (fun a => isObjectIdText (questionId a) = true) known
  /\ fst (submitTest req w) = fst (submitTest (withAnswers known req) w)
  /\ vmRuns (snd (submitTest req w))
     = vmRuns (snd (submitTest (withAnswers known req) w)).
Proof.
  intros Htest Hlr Hids known.
  split.
  { apply Forall_forall. intros a Ha. apply elem_of_filter in Ha as [Ha _].
    revert a Ha. apply Forall_forall, Hids. }
  destruct (submitTest_exact req w test leaveRequest Htest Hlr)
    as (hs & log & notices & emails & Hrun & _).
  destruct (submitTest_exact (withAnswers known req) w test leaveRequest
              Htest Hlr)
    as (hs' & log' & notices' & emails' & Hrun' & _).
  cbn zeta in Hrun, Hrun'. rewrite Hrun, Hrun'.
  cbn [fst snd vmRuns afterSubmission body_answers withAnswers].
  destruct (scoreFor_known (sandbox (env w)) (populate (db w) test)
              (body_answers req)) as (Hs & Hr & _).
  fold known in Hs, Hr. rewrite <- Hs, <- Hr. split; reflexivity.
Qed.

(** ** Unknown tests *)

(** X19: an unknown test.  For an id that is the text of an ObjectId and
    that no test is stored under, [getTestById] and [submitTest] both answer
    404 'Test not found' and change nothing; nothing is graded or stored. *)
Theorem unknown_test_not_found (req : Request) (w : World) :
  isObjectIdText (params_id req) = true ->
  tests (db w) !! params_id req = None ->
  getTestById (params_id req) w
  = (Thrown {| err_status := 404; err_message := "Test not found" |}, w)
  /\ submitTest req w
     = (Thrown {| err_status := 404; err_message := "Test not found" |}, w).
Proof.
  intros _ Hnone. unfold getTestById, submitTest.
  rewrite !(bind_normal _ _ w w None)
    by (unfold Test_findById_populate, gets; rewrite Hnone; reflexivity).
  split; reflexivity.
Qed.

(** * Properties of the question controller *)

(** ** deleteQuestion *)

Lemma find_by_id (id : ObjectId) (l : list Question) :
  match List.find (fun q => String.eqb (q_id q) id) l with
  | Some q => q ∈ l /\ q_id q = id
  | None => id ∉ map q_id l
  end.
Proof.
  destruct (List.find _ l) as [q|] eqn:Hf.
  - apply find_some in Hf as [Hin Heq].
    split; [apply list_elem_of_In, Hin|apply String.eqb_eq, Heq].
  - intros Hin. apply list_elem_of_fmap in Hin as (q & -> & Hq).
    apply list_elem_of_In in Hq.
    pose proof (find_none _ _ Hf q Hq) as Hne. cbn in Hne.
    rewrite String.eqb_refl in Hne. discriminate Hne.
Qed.

Lemma elem_of_without (id : ObjectId) (l : list Question) (q : Question) :
  q ∈ without id l <-> q ∈ l /\ q_id q <> id.
Proof.
  unfold without. rewrite elem_of_filter, negb_true_iff, String.eqb_neq.
  reflexivity.
Qed.

Lemma deleteQuestion_exact (id : ObjectId) (w : World) :
  id ∈ map q_id (questions (db w)) ->
  QuestionController.deleteQuestion id w
  = (Normal (200%nat, VObj {[ "message" := VStr "Question removed" ]}),
     with_db (fun d => set_questions (without id (questions d)) d) w).
Proof.
  intros Hin. unfold QuestionController.deleteQuestion.
  rewrite bind_run. unfold QuestionController.Question_findById, gets.
  pose proof (find_by_id id (questions (db w))) as Hf.
  destruct (List.find _ (questions (db w))) as [q|]; [|contradiction].
  destruct Hf as [_ <-]. reflexivity.
Qed.

Lemma deleteQuestion_unknown (id : ObjectId) (w : World) :
  id ∉ map q_id (questions (db w)) ->
  QuestionController.deleteQuestion id w
  = (Thrown {| err_status := 404; err_message := "Question not found" |}, w).
Proof.
  intros Hnot. unfold QuestionController.deleteQuestion.
  rewrite bind_run. unfold QuestionController.Question_findById, gets.
  pose proof (find_by_id id (questions (db w))) as Hf.
  destruct (List.find _ (questions (db w))) as [q|]; [|reflexivity].
  destruct Hf as [Hq <-]. exfalso. apply Hnot, list_elem_of_fmap.
  exists q. split; [reflexivity|exact Hq].
Qed.

(** X20: [deleteQuestion] on a stored question answers 200 and removes that
    question and no other; tests, histories and submissions are left as
    they were; deleting the same question again answers 404 'Question not
    found' and changes nothing. *)
Theorem deleteQuestion_removes (id : ObjectId) (w : World) :
  id ∈ map q_id (questions (db w)) ->
  exists w',
    QuestionController.deleteQuestion id w
    = (Normal (200%nat, VObj {[ "message" := VStr "Question removed" ]}), w')
    /\ (forall q, q ∈ questions (db w') <-> q ∈ questions (db w) /\ q_id q <> id)
    /\ tests (db w') = tests (db w)
    /\ histories (db w') = histories (db w)
    /\ submissions (db w') = submissions (db w)
    /\ QuestionController.deleteQuestion id w'
       = (Thrown {| err_status := 404; err_message := "Question not found" |},
          w').
Proof.
  intros Hin. eexists. split; [apply deleteQuestion_exact, Hin|].
  split; [intros q; apply elem_of_without|].
  repeat split. apply deleteQuestion_unknown.
  cbn. intros Hid. apply list_elem_of_fmap in Hid as (q & Heq & Hq).
  apply elem_of_without in Hq as [_ Hne]. congruence.
Qed.

Lemma find_without (id ref : ObjectId) (l : list Question) :
  List.find (fun q => String.eqb (q_id q) ref) (without id l)
  = if String.eqb ref id then None
    else List.find (fun q => String.eqb (q_id q) ref) l.
Proof.
  unfold without. induction l as [|q l IH]; cbn [List.filter List.find].
  - destruct (String.eqb ref id); reflexivity.
  - destruct (String.eqb_spec (q_id q) id) as [Hq|Hq]; cbn [negb].
    + rewrite IH. destruct (String.eqb_spec ref id) as [Hr|Hr].
      * destruct (String.eqb_spec (q_id q) ref); [|reflexivity].
        reflexivity.
      * destruct (String.eqb_spec (q_id q) ref); [congruence|reflexivity].
    + cbn [List.find]. rewrite IH.
      destruct (String.eqb_spec (q_id q) ref) as [Hr|Hr]; [|reflexivity].
      destruct (String.eqb_spec ref id); [congruence|reflexivity].
Qed.

Lemma populate_without (id : ObjectId) (w : World) (test : Test) :
  populate
    (db (with_db (fun d => set_questions (without id (questions d)) d) w)) test
  = without id (populate (db w) test).
Proof.
  unfold populate. cbn [db with_db questions set_questions].
  unfold omap.
  induction (test_questions test) as [|ref refs IH]; [reflexivity|].
  cbn [list_omap]. rewrite find_without, IH.
  destruct (String.eqb_spec ref id) as [->|Hne].
  - pose proof (find_by_id id (questions (db w))) as Hf.
    destruct (List.find _ (questions (db w))) as [q|]; [|reflexivity].
    destruct Hf as [_ Hq]. unfold without at 2. cbn [List.filter].
    rewrite Hq, String.eqb_refl. reflexivity.
  - pose proof (find_by_id ref (questions (db w))) as Hf.
    destruct (List.find _ (questions (db w))) as [q|]; [|reflexivity].
    destruct Hf as [_ Hq]. unfold without at 2. cbn [List.filter].
    rewrite Hq. apply String.eqb_neq in Hne. rewrite Hne. reflexivity.
Qed.

(** X21: deleting a question shrinks the tests that hold it.  After
    [deleteQuestion], the questions [Test.findById(...).populate] gives for
    any test are those it gave before without the deleted one, so the
    question is no longer shown by [getTestById] nor counted by
    [submitTest]. *)
Theorem deleteQuestion_shrinks_tests (id : ObjectId) (w : World) (test : Test) :
  id ∈ map q_id (questions (db w)) ->
  exists response w',
    QuestionController.deleteQuestion id w = (Normal response, w')
    /\ tests (db w') = tests (db w)
    /\ populate (db w') test = without id (populate (db w) test)
    /\ (length (populate (db w') test) <= length (populate (db w) test))%nat
    /\ (forall q, q ∈ populate (db w') test -> q_id q <> id).
Proof.
  intros Hin. eexists. eexists.
  split; [apply deleteQuestion_exact, Hin|].
  split; [reflexivity|]. rewrite populate_without.
  split; [reflexivity|]. split.
  - unfold without. apply sublist_length, filter_sublist.
  - intros q Hq. apply elem_of_without in Hq. tauto.
Qed.


(** ** Selecting without generating *)



(** * Properties of the template fallback of the generator *)












Lemma filterByType_all (pool : list QuestionDraft) :
  filterByType "all" pool = pool.
Proof. reflexivity. Qed.

Lemma filter_nil_iff {A} (p : A -> bool) (l : list A) :
  List.filter p l = [] <-> forall x, x ∈ l -> p x = false.
Proof.
  induction l as [|y l IH]; cbn [List.filter].
  - split; [intros _ x Hx; inversion Hx|reflexivity].
  - destruct (p y) eqn:Hy.
    + split; [discriminate|]. intros H.
      rewrite (H y (list_elem_of_here _ _)) in Hy. discriminate Hy.
    + rewrite IH. split.
      * intros H x Hx. apply elem_of_cons in Hx as [->|Hx]; auto.
      * intros H x Hx. apply H, list_elem_of_further, Hx.
Qed.


(** X26: the fallback of the filter.  When no candidate is of the type asked
    for, the type is not enforced: the request is answered as a request
    for 'all' types is. *)
Theorem generateFromTemplates_type_fallback (allTemplates : Templates)
    (category difficulty questionType : string) (count : Z) (w : World) :
  (forall q, q ∈ candidates allTemplates category difficulty ->
     typeWanted questionType q = false) ->
  generateFromTemplates allTemplates category difficulty questionType count w
  = generateFromTemplates allTemplates category difficulty "all" count w.
Proof.
  intros Hnone. unfold generateFromTemplates.
  fold (candidates allTemplates category difficulty).
  rewrite filterByType_all.
  assert (Hf : filterByType questionType
                 (candidates allTemplates category difficulty)
               = candidates allTemplates category difficulty).
  { apply filter_nil_iff in Hnone. unfold filterByType, typeWanted in *.
    destruct (String.eqb_spec questionType "MCQ") as [->|Hmcq].
    - cbn [String.eqb Ascii.eqb Bool.eqb negb andb]. cbn. rewrite Hnone.
      reflexivity.
    - destruct (_ && _); [|reflexivity]. rewrite Hnone. reflexivity. }
  rewrite Hf. reflexivity.
Qed.



(** * The adaptive-difficulty handler *)

Lemma historyOf_ensureHistory (w : World) (studentId : ObjectId) :
  historyOf (ensureHistory w studentId) studentId = historyOf w studentId.
Proof.
  unfold historyOf, ensureHistory.
  destruct (histories (db w) !! studentId) eqn:Hh.
  - rewrite Hh. reflexivity.
  - cbn. rewrite lookup_insert_eq. reflexivity.
Qed.

Lemma ensureHistory_twice (w : World) (studentId : ObjectId) :
  ensureHistory (ensureHistory w studentId) studentId
  = ensureHistory w studentId.
Proof.
  unfold ensureHistory at 1.
  destruct (histories (db (ensureHistory w studentId)) !! studentId) eqn:Hh;
    [reflexivity|].
  exfalso. unfold ensureHistory in Hh.
  destruct (histories (db w) !! studentId) eqn:Hw.
  - rewrite Hw in Hh. discriminate Hh.
  - cbn in Hh. rewrite lookup_insert_eq in Hh. discriminate Hh.
Qed.

(** X28: the handler of the adaptive-difficulty route answers with the
    difficulty profile and the weak categories the selector computes for
    the learner named in the route, or for the caller when the route names
    nobody; both are read from the same history, and the only thing the
    request writes is an empty history for a learner who had none. *)
Theorem getAdaptiveDifficulty_handler (studentId : ObjectId) (user : User)
    (w : World) :
  historyReachable w studentId ->
  studentId <> "" ->
  exists difficulty weakCategories,
    getAdaptiveDifficulty studentId w
    = (Normal difficulty, ensureHistory w studentId)
    /\ getWeakCategories studentId w
       = (Normal weakCategories, ensureHistory w studentId)
    /\ QuestionController.getAdaptiveDifficulty (Some studentId) user w
       = (Normal
            (200%nat,
             VObj (<["recommendedDifficulty" :=
                       QuestionController.DifficultyDist_toObject difficulty]>
                     (<["weakCategories" := VArr (map VStr weakCategories)]>
                        ∅))),
          ensureHistory w studentId)
    /\ (u_id user = studentId ->
        QuestionController.getAdaptiveDifficulty None user w
        = QuestionController.getAdaptiveDifficulty (Some studentId) user w).
Proof.
  intros Hreach Hne.
  destruct (getAdaptiveDifficulty_profiles _ _ Hreach) as (dist & Hrun & _).
  assert (Hweak : forall w0, historyReachable w0 studentId ->
            getWeakCategories studentId w0
            = (Normal
                 (map fst
                    (List.filter (fun entry => isWeak (snd entry))
                       (map_to_list
                          (categoryPerformance (historyOf w0 studentId))))),
               ensureHistory w0 studentId)).
  { intros w0 H0. unfold getWeakCategories.
    step (getStudentHistory_spec _ _ H0). reflexivity. }
  exists dist. eexists. split; [exact Hrun|].
  split; [apply Hweak, Hreach|]. split.
  - unfold QuestionController.getAdaptiveDifficulty.
    apply String.eqb_neq in Hne. rewrite Hne.
    step Hrun.
    step (Hweak _ (ensureHistory_reachable _ _ Hreach)).
    rewrite historyOf_ensureHistory, ensureHistory_twice. reflexivity.
  - intros <-. unfold QuestionController.getAdaptiveDifficulty.
    apply String.eqb_neq in Hne. rewrite Hne. reflexivity.
Qed.

(** * Filling a test with generated questions *)

Lemma countByType_foldl (existing : list Question) :
  forall (m : gmap string nat) (k : string),
    default 0%nat
      (foldl (fun existingByType q =>
                let key := typeKey (difficulty q) (questionType q) in
                <[key := (default 0 (existingByType !! key) + 1)%nat]>
                  existingByType)
             m existing !! k)
    = (default 0%nat (m !! k) + filedUnder k existing)%nat.
Proof.
  unfold filedUnder, keyOf.
  induction existing as [|q existing IH]; intros m k; cbn [foldl List.filter].
  - cbn. lia.
  - rewrite IH. cbn zeta.
    destruct (String.eqb_spec (typeKey (difficulty q) (questionType q)) k)
      as [->|Hne].
    + rewrite lookup_insert_eq. cbn [default from_option id length]. lia.
    + rewrite lookup_insert_ne by exact Hne. reflexivity.
Qed.

Lemma countByType_spec (existing : list Question) (k : string) :
  default 0%nat (countByType existing !! k) = filedUnder k existing.
Proof.
  unfold countByType. rewrite countByType_foldl.
  rewrite lookup_empty. reflexivity.
Qed.

(** Questions filed under distinct keys are distinct questions. *)
Lemma filedUnder_sum (keys : list string) (existing : list Question) :
  NoDup keys ->
  (foldr (fun k acc => filedUnder k existing + acc) 0 keys
   <= length existing)%nat.
Proof.
  intros Hnd. unfold filedUnder.
  induction existing as [|q existing IH]; cbn [List.filter length].
  - induction keys as [|k keys IHk]; cbn [foldr]; [lia|].
    apply NoDup_cons in Hnd as [_ Hnd]. specialize (IHk Hnd). lia.
  - assert (Hone : forall ks, NoDup ks ->
              (foldr (fun k acc =>
                        length (if String.eqb (keyOf q) k
                                then q :: List.filter
                                            (fun q0 => String.eqb (keyOf q0) k)
                                            existing
                                else List.filter
                                       (fun q0 => String.eqb (keyOf q0) k)
                                       existing) + acc) 0 ks
               <= (if bool_decide (keyOf q ∈ ks) then 1 else 0)
                  + foldr (fun k acc =>
                             length (List.filter
                                       (fun q0 => String.eqb (keyOf q0) k)
                                       existing) + acc) 0 ks)%nat).
    { induction ks as [|k ks IHk]; intros Hks; cbn [foldr]; [lia|].
      apply NoDup_cons in Hks as [Hk Hks]. specialize (IHk Hks).
      destruct (String.eqb_spec (keyOf q) k) as [Heq|Hne].
      - subst k. rewrite bool_decide_eq_true_2 by apply list_elem_of_here.
        rewrite (bool_decide_eq_false_2 _ Hk) in IHk.
        cbn [length]. lia.
      - destruct (bool_decide (keyOf q ∈ ks)) eqn:Hin.
        + apply bool_decide_eq_true_1 in Hin.
          rewrite bool_decide_eq_true_2
            by (apply list_elem_of_further, Hin). lia.
        + apply bool_decide_eq_false_1 in Hin.
          rewrite bool_decide_eq_false_2; [lia|].
          intros Hbad. apply elem_of_cons in Hbad as [Hbad|Hbad]; auto. }
    specialize (Hone keys Hnd).
    destruct (bool_decide (keyOf q ∈ keys)); lia.
Qed.

Lemma entryKeys_NoDup (total : Z) (dd : DifficultyDist) (td : TypeDist) :
  NoDup (map entryKey (calculateQuestionBreakdown total dd td)).
Proof.
  assert (Hsub : sublist (map cellOf (calculateQuestionBreakdown total dd td))
                   allCells).
  { unfold calculateQuestionBreakdown, allCells, difficultyNames.
    cbn [flat_map]. rewrite !map_app, !app_nil_r.
    repeat apply sublist_app; apply tierEntries_cells. }
  apply (fmap_sublist (fun c => typeKey (fst c) (snd c))) in Hsub.
  rewrite <- list_fmap_compose in Hsub.
  eapply sublist_NoDup; [|exact Hsub].
  apply (bool_decide_unpack _). vm_compute. reflexivity.
Qed.

Lemma generateCell_delivers existingByType categories (req : BreakdownEntry)
    (generated : list Question) (w : World) :
  delivers (env w) ->
  exists new w',
    generateCell existingByType categories req generated w
    = (Normal (generated ++ new), w')
    /\ env w' = env w
    /\ Z.of_nat (length new)
       = Z.max 0 (req_count req
                  - Z.of_nat (default 0%nat (existingByType !! entryKey req))).
Proof.
  intros Hdel. unfold generateCell. fold (entryKey req).
  destruct (Z.ltb_spec 0
              (req_count req
               - Z.of_nat (default 0%nat (existingByType !! entryKey req))))
    as [Hpos|Hneg].
  2:{ exists [], w. rewrite app_nil_r. split; [reflexivity|].
      split; [reflexivity|]. simpl. lia. }
  assert (Hcat : exists category w1,
             (match categories with
              | Some (c :: cs) =>
                  i ← Math_random_below (length (c :: cs));
                  mret (default "" ((c :: cs) !! i))
              | _ => mret "General"
              end : Eff string) w = (Normal category, w1)
             /\ env w1 = env w).
  { destruct categories as [[|c cs]|]; eauto. }
  destruct Hcat as (category & w1 & Hcat & Henv1).
  step Hcat. rewrite bind_run.
  unfold generateQuestions at 1, gets at 1. rewrite bind_run.
  match goal with
  | |- context [saveGeneratedQuestions ?drafts w1] =>
      destruct (saveGeneratedQuestions_exact drafts w1) as (Hrun & Hlen & _);
      assert (Hdrafts : length drafts
                        = Z.to_nat
                            (req_count req
                             - Z.of_nat
                                 (default 0%nat
                                    (existingByType !! entryKey req))))
        by (rewrite Henv1; apply Hdel; exact Hpos)
  end.
  cbn zeta in Hrun, Hlen. rewrite Hrun.
  eexists. eexists. split; [reflexivity|]. split; [exact Henv1|].
  rewrite Hlen, Hdrafts. lia.
Qed.

Lemma forOf_generateCell_delivers existingByType categories
    (breakdown : list BreakdownEntry) :
  forall (generated : list Question) (w : World),
    delivers (env w) ->
    exists new w',
      forOf breakdown (generateCell existingByType categories) generated w
      = (Normal (generated ++ new), w')
      /\ env w' = env w
      /\ Z.of_nat (length new)
         = foldr (fun req acc =>
                    (Z.max 0
                       (req_count req
                        - Z.of_nat
                            (default 0%nat (existingByType !! entryKey req)))
                     + acc)%Z)
                 0%Z breakdown.
Proof.
  induction breakdown as [|req breakdown IH]; intros generated w Hdel.
  - exists [], w. cbn [forOf]. rewrite app_nil_r.
    split; [reflexivity|]. split; reflexivity.
  - destruct (generateCell_delivers existingByType categories req generated w
                Hdel) as (n1 & w1 & Hrun1 & Henv1 & Hlen1).
    destruct (IH (generated ++ n1) w1) as (n2 & w2 & Hrun2 & Henv2 & Hlen2).
    { rewrite Henv1. exact Hdel. }
    exists (n1 ++ n2), w2. cbn [forOf].
    step Hrun1. rewrite Hrun2, app_assoc.
    split; [reflexivity|]. split; [congruence|].
    rewrite length_app. cbn [foldr]. lia.
Qed.

Lemma shortfall_sum (existing : list Question)
    (breakdown : list BreakdownEntry) :
  NoDup (map entryKey breakdown) ->
  (sumCounts breakdown - Z.of_nat (length existing)
   <= foldr (fun req acc =>
               (Z.max 0
                  (req_count req
                   - Z.of_nat
                       (default 0%nat
                          (countByType existing !! entryKey req)))
                + acc)%Z)
            0%Z breakdown)%Z.
Proof.
  intros Hnd.
  pose proof (filedUnder_sum (map entryKey breakdown) existing Hnd) as Hsum.
  revert Hsum. generalize (length existing). clear Hnd.
  unfold sumCounts.
  induction breakdown as [|req breakdown IH]; intros n Hsum;
    cbn [foldr map] in *; [lia|].
  rewrite countByType_spec.
  specialize (IH (n - filedUnder (entryKey req) existing)%nat ltac:(lia)).
  lia.
Qed.

Lemma selectQuestionsForTest_filled (studentId : ObjectId)
    (config : SelectorConfig) (w : World) :
  historyReachable w studentId ->
  generateIfNeeded config = true ->
  validConfig (totalQuestions config) (difficultyDistribution config)
    (questionTypes config) ->
  delivers (env w) ->
  exists result w',
    selectQuestionsForTest studentId config w = (Normal result, w')
    /\ (totalQuestions config <= Z.of_nat (length result))%Z
    /\ (Z.of_nat (length result)
        <= sumCounts (calculateQuestionBreakdown (totalQuestions config)
                        (difficultyDistribution config)
                        (questionTypes config)))%Z.
Proof.
  intros Hreach Hgen Hvalid Hdel.
  destruct (calculateQuestionBreakdown_exact_iff _ _ _ Hvalid) as [Hsum _].
  unfold selectQuestionsForTest.
  step (getStudentHistory_spec _ _ Hreach).
  set (w1 := ensureHistory w studentId).
  assert (Henv1 : env w1 = env w) by apply ensureHistory_env.
  rewrite bind_run. unfold gets at 1.
  set (recent := if avoidRecentQuestions config then _ else []).
  set (breakdown := calculateQuestionBreakdown _ _ _) in *.
  assert (Hpool : exists pool,
            (match poolId config with
             | Some id => QuestionPool_findById id
             | None => QuestionPool_findDefault
             end) w1 = (Normal pool, w1)).
  { destruct (poolId config); eexists; reflexivity. }
  destruct Hpool as [pool Hpool].
  step Hpool.
  destruct (selectQuestions_spec breakdown recent (categories config) pool w1)
    as (selected & n & Hsel & Hlen & _).
  step Hsel.
  rewrite sampleSizes_sumCounts in Hlen
    by apply calculateQuestionBreakdown_positive.
  rewrite Hgen, andb_true_r.
  destruct (Z.ltb_spec (Z.of_nat (length selected)) (totalQuestions config))
    as [Hshort|Hfull].
  - destruct (forOf_generateCell_delivers (countByType selected)
                (categories config) breakdown [] (with_randomPos n w1))
      as (new & w2 & Hrun & _ & Hnew).
    { cbn [env with_randomPos]. rewrite Henv1. exact Hdel. }
    cbn [app] in Hrun.
    assert (Hadd : generateAdditionalQuestions
                     (totalQuestions config - Z.of_nat (length selected))
                     breakdown selected (categories config)
                     (with_randomPos n w1)
                   = (Normal
                        (take
                           (Z.to_nat
                              (totalQuestions config
                               - Z.of_nat (length selected))) new), w2)).
    { unfold generateAdditionalQuestions. step Hrun.
      cbn [mret Eff_ret]. rewrite slice0_take by lia. reflexivity. }
    rewrite bind_run, (bind_normal _ _ _ _ _ Hadd). cbn [mret Eff_ret].
    match goal with
    | |- context [shuffleArray ?l w2] =>
        destruct (shuffleArray_spec l w2) as (result & m & Hsh & Hperm)
    end.
    exists result, (with_randomPos m w2). rewrite Hsh.
    split; [reflexivity|].
    pose proof (shortfall_sum selected breakdown
                  (entryKeys_NoDup _ _ _)) as Hshortfall.
    rewrite Hperm, length_app, length_take. lia.
  - rewrite bind_run. cbn [mret Eff_ret].
    destruct (shuffleArray_spec selected (with_randomPos n w1))
      as (result & m & Hsh & Hperm).
    exists result, (with_randomPos m (with_randomPos n w1)). rewrite Hsh.
    split; [reflexivity|]. rewrite Hperm. lia.
Qed.

(** X29: with generation on and a generator that delivers, a test is never
    short.  For a non-negative total and non-negative percentages, the
    selector returns at least [totalQuestions] questions and at most as many
    as the breakdown asks for: exactly [totalQuestions] whenever the store
    alone gave fewer. *)
Theorem selectQuestionsForTest_fills_the_test (studentId : ObjectId)
    (config : SelectorConfig) (w : World) :
  historyReachable w studentId ->
  generateIfNeeded config = true ->
  validConfig (totalQuestions config) (difficultyDistribution config)
    (questionTypes config) ->
  delivers (env w) ->
  exists result w',
    selectQuestionsForTest studentId config w = (Normal result, w')
    /\ (totalQuestions config <= Z.of_nat (length result))%Z
    /\ (Z.of_nat (length result)
        <= sumCounts (calculateQuestionBreakdown (totalQuestions config)
                        (difficultyDistribution config)
                        (questionTypes config)))%Z.
Proof. apply selectQuestionsForTest_filled. Qed.

(** ** The selection for a leave request *)

(** X30: the selection [submitLeaveRequest] asks for.  Whatever the learner's
    record, the difficulty profile the adaptive step answers with splits
    the 7 questions of a leave test into cells that sum to exactly 7, and
    the selection that follows returns at most 7 questions: exactly 7 when
    the generator delivers what it is asked for. *)
Theorem selectForLeaveRequest_at_most_seven (user : User) (w : World) :
  historyReachable w (u_id user) ->
  exists adaptiveDifficulty result w',
    getAdaptiveDifficulty (u_id user) w
    = (Normal adaptiveDifficulty, ensureHistory w (u_id user))
    /\ sumCounts
         (calculateQuestionBreakdown 7 adaptiveDifficulty
            (questionTypes (leaveTestConfig adaptiveDifficulty)))
       = 7%Z
    /\ selectForLeaveRequest user w = (Normal result, w')
    /\ (length result <= 7)%nat
    /\ (delivers (env w) -> length result = 7%nat).
Proof.
  intros Hreach.
  destruct (getAdaptiveDifficulty_profiles _ _ Hreach) as (dist & Hrun & Hd).
  assert (Hsum : sumCounts
                   (calculateQuestionBreakdown 7 dist
                      (questionTypes (leaveTestConfig dist))) = 7%Z).
  { destruct Hd as [->|[->|[->| ->]]]; vm_compute; reflexivity. }
  assert (Hvalid : validConfig 7 dist (questionTypes (leaveTestConfig dist))).
  { destruct Hd as [->|[->|[->| ->]]];
      (split; [lia|]); repeat split; reflexivity. }
  pose proof (ensureHistory_reachable _ _ Hreach) as Hreach1.
  destruct (selectQuestionsForTest_within_total (u_id user)
              (leaveTestConfig dist) (ensureHistory w (u_id user)) Hreach1)
    as (result & w' & Hsel & Hlen).
  { cbn [totalQuestions difficultyDistribution questionTypes leaveTestConfig]
      in *.
    rewrite Hsum. lia. }
  exists dist, result, w'. split; [exact Hrun|]. split; [exact Hsum|].
  unfold selectForLeaveRequest. step Hrun. split; [exact Hsel|].
  cbn [totalQuestions leaveTestConfig] in Hlen. split; [lia|].
  intros Hdel.
  destruct (selectQuestionsForTest_filled (u_id user) (leaveTestConfig dist)
              (ensureHistory w (u_id user)) Hreach1 eq_refl Hvalid)
    as (result' & w'' & Hsel' & Hlow & _).
  { rewrite ensureHistory_env. exact Hdel. }
  rewrite Hsel in Hsel'. injection Hsel' as <- _.
  cbn [totalQuestions leaveTestConfig] in Hlow. lia.
Qed.

(** * The further theorems at sample inputs *)

(** Sam's leave test: at most seven questions. *)
Lemma selectForLeaveRequest_at_most_seven_witness :
  historyReachable samWorld (u_id student1)
  /\ exists adaptiveDifficulty result w',
       selectForLeaveRequest student1 samWorld = (Normal result, w')
       /\ sumCounts
            (calculateQuestionBreakdown 7 adaptiveDifficulty
               (questionTypes (leaveTestConfig adaptiveDifficulty)))
          = 7%Z
       /\ (length result <= 7)%nat.
Proof.
  assert (Hreach : historyReachable samWorld (u_id student1)).
  { split; [reflexivity|]. intros _. reflexivity. }
  split; [exact Hreach|].
  destruct (selectForLeaveRequest_at_most_seven student1 samWorld Hreach)
    as (dist & result & w' & _ & Hsum & Hsel & Hlen & _).
  exists dist, result, w'. split; [exact Hsel|]. split; [exact Hsum|exact Hlen].
Defined.

(** The question Sam saw yesterday is recent for a week and for a month. *)
Lemma getRecentlySeenQuestionIds_window_witness :
  (7 <= 30)%Z
  /\ (forall t t',
        (LocalTZA sampleEnv t false - LocalTZA sampleEnv t' false
         <= msPerDay)%Z)
  /\ cutoffDate sampleEnv 30 <> None
  /\ "e1" ∈ getRecentlySeenQuestionIds sampleEnv samHistory 7
  /\ "e1" ∈ getRecentlySeenQuestionIds sampleEnv samHistory 30.
Proof.
  assert (Hweek : "e1" ∈ getRecentlySeenQuestionIds sampleEnv samHistory 7).
  { vm_compute. apply list_elem_of_here. }
  assert (Hzone : forall t t',
            (LocalTZA sampleEnv t false - LocalTZA sampleEnv t' false
             <= msPerDay)%Z).
  { intros t t'. cbn. unfold msPerDay. lia. }
  assert (Hvalid : cutoffDate sampleEnv 30 <> None).
  { vm_compute. discriminate. }
  split; [lia|]. split; [exact Hzone|]. split; [exact Hvalid|].
  split; [exact Hweek|].
  apply (getRecentlySeenQuestionIds_window sampleEnv samHistory 7 30 "e1");
    [lia|exact Hzone|exact Hvalid|exact Hweek].
Defined.

(** A learner the bank has never seen gets an empty history. *)
Lemma getStudentHistory_find_or_create_witness :
  historyReachable bankWorld "s1"
  /\ exists history w',
       getStudentHistory "s1" bankWorld = (Normal history, w')
       /\ histories (db w') !! "s1" = Some history
       /\ history = emptyHistory "s1".
Proof.
  assert (Hreach : historyReachable bankWorld "s1").
  { split; [reflexivity|]. intros _. reflexivity. }
  split; [exact Hreach|].
  destruct (getStudentHistory_find_or_create "s1" bankWorld Hreach)
    as (history & w' & Hrun & Hstored & Hnew & _).
  exists history, w'. split; [exact Hrun|]. split; [exact Hstored|].
  apply Hnew. reflexivity.
Defined.

(** The two questions of the quiz, both answered right: two attempts and two
    correct answers under 'General', one of each under 'easy'. *)
Lemma updateStudentHistory_counters_witness :
  historyReachable (quizWorld 60) "s1"
  /\ exists history w',
       updateStudentHistory "s1" "t2" twoQuestions rightAnswers (quizWorld 60)
       = (Normal history, w')
       /\ attempted (perfAt (categoryPerformance history) "General") = 2%nat
       /\ correct (perfAt (categoryPerformance history) "General") = 2%nat
       /\ attempted (perfAt (difficultyPerformance history) "easy") = 1%nat
       /\ correct (perfAt (difficultyPerformance history) "easy") = 1%nat.
Proof.
  assert (Hreach : historyReachable (quizWorld 60) "s1").
  { split; [reflexivity|]. intros _. reflexivity. }
  split; [exact Hreach|].
  assert (Hrun : exists history w',
            updateStudentHistory "s1" "t2" twoQuestions rightAnswers
              (quizWorld 60) = (Normal history, w')).
  { eexists. eexists. vm_compute. reflexivity. }
  destruct Hrun as (history & w' & Hrun).
  exists history, w'. split; [exact Hrun|].
  destruct (updateStudentHistory_counters "s1" "t2" twoQuestions rightAnswers
              (quizWorld 60) w' history "General" Hreach Hrun)
    as (Ha & Hc & _).
  destruct (updateStudentHistory_counters "s1" "t2" twoQuestions rightAnswers
              (quizWorld 60) w' history "easy" Hreach Hrun)
    as (_ & _ & Ha' & Hc').
  rewrite Ha, Hc, Ha', Hc'. vm_compute. repeat split.
Defined.

(** The same update keeps the counters consistent. *)
Lemma updateStudentHistory_keeps_counters_consistent_witness :
  historyReachable (quizWorld 60) "s1"
  /\ countersConsistent (historyOf (quizWorld 60) "s1")
  /\ exists history w',
       updateStudentHistory "s1" "t2" twoQuestions rightAnswers (quizWorld 60)
       = (Normal history, w')
       /\ countersConsistent history.
Proof.
  assert (Hreach : historyReachable (quizWorld 60) "s1").
  { split; [reflexivity|]. intros _. reflexivity. }
  assert (Hcons : countersConsistent (historyOf (quizWorld 60) "s1")).
  { assert (Hh : historyOf (quizWorld 60) "s1" = emptyHistory "s1")
      by (vm_compute; reflexivity).
    rewrite Hh.
    split; intros k perf Hk;
      cbn [emptyHistory categoryPerformance difficultyPerformance] in Hk;
      rewrite lookup_empty in Hk; discriminate Hk. }
  split; [exact Hreach|]. split; [exact Hcons|].
  assert (Hrun : exists history w',
            updateStudentHistory "s1" "t2" twoQuestions rightAnswers
              (quizWorld 60) = (Normal history, w')).
  { eexists. eexists. vm_compute. reflexivity. }
  destruct Hrun as (history & w' & Hrun).
  exists history, w'. split; [exact Hrun|].
  exact (updateStudentHistory_keeps_counters_consistent "s1" "t2" twoQuestions
           rightAnswers (quizWorld 60) w' history Hreach Hcons Hrun).
Defined.

(** Three answers for the two questions of the quiz. *)
Lemma updateStudentHistory_more_answers_than_questions_witness :
  historyReachable (quizWorld 60) "s1"
  /\ (length twoQuestions
      < length (rightAnswers ++ [ {| questionId := "q3"; answer := "C" |} ]))%nat
  /\ updateStudentHistory "s1" "t2" twoQuestions
       (rightAnswers ++ [ {| questionId := "q3"; answer := "C" |} ])
       (quizWorld 60)
     = (Thrown (typeError "Cannot read properties of undefined"),
        ensureHistory (quizWorld 60) "s1").
Proof.
  assert (Hreach : historyReachable (quizWorld 60) "s1").
  { split; [reflexivity|]. intros _. reflexivity. }
  assert (Hlen : (length twoQuestions
                  < length (rightAnswers
                            ++ [ {| questionId := "q3"; answer := "C" |} ]))%nat)
    by (simpl; lia).
  split; [exact Hreach|]. split; [exact Hlen|].
  apply (updateStudentHistory_more_answers_than_questions "s1" "t2"
           twoQuestions _ (quizWorld 60) Hreach Hlen).
Defined.

(** One correct answer out of five under 'React' makes it a weak category;
    five out of five under 'Python' does not. *)
Lemma getWeakCategories_spec_witness :
  historyReachable mixedWorld "s3"
  /\ exists weakCategories,
       getWeakCategories "s3" mixedWorld
       = (Normal weakCategories, ensureHistory mixedWorld "s3")
       /\ "React" ∈ weakCategories
       /\ "Python" ∉ weakCategories.
Proof.
  assert (Hreach : historyReachable mixedWorld "s3").
  { split; [reflexivity|]. intros _. reflexivity. }
  split; [exact Hreach|].
  destruct (getWeakCategories_spec "s3" mixedWorld Hreach)
    as (weak & Hrun & _ & Hiff & _).
  exists weak. split; [exact Hrun|]. split.
  - apply Hiff. exists {| attempted := 5; correct := 1 |}.
    split; [vm_compute; reflexivity|]. split; [simpl; lia|].
    vm_compute. reflexivity.
  - intros Hin. apply Hiff in Hin as (perf & Hperf & _ & Hacc).
    vm_compute in Hperf. injection Hperf as <-.
    vm_compute in Hacc. discriminate Hacc.
Defined.






(** An answer for a question the test does not hold changes nothing. *)
Lemma submitTest_skips_unknown_questions_witness :
  tests (db storedWorld) !! "65a000000000000000000b01" = Some storedTest
  /\ leaveRequests (db storedWorld) !! "l1" = Some examWeek
  /\ Forall (fun a => isObjectIdText (questionId a) = true)
       (storedAnswers ++ [strayAnswer])
  /\ fst (submitTest
            (submission "65a000000000000000000b01"
               (storedAnswers ++ [strayAnswer]))
            storedWorld)
     = fst (submitTest (submission "65a000000000000000000b01" storedAnswers)
              storedWorld).
Proof.
  assert (Hids : Forall (fun a => isObjectIdText (questionId a) = true)
                   (storedAnswers ++ [strayAnswer])).
  { repeat constructor. }
  split; [vm_compute; reflexivity|]. split; [vm_compute; reflexivity|].
  split; [exact Hids|].
  destruct (submitTest_skips_unknown_questions
              (submission "65a000000000000000000b01"
                 (storedAnswers ++ [strayAnswer]))
              storedWorld storedTest examWeek)
    as (_ & Hfst & _).
  - vm_compute; reflexivity.
  - vm_compute; reflexivity.
  - exact Hids.
  - exact Hfst.
Defined.

(** No test is stored under a well-formed id that was never handed out. *)
Lemma unknown_test_not_found_witness :
  isObjectIdText "65a000000000000000000b09" = true
  /\ tests (db storedWorld) !! "65a000000000000000000b09" = None
  /\ getTestById "65a000000000000000000b09" storedWorld
     = (Thrown {| err_status := 404; err_message := "Test not found" |},
        storedWorld)
  /\ submitTest (submission "65a000000000000000000b09" storedAnswers)
       storedWorld
     = (Thrown {| err_status := 404; err_message := "Test not found" |},
        storedWorld).
Proof.
  assert (Hnone : tests (db storedWorld) !! "65a000000000000000000b09" = None)
    by (vm_compute; reflexivity).
  split; [reflexivity|]. split; [exact Hnone|].
  exact (unknown_test_not_found
           (submission "65a000000000000000000b09" storedAnswers) storedWorld
           eq_refl Hnone).
Defined.

(** Deleting [e1] from the bank. *)
Lemma deleteQuestion_removes_witness :
  "e1" ∈ map q_id (questions (db bankWorld))
  /\ exists w',
       QuestionController.deleteQuestion "e1" bankWorld
       = (Normal (200%nat, VObj {[ "message" := VStr "Question removed" ]}), w')
       /\ map q_id (questions (db w')) = ["e2"; "m1"; "m2"; "h1"]
       /\ fst (QuestionController.deleteQuestion "e1" w')
          = Thrown {| err_status := 404; err_message := "Question not found" |}.
Proof.
  assert (Hin : "e1" ∈ map q_id (questions (db bankWorld)))
    by (vm_compute; apply list_elem_of_here).
  split; [exact Hin|].
  destruct (deleteQuestion_removes "e1" bankWorld Hin)
    as (w' & Hrun & _ & _ & _ & _ & Hagain).
  exists w'. split; [exact Hrun|]. rewrite Hagain. split; [|reflexivity].
  assert (Hw : snd (QuestionController.deleteQuestion "e1" bankWorld) = w')
    by (rewrite Hrun; reflexivity).
  rewrite <- Hw. vm_compute. reflexivity.
Defined.

(** Deleting [q1] leaves the quiz with one question. *)
Lemma deleteQuestion_shrinks_tests_witness :
  "q1" ∈ map q_id (questions (db (quizWorld 60)))
  /\ exists response w',
       QuestionController.deleteQuestion "q1" (quizWorld 60)
       = (Normal response, w')
       /\ map q_id (populate (db w') (assignedTest "t2" ["q1"; "q2"] 60))
          = ["q2"].
Proof.
  assert (Hin : "q1" ∈ map q_id (questions (db (quizWorld 60)))).
  { vm_compute. apply list_elem_of_further, list_elem_of_here. }
  split; [exact Hin|].
  destruct (deleteQuestion_shrinks_tests "q1" (quizWorld 60)
              (assignedTest "t2" ["q1"; "q2"] 60) Hin)
    as (response & w' & Hrun & _ & Hpop & _).
  exists response, w'. split; [exact Hrun|]. rewrite Hpop.
  vm_compute. reflexivity.
Defined.





(** A fill-in-the-blank question asked from a table that has none. *)
Lemma generateFromTemplates_type_fallback_witness :
  (forall q, q ∈ candidates sampleTemplates "Python" "easy" ->
     typeWanted "FillInBlank" q = false)
  /\ generateFromTemplates sampleTemplates "Python" "easy" "FillInBlank" 3
       bankWorld
     = generateFromTemplates sampleTemplates "Python" "easy" "all" 3 bankWorld.
Proof.
  assert (Hnone : forall q, q ∈ candidates sampleTemplates "Python" "easy" ->
                    typeWanted "FillInBlank" q = false).
  { apply Forall_forall. vm_compute. repeat constructor. }
  split; [exact Hnone|].
  exact (generateFromTemplates_type_fallback sampleTemplates "Python" "easy"
           "FillInBlank" 3 bankWorld Hnone).
Defined.


(** The route named for the learner with the mixed record. *)
Lemma getAdaptiveDifficulty_handler_witness :
  historyReachable mixedWorld "s3"
  /\ "s3" <> ""
  /\ exists difficulty weakCategories,
       QuestionController.getAdaptiveDifficulty (Some "s3") admin1 mixedWorld
       = (Normal
            (200%nat,
             VObj (<["recommendedDifficulty" :=
                       QuestionController.DifficultyDist_toObject difficulty]>
                     (<["weakCategories" := VArr (map VStr weakCategories)]>
                        ∅))),
          ensureHistory mixedWorld "s3")
       /\ getWeakCategories "s3" mixedWorld
          = (Normal weakCategories, ensureHistory mixedWorld "s3").
Proof.
  assert (Hreach : historyReachable mixedWorld "s3").
  { split; [reflexivity|]. intros _. reflexivity. }
  assert (Hne : "s3" <> "") by discriminate.
  split; [exact Hreach|]. split; [exact Hne|].
  destruct (getAdaptiveDifficulty_handler "s3" admin1 mixedWorld Hreach Hne)
    as (difficulty & weak & _ & Hweak & Hrun & _).
  exists difficulty, weak. split; [exact Hrun|exact Hweak].
Defined.

(** Seven questions asked from the bank, which holds five that fit, with a
    generator that delivers: seven questions come back. *)
Lemma selectQuestionsForTest_fills_the_test_witness :
  historyReachable deliveringWorld "s1"
  /\ validConfig 7 defaultDifficultyDist defaultTypeDist
  /\ delivers (env deliveringWorld)
  /\ exists result w',
       selectQuestionsForTest "s1" (leaveTestConfig defaultDifficultyDist)
         deliveringWorld
       = (Normal result, w')
       /\ length result = 7%nat.
Proof.
  assert (Hreach : historyReachable deliveringWorld "s1").
  { split; [reflexivity|]. intros _. reflexivity. }
  assert (Hv : validConfig 7 defaultDifficultyDist defaultTypeDist).
  { split; [lia|]. repeat split; reflexivity. }
  assert (Hdel : delivers (env deliveringWorld)).
  { intros request _. apply length_replicate. }
  split; [exact Hreach|]. split; [exact Hv|]. split; [exact Hdel|].
  destruct (selectQuestionsForTest_fills_the_test "s1"
              (leaveTestConfig defaultDifficultyDist) deliveringWorld
              Hreach eq_refl Hv Hdel)
    as (result & w' & Hrun & Hlow & Hup).
  exists result, w'. split; [exact Hrun|].
  assert (Hsum : sumCounts
                   (calculateQuestionBreakdown 7 defaultDifficultyDist
                      defaultTypeDist) = 7%Z) by (vm_compute; reflexivity).
  cbn [totalQuestions difficultyDistribution questionTypes leaveTestConfig]
    in Hlow, Hup.
  change {| MCQ := 70; Coding := Some 20%float; TrueFalse := 10 |}
    with defaultTypeDist in Hup.
  rewrite Hsum in Hup. lia.
Defined.

(** The doubling program, right on the first case, submitted for the coding
    question: the history does not count it. *)
Lemma updateStudentHistory_coding_never_correct_witness :
  historyReachable codingWorld "s1"
  /\ (forall q, q ∈ [codingQuestion] -> questionType q = "Coding")
  /\ exists history w',
       updateStudentHistory "s1" "t3" [codingQuestion] [codingAnswer]
         codingWorld
       = (Normal history, w')
       /\ correctAnswers history = 0%nat
       /\ totalQuestionsAttempted history = 1%nat.
Proof.
  assert (Hreach : historyReachable codingWorld "s1").
  { split; [reflexivity|]. intros _. reflexivity. }
  assert (Hcoding : forall q, q ∈ [codingQuestion] -> questionType q = "Coding").
  { intros q Hq. apply list_elem_of_singleton in Hq. subst q. reflexivity. }
  split; [exact Hreach|]. split; [exact Hcoding|].
  assert (Hrun : exists history w',
            updateStudentHistory "s1" "t3" [codingQuestion] [codingAnswer]
              codingWorld = (Normal history, w')).
  { eexists. eexists. vm_compute. reflexivity. }
  destruct Hrun as (history & w' & Hrun).
  exists history, w'. split; [exact Hrun|].
  destruct (updateStudentHistory_coding_never_correct "s1" "t3"
              [codingQuestion] [codingAnswer] codingWorld w' history
              Hreach Hcoding Hrun) as (Hcor & Htot & _).
  rewrite Hcor, Htot. split; reflexivity.
Defined.
